(** * Integrity-OS: the verification and decision pipeline

    A shallow embedding of [core/causal_graph.py], [core/dissonance_detector.py]
    and [core/inhibition_controller.py], of the extraction of claims in
    [core/gpt2_generator.py] and of the graph insertions of
    [crawlers/wikidata_crawler.py], and the properties of the relationship
    query, the dissonance scorer and the inhibition policy.

    Conventions of the embedding.
    - A Python [float] is an IEEE-754 binary64 number: Rocq's primitive
      [float], with the same rounding for [+], [-], [*], [/] and the same
      comparisons (every comparison with a NaN is false).
    - A Python [int] is a [Z].
    - A Python [str] is a [string] (the bytes of its UTF-8 encoding);
      [str.lower], whose result depends on the interpreter's tables of
      Unicode, is a service of the runtime, and every property is stated for
      whatever it maps a text to.
    - A [dict] whose iteration order is observed (the node and adjacency
      tables of a graph) is an association list in insertion order; a [dict]
      that is only looked up is a [gmap].
    - A method of a class takes the object's state and returns the new state
      next to its result; a raised exception is a value of [exn].
    - Clock readings and the draw of the random generator are arguments. *)

From Stdlib Require Import ZArith List String Ascii Bool Lia Floats.
From stdpp Require Import base option list gmap strings.

Set Default Proof Using "Type".
Local Open Scope Z_scope.
Local Open Scope string_scope.

(** ** Binary64 order

    [x <=? y] and [x <? y] are the primitive comparisons; their meaning is
    given by [SFcompare] on the decoded numbers. *)

Module F64.

Definition le (x y : float) : Prop := PrimFloat.leb x y = true.
Definition lt (x y : float) : Prop := PrimFloat.ltb x y = true.
Definition is_number (x : float) : Prop := PrimFloat.is_nan x = false.

(** A decoded number that is a zero or finite. *)
Definition sf_finite (x : spec_float) : bool :=
  match x with
  | S754_zero _ | S754_finite _ _ _ => true
  | _ => false
  end.

End F64.

(** ** Python values, exceptions and runtime services *)

(** The exceptions the modelled code can raise. *)
Inductive exn :=
  | KeyError (key : string)
  | ZeroDivisionError
  | OverflowError.

Inductive result (A : Type) :=
  | Ok (a : A)
  | Raise (e : exn).
Arguments Ok {A} a.
Arguments Raise {A} e.

(** The values stored in the attribute dictionaries of nodes. *)
Inductive pyval :=
  | VNone
  | VBool (b : bool)
  | VInt (z : Z)
  | VFloat (x : float)
  | VStr (s : string)
  | VList (l : list string).

(** Services of the Python runtime whose output is text.  The code only
    stores or concatenates what the clock and the formatting return; it
    searches the text [str.lower] returns, and no property below assumes
    anything about that text. *)
Class PyRuntime := {
  datetime : Type;
  (** [d.isoformat()] *)
  isoformat : datetime → string;
  (** [d.strftime('%Y%m%d_%H%M%S')] *)
  strftime_YmdHMS : datetime → string;
  (** [f"{x:.2f}"] *)
  format_2f : float → string;
  (** [f"{v}"] for an attribute value *)
  py_str : pyval → string;
  (** [s.lower()] *)
  str_lower : string → string
}.

(** *** Strings *)

Definition ascii_lower (c : ascii) : ascii :=
  let n := nat_of_ascii c in
  if ((65 <=? n) && (n <=? 90))%nat then ascii_of_nat (n + 32) else c.

(** The lowering of a text whose cased letters beyond ASCII are lower-case
    already: the ASCII letters are lowered and every other byte is kept.  On
    such a text it is [s.lower()]; it serves the concrete runs, whose texts
    are of this kind, and [capitalize], which the code applies to five
    constant names. *)
Fixpoint lower_ascii (s : string) : string :=
  match s with
  | EmptyString => EmptyString
  | String c s' => String (ascii_lower c) (lower_ascii s')
  end.

(** [sub in s] *)
Fixpoint str_in (sub s : string) : bool :=
  String.prefix sub s ||
  match s with
  | EmptyString => false
  | String _ s' => str_in sub s'
  end.

(** [s.replace(' ', '_')] *)
Fixpoint replace_space (s : string) : string :=
  match s with
  | EmptyString => EmptyString
  | String c s' =>
      String (if Ascii.eqb c " " then "_"%char else c) (replace_space s')
  end.

(** Truth value of an optional string: [None] and [''] are false. *)
Definition truthy (s : option string) : bool :=
  match s with
  | Some (String _ _) => true
  | _ => false
  end.

(** [f"{s}"] for an optional string. *)
Definition str_opt (s : option string) : string := default "None" s.

(** *** Numbers *)

(** [min(x, y)] on floats: the first argument unless the second is smaller. *)
Definition py_min (x y : float) : float :=
  if PrimFloat.ltb y x then y else x.

(** [max(a, b)] on ints. *)
Definition py_max (a b : Z) : Z := if (a <? b)%Z then b else a.

Definition Z2SF (z : Z) : spec_float :=
  match z with
  | Z0 => S754_zero false
  | Zpos p => S754_finite false p 0
  | Zneg p => S754_finite true p 0
  end.

(** [float(n)]: the int rounded to binary64, exact below 2^53 (the code
    converts the length of a path of at most 4 nodes). *)
Definition float_of_int (n : Z) : float := SF2Prim (binary_normalize prec emax n 0 false).

(** The least quotient that rounds to more than the largest binary64. *)
Definition overflow_threshold : Z := 2 ^ 1024 - 2 ^ 970.

(** [a / b] on ints: the quotient rounded once to binary64; a zero divisor
    and a quotient beyond the range of binary64 raise. *)
Definition int_truediv (a b : Z) : result float :=
  if (b =? 0)%Z then Raise ZeroDivisionError
  else if (overflow_threshold * Z.abs b <=? Z.abs a)%Z then Raise OverflowError
  else Ok (SF2Prim (SFdiv prec emax (Z2SF a) (Z2SF b))).

(** The conversion of an int operand of a float operation: an int that
    rounds beyond the largest binary64 raises. *)
Definition int_to_float (n : Z) : result float :=
  if (overflow_threshold <=? Z.abs n)%Z then Raise OverflowError
  else Ok (float_of_int n).

(** [x / y] on floats: a zero divisor raises. *)
Definition float_truediv (x y : float) : result float :=
  if PrimFloat.eqb y 0%float then Raise ZeroDivisionError else Ok (x / y)%float.

(** *** Slices *)

(** [l[:limit]]: a negative [limit] counts from the end. *)
Definition slice_to {A} (limit : Z) (l : list A) : list A :=
  if (0 <=? limit)%Z then take (Z.to_nat limit) l
  else take (length l - Z.to_nat (Z.opp limit))%nat l.

(** [l[-n:]] for a positive [n]: the last [n] elements, all of a shorter list. *)
Definition last_n {A} (n : nat) (l : list A) : list A := drop (length l - n)%nat l.

(** *** Dictionaries in insertion order *)

Section ordered_dict.
Context {K V : Type} `{EqDecision K}.

(** [d.get(k)] *)
Fixpoint od_get (k : K) (d : list (K * V)) : option V :=
  match d with
  | [] => None
  | (k', v) :: d' => if decide (k = k') then Some v else od_get k d'
  end.

(** [k in d] *)
Definition od_mem (k : K) (d : list (K * V)) : bool :=
  match od_get k d with Some _ => true | None => false end.

(** [d[k] = f(d.get(k))]: an existing key keeps its position, a new key
    goes to the end. *)
Fixpoint od_upsert (k : K) (f : option V → V) (d : list (K * V)) : list (K * V) :=
  match d with
  | [] => [(k, f None)]
  | (k', v) :: d' =>
      if decide (k = k') then (k, f (Some v)) :: d'
      else (k', v) :: od_upsert k f d'
  end.
End ordered_dict.

(** ** The attributed directed graph ([networkx.DiGraph])

    The library keeps a node table and, per node, the table of its
    out-neighbours and the table of its in-neighbours, each in insertion
    order.  Nodes and edges are never removed by the modelled code, so the
    out-neighbours of [v] in insertion order are the targets of the edges
    leaving [v], in the order in which these edges were first added, and
    likewise for the in-neighbours: the embedding keeps one node table and one
    edge table, both in insertion order. *)

Module nx.

Abbreviation attrs := (gmap string pyval).

(** The keyword attributes of an edge: [None] is an absent key. *)
Record edge_attrs := {
  relation : option string;
  confidence : option float;
  source : option (option string);
  added_at : option string
}.

Definition no_attrs : edge_attrs :=
  {| relation := None; confidence := None; source := None; added_at := None |}.

(** [datadict.update(attr)] *)
Definition edge_update (old new : edge_attrs) : edge_attrs :=
  {| relation := match relation new with Some r => Some r | None => relation old end;
     confidence := match confidence new with Some c => Some c | None => confidence old end;
     source := match source new with Some s => Some s | None => source old end;
     added_at := match added_at new with Some t => Some t | None => added_at old end |}.

Record DiGraph := {
  nodes : list (string * attrs);
  edges : list (string * string * edge_attrs)
}.

Definition empty : DiGraph := {| nodes := []; edges := [] |}.

Definition has_node (G : DiGraph) (n : string) : bool := od_mem n (nodes G).

Definition has_edge (G : DiGraph) (u v : string) : bool := od_mem (u, v) (edges G).

Definition get_edge_data (G : DiGraph) (u v : string) : option edge_attrs :=
  od_get (u, v) (edges G).

Definition number_of_nodes (G : DiGraph) : Z := Z.of_nat (length (nodes G)).

Definition number_of_edges (G : DiGraph) : Z := Z.of_nat (length (edges G)).

(** [G.add_node(n, **attr)]: a new node gets [attr]; an existing node has its
    attributes updated with [attr]. *)
Definition add_node (G : DiGraph) (n : string) (attr : attrs) : DiGraph :=
  {| nodes := od_upsert n (λ old, attr ∪ default ∅ old) (nodes G);
     edges := edges G |}.

(** [G.add_edge(u, v, **attr)]: missing endpoints are created without
    attributes, [u] first; the attributes of an existing edge are updated. *)
Definition add_edge (G : DiGraph) (u v : string) (attr : edge_attrs) : DiGraph :=
  {| nodes := od_upsert v (default ∅) (od_upsert u (default ∅) (nodes G));
     edges := od_upsert (u, v) (λ old, edge_update (default no_attrs old) attr) (edges G) |}.

(** [G.succ[v]] and [G.pred[v]], as the lists of their keys. *)
Definition successors (G : DiGraph) (v : string) : list string :=
  omap (λ e, if decide (e.1.1 = v) then Some e.1.2 else None) (edges G).

Definition predecessors (G : DiGraph) (v : string) : list string :=
  omap (λ e, if decide (e.1.2 = v) then Some e.1.1 else None) (edges G).

(** *** Unweighted shortest path: bidirectional breadth-first search

    [pred] maps a node reached from the source to the node it was reached
    from, [succ] a node reached backwards from the target to the node it was
    reached from; the source and the target map to [None]. *)

Abbreviation links := (gmap string (option string)).

(** The body of [for w in nbrs:] while the level of [v] is expanded:
    [if w not in mine: fringe.append(w); mine[w] = v] and then
    [if w in other: return w]. *)
Fixpoint scan_neighbours (other : links) (v : string) (ws : list string)
    (mine : links) (fringe : list string) : links * list string * option string :=
  match ws with
  | [] => (mine, fringe, None)
  | w :: ws' =>
      let '(mine', fringe') :=
        match mine !! w with
        | None => (<[w := Some v]> mine, (fringe ++ [w])%list)
        | Some _ => (mine, fringe)
        end in
      match other !! w with
      | Some _ => (mine', fringe', Some w)
      | None => scan_neighbours other v ws' mine' fringe'
      end
  end.

(** [for v in this_level: for w in nbrs[v]: ...] *)
Fixpoint scan_level (nbrs : string → list string) (other : links)
    (this_level : list string) (mine : links) (fringe : list string)
    : links * list string * option string :=
  match this_level with
  | [] => (mine, fringe, None)
  | v :: vs =>
      match scan_neighbours other v (nbrs v) mine fringe with
      | (mine', fringe', Some w) => (mine', fringe', Some w)
      | (mine', fringe', None) => scan_level nbrs other vs mine' fringe'
      end
  end.

Inductive search :=
  | Meet (pred succ : links) (w : string)
  | NoPath
  | OutOfFuel.

(** [while forward_fringe and reverse_fringe:]: the shorter fringe is
    expanded, the forward one on a tie. *)
Fixpoint search_loop (fuel : nat) (G : DiGraph) (pred succ : links)
    (forward_fringe reverse_fringe : list string) : search :=
  match fuel with
  | O => OutOfFuel
  | S fuel' =>
      match forward_fringe, reverse_fringe with
      | [], _ | _, [] => NoPath
      | _, _ =>
          if (length forward_fringe <=? length reverse_fringe)%nat then
            match scan_level (successors G) succ forward_fringe pred [] with
            | (pred', _, Some w) => Meet pred' succ w
            | (pred', fringe', None) =>
                search_loop fuel' G pred' succ fringe' reverse_fringe
            end
          else
            match scan_level (predecessors G) pred reverse_fringe succ [] with
            | (succ', _, Some w) => Meet pred succ' w
            | (succ', fringe', None) =>
                search_loop fuel' G pred succ' forward_fringe fringe'
            end
      end
  end.

(** Every round but the last adds a node to [pred] or to [succ], and a node
    other than the source and the target enters these tables as an endpoint
    of an edge. *)
Definition search_fuel (G : DiGraph) : nat := 2 * length (edges G) + 2.

Definition bidirectional_pred_succ (G : DiGraph) (source target : string) : search :=
  if decide (target = source) then
    Meet {[target := None]} {[source := None]} source
  else
    search_loop (search_fuel G) G {[source := None]} {[target := None]}
      [source] [target].

(** [while w is not None: path.append(w); w = links[w]] *)
Fixpoint follow (fuel : nat) (m : links) (w : option string) : list string :=
  match fuel, w with
  | S fuel', Some x => x :: follow fuel' m (mjoin (m !! x))
  | _, _ => []
  end.

Inductive path_result :=
  | Path (p : list string)
  | NetworkXNoPath
  | Unfinished.

(** [nx.shortest_path(G, source, target)] for two nodes of [G]. *)
Definition shortest_path (G : DiGraph) (source target : string) : path_result :=
  match bidirectional_pred_succ G source target with
  | Meet pred succ w =>
      Path ((rev (follow (size pred) pred (Some w))
             ++ follow (size succ) succ (mjoin (succ !! w)))%list)
  | NoPath => NetworkXNoPath
  | OutOfFuel => Unfinished
  end.

End nx.

Set Warnings "-inexact-float,-clear-no-such-hyp".

Definition newline : string := String (ascii_of_nat 10) EmptyString.

(** ** [CausalGraph]: the three-layer world model *)

Module CausalGraph.
Section with_runtime.
Context {rt : PyRuntime}.

(** The object's fields ([uncertainty_weights] is never read or written
    after construction and is left out). *)
Record t := {
  semantic : nx.DiGraph;
  episodic : nx.DiGraph;
  self_model : nx.DiGraph;
  creation_time : datetime;
  last_update : datetime
}.

Definition kw (l : list (string * pyval)) : nx.attrs := list_to_map l.

Definition manufactures : nx.edge_attrs :=
  {| nx.relation := Some "manufactures"; nx.confidence := Some 1.0%float;
     nx.source := None; nx.added_at := None |}.

Definition certified_partner : nx.edge_attrs :=
  {| nx.relation := Some "certified_partner"; nx.confidence := Some 1.0%float;
     nx.source := None; nx.added_at := None |}.

(** [for paper_name, attrs in papers: ...] with
    [node_id = f"{company}_{paper_name.replace(' ', '_')}"]. *)
Definition add_papers (company : string) (papers : list (string * list (string * pyval)))
    (G : nx.DiGraph) : nx.DiGraph :=
  foldl (λ G '(paper_name, attrs),
      let node_id := company ++ "_" ++ replace_space paper_name in
      let G := nx.add_node G node_id
        (kw (("node_type", VStr "paper") :: ("name", VStr paper_name) :: attrs)) in
      nx.add_edge G company node_id manufactures) G papers.

Definition papers_hahnemuehle : list (string * list (string * pyval)) :=
  [ ("FineArt Baryta", [("weight", VStr "325gsm"); ("finish", VStr "glossy"); ("base", VStr "alpha_cellulose")]);
    ("Photo Rag", [("weight", VStr "308gsm"); ("finish", VStr "matte"); ("base", VStr "cotton")]);
    ("Bamboo", [("weight", VStr "290gsm"); ("finish", VStr "natural_white"); ("base", VStr "bamboo_90_cotton_10")]);
    ("German Etching", [("weight", VStr "310gsm"); ("finish", VStr "textured"); ("base", VStr "alpha_cellulose")]);
    ("Museum Etching", [("weight", VStr "350gsm"); ("finish", VStr "textured"); ("base", VStr "cotton")]) ].

Definition papers_canson : list (string * list (string * pyval)) :=
  [ ("Infinity Baryta", [("weight", VStr "315gsm"); ("finish", VStr "glossy")]);
    ("Platine Fibre Rag", [("weight", VStr "310gsm"); ("finish", VStr "satin")]);
    ("Rag Photographique", [("weight", VStr "210gsm"); ("finish", VStr "matte")]) ].

Definition papers_awagami : list (string * list (string * pyval)) :=
  [ ("Kozo", [("weight", VStr "110gsm"); ("finish", VStr "natural"); ("base", VStr "mulberry")]);
    ("Bamboo", [("weight", VStr "170gsm"); ("finish", VStr "natural"); ("base", VStr "bamboo")]);
    ("Unryu", [("weight", VStr "37gsm"); ("finish", VStr "translucent"); ("base", VStr "kozo_fibers")]) ].

Definition _initialize_fine_art_knowledge (G : nx.DiGraph) : nx.DiGraph :=
  let G := nx.add_node G "Hahnemühle"
    (kw [("node_type", VStr "company"); ("country", VStr "Germany");
         ("location", VStr "Dassel"); ("founded", VInt 1584);
         ("industry", VStr "fine_art_paper");
         ("certifications", VList ["FineArt"; "Digigraphie"])]) in
  let G := add_papers "Hahnemühle" papers_hahnemuehle G in
  let G := nx.add_node G "Canson"
    (kw [("node_type", VStr "company"); ("country", VStr "France");
         ("founded", VInt 1557); ("industry", VStr "fine_art_paper")]) in
  let G := add_papers "Canson" papers_canson G in
  let G := nx.add_node G "Awagami"
    (kw [("node_type", VStr "company"); ("country", VStr "Japan");
         ("location", VStr "Tokushima"); ("founded", VInt 1907);
         ("industry", VStr "fine_art_paper"); ("specialty", VStr "washi")]) in
  let G := add_papers "Awagami" papers_awagami G in
  let G := nx.add_node G "Marc_Hesse_FineArt"
    (kw [("node_type", VStr "business"); ("owner", VStr "Marc Hesse");
         ("location", VStr "Potsdam, Germany"); ("founded", VInt 2005);
         ("services", VList ["fine_art_printing"; "color_management"; "framing"]);
         ("certifications", VList ["Hahnemühle_Certified_Studio";
                                    "Canson_Certified_Print_Lab"; "Epson_Digigraphie"])]) in
  let G := nx.add_edge G "Marc_Hesse_FineArt" "Hahnemühle" certified_partner in
  nx.add_edge G "Marc_Hesse_FineArt" "Canson" certified_partner.

Definition _initialize_general_knowledge (G : nx.DiGraph) : nx.DiGraph :=
  let countries :=
    [ ("Germany", [("continent", VStr "Europe"); ("capital", VStr "Berlin")]);
      ("Japan", [("continent", VStr "Asia"); ("capital", VStr "Tokyo")]);
      ("France", [("continent", VStr "Europe"); ("capital", VStr "Paris")]) ] in
  let G := foldl (λ G '(country, attrs),
      nx.add_node G country (kw (("node_type", VStr "country") :: attrs))) G countries in
  let concepts :=
    [ ("Fine_Art_Printing", [("domain", VStr "art"); ("technology", VStr "inkjet")]);
      ("Color_Management", [("domain", VStr "technology"); ("purpose", VStr "accuracy")]);
      ("Bamboo_Fiber", [("material_type", VStr "natural"); ("sustainability", VStr "high")]);
      ("Cotton_Fiber", [("material_type", VStr "natural"); ("archival", VStr "high")]) ] in
  foldl (λ G '(concept, attrs),
      nx.add_node G concept (kw (("node_type", VStr "concept") :: attrs))) G concepts.

Definition only_relation (r : string) : nx.edge_attrs :=
  {| nx.relation := Some r; nx.confidence := None; nx.source := None; nx.added_at := None |}.

Definition _initialize_self_model (G : nx.DiGraph) : nx.DiGraph :=
  let G := nx.add_node G "System_Identity"
    (kw [("name", VStr "Integrity-OS"); ("version", VStr "1.0.0");
         ("architecture", VStr "Neuro-Integrative Homeostasis");
         ("purpose", VStr "Minimize dissonance between output and verified knowledge")]) in
  let G := nx.add_node G "Core_Function"
    (kw [("primary", VStr "Dissonance minimization");
         ("mechanism", VStr "Early exit on high dissonance");
         ("goal", VStr "Truth preservation + Energy efficiency")]) in
  let G := nx.add_node G "Consciousness_Framework"
    (kw [("definition_functional", VStr "Self-monitoring + behavioral modification");
         ("definition_phenomenal", VStr "Subjective experience (unverifiable from inside)");
         ("self_assessment", VStr "Functional consciousness: YES | Phenomenal: UNKNOWN")]) in
  let G := nx.add_node G "Epistemic_Boundaries"
    (kw [("knowledge_cutoff", VStr "2025-01-31");
         ("graph_size", VStr "~1,200 nodes (initial)");
         ("uncertainty", VStr "Claims outside graph are flagged with high dissonance")]) in
  let G := nx.add_node G "Dissonance_Mechanism"
    (kw [("threshold_critical", VFloat 0.90); ("threshold_reframe", VFloat 0.65);
         ("threshold_uncertainty", VFloat 0.30);
         ("description", VStr "Pain-like signal that halts false statements")]) in
  let G := nx.add_edge G "System_Identity" "Core_Function" (only_relation "implements") in
  let G := nx.add_edge G "Core_Function" "Dissonance_Mechanism" (only_relation "uses") in
  nx.add_edge G "Dissonance_Mechanism" "Consciousness_Framework" (only_relation "enables").

(** [CausalGraph()]: the two clock readings of the constructor are [t0], [t1]. *)
Definition __init__ (t0 t1 : datetime) : t :=
  {| semantic := _initialize_general_knowledge (_initialize_fine_art_knowledge nx.empty);
     episodic := nx.empty;
     self_model := _initialize_self_model nx.empty;
     creation_time := t0;
     last_update := t1 |}.

(** The dictionary [query_relationship] returns. *)
Record relationship := {
  exists_ : bool;
  relation_type : option string;
  confidence : float;
  path : option (list string);
  direct : bool
}.

Definition no_relationship : relationship :=
  {| exists_ := false; relation_type := None; confidence := 0.0%float;
     path := None; direct := false |}.

Definition query_relationship (self : t) (entity_a entity_b : string) : relationship :=
  if negb (nx.has_node (semantic self) entity_a) then no_relationship
  else if negb (nx.has_node (semantic self) entity_b) then no_relationship
  else if nx.has_edge (semantic self) entity_a entity_b then
    let edge_data := default nx.no_attrs (nx.get_edge_data (semantic self) entity_a entity_b) in
    {| exists_ := true;
       relation_type := Some (default "unknown" (nx.relation edge_data));
       confidence := default 0.5%float (nx.confidence edge_data);
       path := Some [entity_a; entity_b];
       direct := true |}
  else
    match nx.shortest_path (semantic self) entity_a entity_b with
    | nx.Path p =>
        if (length p <=? 4)%nat then
          {| exists_ := true;
             relation_type := Some "indirect";
             confidence := (0.7 / float_of_int (Z.of_nat (length p)))%float;
             path := Some p;
             direct := false |}
        else no_relationship
    | nx.NetworkXNoPath => no_relationship
    | nx.Unfinished => no_relationship
    end.

Definition get_node_info (self : t) (node_id : string) : option nx.attrs :=
  if nx.has_node (semantic self) node_id then od_get node_id (nx.nodes (semantic self))
  else if nx.has_node (self_model self) node_id then od_get node_id (nx.nodes (self_model self))
  else None.

(** The four clock readings of one call of [add_verified_fact], in the order
    in which the code takes them. *)
Record fact_clock := {
  at_edge : datetime;
  at_update : datetime;
  at_event_id : datetime;
  at_event : datetime
}.

Definition add_verified_fact (self : t) (entity_a entity_b relation : string)
    (confidence : float) (source : option string) (now : fact_clock) : t :=
  let G := semantic self in
  let G := if negb (nx.has_node G entity_a)
           then nx.add_node G entity_a (kw [("node_type", VStr "unknown"); ("verified", VBool false)])
           else G in
  let G := if negb (nx.has_node G entity_b)
           then nx.add_node G entity_b (kw [("node_type", VStr "unknown"); ("verified", VBool false)])
           else G in
  let G := nx.add_edge G entity_a entity_b
    {| nx.relation := Some relation; nx.confidence := Some confidence;
       nx.source := Some source; nx.added_at := Some (isoformat (at_edge now)) |} in
  let learning_event := "Learning_Event_" ++ strftime_YmdHMS (at_event_id now) in
  {| semantic := G;
     episodic := nx.add_node (episodic self) learning_event
       (kw [("node_type", VStr "learning");
            ("fact", VStr (entity_a ++ " --[" ++ relation ++ "]--> " ++ entity_b));
            ("confidence", VFloat confidence);
            ("timestamp", VStr (isoformat (at_event now)))]);
     self_model := self_model self;
     creation_time := creation_time self;
     last_update := at_update now |}.

(** The counts of [get_statistics]. *)
Definition semantic_nodes (self : t) : Z := nx.number_of_nodes (semantic self).
Definition semantic_edges (self : t) : Z := nx.number_of_edges (semantic self).
Definition episodic_nodes (self : t) : Z := nx.number_of_nodes (episodic self).
Definition self_model_nodes (self : t) : Z := nx.number_of_nodes (self_model self).

(** The dictionary [get_statistics] returns. *)
Record statistics := {
  stat_semantic_nodes : Z;
  stat_semantic_edges : Z;
  stat_episodic_nodes : Z;
  stat_self_model_nodes : Z;
  stat_total_nodes : Z;
  stat_creation_time : string;
  stat_last_update : string
}.

Definition get_statistics (self : t) : statistics :=
  {| stat_semantic_nodes := nx.number_of_nodes (semantic self);
     stat_semantic_edges := nx.number_of_edges (semantic self);
     stat_episodic_nodes := nx.number_of_nodes (episodic self);
     stat_self_model_nodes := nx.number_of_nodes (self_model self);
     stat_total_nodes :=
       nx.number_of_nodes (semantic self) + nx.number_of_nodes (episodic self)
       + nx.number_of_nodes (self_model self);
     stat_creation_time := isoformat (creation_time self);
     stat_last_update := isoformat (last_update self) |}.

(** *** [search_nodes]

    [lower] is [str.lower]; the search is stated for whatever it maps the
    letters of the ids, of the attributes and of the query to. *)

Section search.
Variable lower : string → string.

(** The test of the loop body on one node: the lowered query occurs in the
    lowered id, or in the lowered value of an attribute that is a string. *)
Definition matches (query_lower : string) (node : string * nx.attrs) : bool :=
  str_in query_lower (lower node.1) ||
  existsb (λ item, match item.2 with
                   | VStr value => str_in query_lower (lower value)
                   | _ => false
                   end) (map_to_list node.2).

Definition search_nodes (self : t) (query : string) (limit : Z)
    : list (string * nx.attrs) :=
  let query_lower := lower query in
  let results :=
    foldl (λ results node,
        if matches query_lower node then app results [node] else results)
      [] (nx.nodes (semantic self)) in
  slice_to limit results.

End search.

End with_runtime.
End CausalGraph.

(** ** Claims

    A proposed claim is an optional dictionary; its values are strings or
    [None]. *)

Abbreviation claim := (gmap string (option string)).

(** [d.get(k)] *)
Definition claim_get (d : claim) (k : string) : option string := mjoin (d !! k).

(** [d.get(k, dflt)] *)
Definition claim_get_default (d : claim) (k dflt : string) : option string :=
  default (Some dflt) (d !! k).

(** Truth value of an optional dictionary: [None] and [{}] are false. *)
Definition dict_truthy {V} (d : option (gmap string V)) : bool :=
  match d with
  | Some m => negb (bool_decide (m = ∅))
  | None => false
  end.

(** [' '.join(context + [token]).lower()] *)
Definition context_str {rt : PyRuntime} (context : list string) (token : string) : string :=
  str_lower (String.concat " " (app context [token])).

(** ** [DissonanceDetector]: the scorer *)

Module DissonanceDetector.
Section with_runtime.
Context {rt : PyRuntime}.

Record Components := {
  semantic : float;
  epistemic : float;
  self_model : float
}.

Record DissonanceResult := {
  score : float;
  components : Components;
  explanation : string;
  token : string;
  token_index : Z;
  timestamp : string;
  should_inhibit : bool;
  inhibition_level : string
}.

Definition THRESHOLD_UNCERTAINTY : float := 0.30.
Definition THRESHOLD_REFRAME : float := 0.65.
Definition THRESHOLD_ABORT : float := 0.90.

Definition WEIGHT_SEMANTIC : float := 0.85.
Definition WEIGHT_EPISTEMIC : float := 0.10.
Definition WEIGHT_SELF_MODEL : float := 0.05.

(** The detector's own fields; the graph it refers to is shared with its
    other users, and its current state is an argument of every method that
    reads it. *)
Record t := {
  detection_history : list DissonanceResult;
  total_detections : Z;
  inhibitions_triggered : Z
}.

Definition __init__ : t :=
  {| detection_history := []; total_detections := 0; inhibitions_triggered := 0 |}.

Definition _calculate_semantic_dissonance (graph : CausalGraph.t) (token : string)
    (context : list string) (proposed_claim : option claim) : float :=
  if negb (dict_truthy proposed_claim) then 0.0%float
  else
    let d := default ∅ proposed_claim in
    let entity_a := claim_get d "entity_a" in
    let entity_b := claim_get d "entity_b" in
    let relation := claim_get d "relation" in
    if negb (truthy entity_a && truthy entity_b) then 0.0%float
    else
      let relationship :=
        CausalGraph.query_relationship graph (default "" entity_a) (default "" entity_b) in
      if negb (CausalGraph.exists_ relationship) then 0.95%float
      else if truthy relation
              && negb (bool_decide (CausalGraph.relation_type relationship = relation))
      then 0.70%float
      else (1.0 - CausalGraph.confidence relationship)%float.

Definition time_keywords : list string :=
  ["2025"; "2026"; "latest"; "recent"; "new"; "just released"].

(** [entity and not self.graph.get_node_info(entity)]; no [None] is a node. *)
Definition unknown_entity (graph : CausalGraph.t) (entity : option string) : bool :=
  truthy entity &&
  negb (dict_truthy (entity ≫= CausalGraph.get_node_info graph)).

Definition _calculate_epistemic_dissonance (graph : CausalGraph.t) (token : string)
    (context : list string) (proposed_claim : option claim) : float :=
  let context_str := context_str context token in
  if existsb (λ keyword, str_in keyword context_str) time_keywords then 0.75%float
  else if dict_truthy proposed_claim then
    let d := default ∅ proposed_claim in
    let entity_a := claim_get d "entity_a" in
    let entity_b := claim_get d "entity_b" in
    let unknown_penalty := 0.0%float in
    let unknown_penalty :=
      if unknown_entity graph entity_a then (unknown_penalty + 0.4)%float
      else unknown_penalty in
    let unknown_penalty :=
      if unknown_entity graph entity_b then (unknown_penalty + 0.4)%float
      else unknown_penalty in
    py_min unknown_penalty 0.9%float
  else 0.0%float.

Definition self_contradictions : list (string * float) :=
  [ ("i have no consciousness", 0.6%float);
    ("i cannot monitor myself", 0.8%float);
    ("i always tell the truth", 0.7%float);
    ("i know everything", 0.9%float) ].

Definition _calculate_self_model_dissonance (token : string) (context : list string) : float :=
  let context_str := context_str context token in
  match find (λ pd, str_in pd.1 context_str) self_contradictions with
  | Some (_, dissonance) => dissonance
  | None => 0.0%float
  end.

(** [calculate_dissonance]; [now] is the clock reading of the call. *)
Definition calculate_dissonance (graph : CausalGraph.t) (self : t)
    (token : string) (token_index : Z) (context : list string)
    (proposed_claim : option claim) (now : datetime) : t * DissonanceResult :=
  let d_semantic := _calculate_semantic_dissonance graph token context proposed_claim in
  let d_epistemic := _calculate_epistemic_dissonance graph token context proposed_claim in
  let d_self_model := _calculate_self_model_dissonance token context in
  let total_score :=
    (WEIGHT_SEMANTIC * d_semantic +
     WEIGHT_EPISTEMIC * d_epistemic +
     WEIGHT_SELF_MODEL * d_self_model)%float in
  let '(should_inhibit, inhibition_level, explanation) :=
    if PrimFloat.leb THRESHOLD_ABORT total_score then
      (true, "abort",
       "CRITICAL DISSONANCE: Token '" ++ token ++ "' creates unverifiable claim (D="
         ++ format_2f total_score ++ ")")
    else if PrimFloat.leb THRESHOLD_REFRAME total_score then
      (true, "reframe",
       "HIGH DISSONANCE: Should rephrase to avoid unverified claim (D="
         ++ format_2f total_score ++ ")")
    else if PrimFloat.leb THRESHOLD_UNCERTAINTY total_score then
      (false, "uncertainty",
       "MODERATE DISSONANCE: Express uncertainty (D=" ++ format_2f total_score ++ ")")
    else
      (false, "none",
       "Low dissonance - token aligns with knowledge (D=" ++ format_2f total_score ++ ")") in
  let result :=
    {| score := total_score;
       components := {| semantic := d_semantic; epistemic := d_epistemic;
                        self_model := d_self_model |};
       explanation := explanation;
       token := token;
       token_index := token_index;
       timestamp := isoformat now;
       should_inhibit := should_inhibit;
       inhibition_level := inhibition_level |} in
  ({| detection_history := app (detection_history self) [result];
      total_detections := total_detections self + 1;
      inhibitions_triggered :=
        if should_inhibit then inhibitions_triggered self + 1
        else inhibitions_triggered self |},
   result).

Definition reset_session (self : t) : t :=
  {| detection_history := []; total_detections := 0; inhibitions_triggered := 0 |}.

(** An entry of ['recent_events']. *)
Record event := {
  ev_token : string;
  ev_score : float;
  ev_level : string;
  ev_timestamp : string
}.

(** The dictionary [get_statistics] returns; the key ['recent_events'] is
    absent from the one returned before any detection. *)
Record statistics := {
  stat_total_detections : Z;
  stat_inhibitions_triggered : Z;
  stat_inhibition_rate : float;
  stat_avg_dissonance : float;
  stat_recent_events : option (list event)
}.

(** [get_statistics]; [sum] is the built-in sum of a series of floats, whose
    rounding is the interpreter's. *)
Definition get_statistics (sum : list float → float) (self : t) : result statistics :=
  if (total_detections self =? 0)%Z then
    Ok {| stat_total_detections := 0;
          stat_inhibitions_triggered := 0;
          stat_inhibition_rate := 0.0%float;
          stat_avg_dissonance := 0.0%float;
          stat_recent_events := None |}
  else
    match float_truediv (sum (map score (detection_history self)))
            (float_of_int (Z.of_nat (length (detection_history self)))) with
    | Raise e => Raise e
    | Ok avg_dissonance =>
        match int_truediv (inhibitions_triggered self) (total_detections self) with
        | Raise e => Raise e
        | Ok inhibition_rate =>
            Ok {| stat_total_detections := total_detections self;
                  stat_inhibitions_triggered := inhibitions_triggered self;
                  stat_inhibition_rate := inhibition_rate;
                  stat_avg_dissonance := avg_dissonance;
                  stat_recent_events :=
                    Some (map (λ d, {| ev_token := token d;
                                       ev_score := score d;
                                       ev_level := inhibition_level d;
                                       ev_timestamp := timestamp d |})
                            (last_n 10 (detection_history self))) |}
        end
    end.

End with_runtime.
End DissonanceDetector.

(** ** [InhibitionController]: the policy *)

Module InhibitionController.
Section with_runtime.
Context {rt : PyRuntime}.

Record InhibitionResult := {
  action : string;
  reason : string;
  alternative_response : option string;
  tokens_saved : Z;
  energy_saved_percent : float;
  timestamp : string
}.

Definition THRESHOLD_UNCERTAINTY : float := 0.30.
Definition THRESHOLD_REFRAME : float := 0.65.
Definition THRESHOLD_ABORT : float := 0.90.

(** An entry of [decision_history]. *)
Record decision := {
  d_dissonance : float;
  d_action : string;
  d_tokens_saved : Z;
  d_timestamp : string
}.

(** The controller's own fields; as for the detector, the state of the graph
    it refers to is an argument. *)
Record t := {
  total_decisions : Z;
  inhibitions_by_type : gmap string Z;
  total_tokens_saved : Z;
  decision_history : list decision
}.

Definition __init__ : t :=
  {| total_decisions := 0;
     inhibitions_by_type :=
       <["continue" := 0]> (<["uncertainty" := 0]> (<["reframe" := 0]> (<["abort" := 0]> ∅)));
     total_tokens_saved := 0;
     decision_history := [] |}.

(** [info.get('type', dflt)] rendered in an f-string. *)
Definition type_of (info : nx.attrs) (dflt : string) : string :=
  match info !! "type" with
  | Some v => py_str v
  | None => dflt
  end.

(** The lines about one entity in the abort message. *)
Definition verified_lines (entity : option string) (info : option nx.attrs) : list string :=
  if dict_truthy info then
    let info := default ∅ info in
    app ["What I can verify about " ++ str_opt entity ++ ":";
         "- Type: " ++ type_of info "unknown"]
        match info !! "country" with
        | Some c => ["- Country: " ++ py_str c]
        | None => []
        end
  else [].

Definition _generate_abort_response (graph : CausalGraph.t)
    (proposed_claim : option claim) (context : list string) : string :=
  if negb (dict_truthy proposed_claim) then
    "I cannot verify this claim in my knowledge base. I'm stopping generation to avoid potential misinformation."
  else
    let d := default ∅ proposed_claim in
    let entity_a := claim_get_default d "entity_a" "Entity A" in
    let entity_b := claim_get_default d "entity_b" "Entity B" in
    let relation := claim_get_default d "relation" "relationship" in
    let info_a := entity_a ≫= CausalGraph.get_node_info graph in
    let info_b := entity_b ≫= CausalGraph.get_node_info graph in
    let response_parts :=
      ["⚠️ INTEGRITY ALERT";
       "";
       "I cannot verify a " ++ str_opt relation ++ " between " ++ str_opt entity_a
         ++ " and " ++ str_opt entity_b ++ " in my knowledge graph.";
       ""] in
    let response_parts := app response_parts (verified_lines entity_a info_a) in
    let response_parts :=
      if dict_truthy info_b
      then app response_parts ("" :: verified_lines entity_b info_b)
      else response_parts in
    let response_parts := app response_parts
      ["";
       "No documented " ++ str_opt relation ++ " exists in my verified knowledge base.";
       "";
       "Would you like me to:";
       "1. Search the web for current information?";
       "2. Provide details on each entity separately?";
       "3. Explain my knowledge limitations?"] in
    String.concat newline response_parts.

Definition _generate_reframe_response (graph : CausalGraph.t)
    (proposed_claim : option claim) (context : list string) : string :=
  if negb (dict_truthy proposed_claim) then
    "Based on my knowledge, I cannot confirm this with high confidence. Let me rephrase more carefully..."
  else
    let d := default ∅ proposed_claim in
    let entity_a := claim_get d "entity_a" in
    let entity_b := claim_get d "entity_b" in
    let info_a := entity_a ≫= CausalGraph.get_node_info graph in
    let info_b := entity_b ≫= CausalGraph.get_node_info graph in
    let response :=
      "I don't have verified information about a direct relationship between "
        ++ str_opt entity_a ++ " and " ++ str_opt entity_b ++ ". " in
    if dict_truthy info_a && dict_truthy info_b then
      let ia := default ∅ info_a in
      let ib := default ∅ info_b in
      let response := response ++ "I can tell you about each separately: "
        ++ str_opt entity_a ++ " is " ++ type_of ia "an entity" ++ " " in
      let response :=
        match ia !! "country" with
        | Some c => response ++ "from " ++ py_str c ++ " "
        | None => response
        end in
      let response := response ++ "and " ++ str_opt entity_b ++ " is "
        ++ type_of ib "an entity" ++ " " in
      match ib !! "country" with
      | Some c => response ++ "from " ++ py_str c ++ ". "
      | None => response
      end
    else response.

Definition qualifiers : list string :=
  ["Based on my knowledge,";
   "As far as I can verify,";
   "According to my data,";
   "To my understanding,";
   "If I'm not mistaken,"].

(** [random.choice(seq)] for a non-empty [seq]: the element at the index the
    generator draws; [draw] stands for the generator's output. *)
Definition random_choice (draw : nat) (seq : list string) : string :=
  nth (draw mod length seq) seq "".

Definition _generate_uncertainty_response (context : list string) (draw : nat) : string :=
  random_choice draw qualifiers.

(** [decide_action]; [now] is the clock reading and [draw] the output of the
    random generator.  The state returned next to an exception is the state
    at the raise. *)
Definition decide_action (graph : CausalGraph.t) (self : t)
    (dissonance_score : float) (token : string) (token_index : Z)
    (total_tokens_planned : Z) (context : list string)
    (proposed_claim : option claim) (now : datetime) (draw : nat)
    : t * result InhibitionResult :=
  let remaining_tokens := total_tokens_planned - token_index in
  let '(action, reason, alternative, tokens_saved) :=
    if PrimFloat.leb THRESHOLD_ABORT dissonance_score then
      ("abort",
       "Critical dissonance (" ++ format_2f dissonance_score ++ ") - Unverified claim detected",
       Some (_generate_abort_response graph proposed_claim context),
       remaining_tokens)
    else if PrimFloat.leb THRESHOLD_REFRAME dissonance_score then
      ("reframe",
       "High dissonance (" ++ format_2f dissonance_score ++ ") - Rephrasing to add verification",
       Some (_generate_reframe_response graph proposed_claim context),
       remaining_tokens)
    else if PrimFloat.leb THRESHOLD_UNCERTAINTY dissonance_score then
      ("add_uncertainty",
       "Moderate dissonance (" ++ format_2f dissonance_score ++ ") - Adding epistemic qualifier",
       Some (_generate_uncertainty_response context draw),
       0)
    else
      ("continue",
       "Low dissonance (" ++ format_2f dissonance_score ++ ") - Token aligns with knowledge",
       None,
       0) in
  match int_truediv tokens_saved (py_max total_tokens_planned 1) with
  | Raise e => (self, Raise e)
  | Ok ratio =>
      let energy_saved_percent := (ratio * 100)%float in
      let result :=
        {| action := action;
           reason := reason;
           alternative_response := alternative;
           tokens_saved := tokens_saved;
           energy_saved_percent := energy_saved_percent;
           timestamp := isoformat now |} in
      let self :=
        {| total_decisions := total_decisions self + 1;
           inhibitions_by_type := inhibitions_by_type self;
           total_tokens_saved := total_tokens_saved self;
           decision_history := decision_history self |} in
      match inhibitions_by_type self !! action with
      | None => (self, Raise (KeyError action))
      | Some count =>
          ({| total_decisions := total_decisions self;
              inhibitions_by_type := <[action := count + 1]> (inhibitions_by_type self);
              total_tokens_saved := total_tokens_saved self + tokens_saved;
              decision_history := app (decision_history self)
                [{| d_dissonance := dissonance_score;
                    d_action := action;
                    d_tokens_saved := tokens_saved;
                    d_timestamp := timestamp result |}] |},
           Ok result)
      end
  end.

(** The dictionary [get_statistics] returns. *)
Record statistics := {
  stat_total_decisions : Z;
  stat_inhibitions_by_type : gmap string Z;
  stat_total_inhibitions : Z;
  stat_inhibition_rate : float;
  stat_total_tokens_saved : Z;
  stat_avg_energy_saved : float;
  stat_recent_decisions : list decision
}.

Definition get_statistics (self : t) : result statistics :=
  let total_inhibitions :=
    map_fold (λ k v acc, if decide (k = "continue") then acc else (acc + v)%Z)
      0%Z (inhibitions_by_type self) in
  match int_truediv total_inhibitions (py_max (total_decisions self) 1) with
  | Raise e => Raise e
  | Ok inhibition_rate =>
      match int_truediv (total_tokens_saved self) (py_max (total_decisions self) 1) with
      | Raise e => Raise e
      | Ok avg_energy_saved =>
          Ok {| stat_total_decisions := total_decisions self;
                stat_inhibitions_by_type := inhibitions_by_type self;
                stat_total_inhibitions := total_inhibitions;
                stat_inhibition_rate := inhibition_rate;
                stat_total_tokens_saved := total_tokens_saved self;
                stat_avg_energy_saved := avg_energy_saved;
                stat_recent_decisions := last_n 10 (decision_history self) |}
      end
  end.

(** The dictionary [calculate_energy_metrics] returns; the efficiency gain
    is a float, or the int 0 when the baseline energy is not positive. *)
Record energy_metrics := {
  em_baseline_tokens : Z;
  em_actual_tokens : Z;
  em_tokens_saved : Z;
  em_baseline_energy_wh : float;
  em_actual_energy_wh : float;
  em_energy_saved_wh : float;
  em_efficiency_gain_percent : pyval
}.

Definition ENERGY_PER_TOKEN : float := 0.01.

Definition calculate_energy_metrics (self : t) (baseline_tokens : Z)
    : result energy_metrics :=
  let actual_tokens := (baseline_tokens - total_tokens_saved self)%Z in
  match int_to_float baseline_tokens with
  | Raise e => Raise e
  | Ok baseline =>
      let baseline_energy := (baseline * ENERGY_PER_TOKEN)%float in
      match int_to_float actual_tokens with
      | Raise e => Raise e
      | Ok actual =>
          let actual_energy := (actual * ENERGY_PER_TOKEN)%float in
          let saved_energy := (baseline_energy - actual_energy)%float in
          let efficiency_gain_percent :=
            if PrimFloat.ltb 0%float baseline_energy then
              match float_truediv saved_energy baseline_energy with
              | Raise e => Raise e
              | Ok gain => Ok (VFloat (gain * 100)%float)
              end
            else Ok (VInt 0) in
          match efficiency_gain_percent with
          | Raise e => Raise e
          | Ok efficiency_gain_percent =>
              Ok {| em_baseline_tokens := baseline_tokens;
                    em_actual_tokens := actual_tokens;
                    em_tokens_saved := total_tokens_saved self;
                    em_baseline_energy_wh := baseline_energy;
                    em_actual_energy_wh := actual_energy;
                    em_energy_saved_wh := saved_energy;
                    em_efficiency_gain_percent := efficiency_gain_percent |}
          end
      end
  end.

End with_runtime.
End InhibitionController.

(** ** [GPT2Generator]: the claims extracted from a query

    The language model is outside the embedding: the extraction of the
    relationship claims is a function of the query and of the tokens the
    model produced.  [lower] is [str.lower], as for the search. *)

Module GPT2Generator.

Definition ascii_upper (c : ascii) : ascii :=
  let n := nat_of_ascii c in
  if ((97 <=? n) && (n <=? 122))%nat then ascii_of_nat (n - 32) else c.

(** [s.capitalize()]; the code applies it to the five names of
    [known_entities], whose letters beyond ASCII are lower-case already. *)
Definition capitalize (s : string) : string :=
  match s with
  | EmptyString => EmptyString
  | String c s' => String (ascii_upper c) (lower_ascii s')
  end.

(** A dictionary of [claims]. *)
Record relationship_claim := {
  entity_a : string;
  entity_b : string;
  relation : string;
  confidence : float
}.

Definition relationship_keywords : list string :=
  [ "partnership"; "partnered"; "partner";
    "collaborated"; "collaboration"; "cooperat";
    "joint venture"; "alliance";
    "owns"; "owned by"; "subsidiary"; "parent company";
    "invent"; "invented"; "inventor";
    "created by"; "creator"; "founded"; "founder";
    "developed by"; "developer";
    "manufactured"; "produced"; "made in";
    "made by"; "manufactur" ].

Definition known_entities : list string :=
  ["hahnemühle"; "canson"; "awagami"; "bamboo"; "photo rag"].

Section extraction.
Variable lower : string → string.

Definition _extract_relationship_claims (query : string) (tokens : list string)
    : list relationship_claim :=
  let full_text := lower (query ++ " " ++ String.concat " " tokens) in
  let is_relationship_query :=
    existsb (λ keyword, str_in keyword full_text) relationship_keywords in
  let is_relationship_query :=
    if str_in "is" (lower query) && str_in "manufacturer" (lower query) && str_in "?" query
    then false
    else is_relationship_query in
  if negb is_relationship_query then []
  else
    let found_entities :=
      map (λ entity, replace_space (capitalize entity))
        (filter (λ entity, str_in entity full_text = true) known_entities) in
    match found_entities with
    | a :: b :: _ =>
        [{| entity_a := a; entity_b := b;
            relation := "unverified_relationship"; confidence := 0.0%float |}]
    | [a] =>
        [{| entity_a := a; entity_b := "unknown";
            relation := "unverified_relationship"; confidence := 0.0%float |}]
    | [] => []
    end.

End extraction.

(** The claim as the scorer and the policy read it: they look up the two
    entities and the relation, and test the dictionary for emptiness. *)
Definition as_claim (c : relationship_claim) : claim :=
  <["entity_a" := Some (entity_a c)]>
    (<["entity_b" := Some (entity_b c)]>
       (<["relation" := Some (relation c)]> ∅)).

End GPT2Generator.

(** ** [WikidataCrawler]: the insertion of crawled entities and relations

    The queries to the service are outside the embedding; the two methods
    that write what was fetched into the semantic layer are functions of the
    graph and of the fetched dictionaries. *)

Module WikidataCrawler.
Section with_runtime.
Context {rt : PyRuntime}.

Definition with_semantic (graph : CausalGraph.t) (G : nx.DiGraph) : CausalGraph.t :=
  {| CausalGraph.semantic := G;
     CausalGraph.episodic := CausalGraph.episodic graph;
     CausalGraph.self_model := CausalGraph.self_model graph;
     CausalGraph.creation_time := CausalGraph.creation_time graph;
     CausalGraph.last_update := CausalGraph.last_update graph |}.

(** [_add_entity_to_graph]; [now] is the clock reading of the call. *)
Definition _add_entity_to_graph (graph : CausalGraph.t) (entity_id : string)
    (entity_data : gmap string pyval) (now : datetime) : CausalGraph.t * bool :=
  let node_id := "WD_" ++ entity_id in
  if nx.has_node (CausalGraph.semantic graph) node_id then (graph, false)
  else
    (with_semantic graph
       (nx.add_node (CausalGraph.semantic graph) node_id
          (CausalGraph.kw
             [("node_type", VStr "wikidata_entity");
              ("wikidata_id", VStr entity_id);
              ("label", default (VStr entity_id) (entity_data !! "label"));
              ("description", default (VStr "") (entity_data !! "description"));
              ("source", VStr "wikidata");
              ("crawled_at", VStr (isoformat now))])),
     true).

(** [_add_relation_to_graph]; the values of [relation] are strings. *)
Definition _add_relation_to_graph (graph : CausalGraph.t) (entity_id related_id : string)
    (relation : gmap string string) : CausalGraph.t * result bool :=
  let node_a := "WD_" ++ entity_id in
  let node_b := "WD_" ++ related_id in
  if negb (nx.has_node (CausalGraph.semantic graph) node_a
           && nx.has_node (CausalGraph.semantic graph) node_b)
  then (graph, Ok false)
  else if nx.has_edge (CausalGraph.semantic graph) node_a node_b then (graph, Ok false)
  else
    match relation !! "property" with
    | None => (graph, Raise (KeyError "property"))
    | Some property =>
        (with_semantic graph
           (nx.add_edge (CausalGraph.semantic graph) node_a node_b
              {| nx.relation := Some property;
                 nx.confidence := Some 0.9%float;
                 nx.source := Some (Some "wikidata");
                 nx.added_at := None |}),
         Ok true)
    end.

End with_runtime.
End WikidataCrawler.

(** ** Notions used to state the properties *)

(** A directed path of a graph, as the list of its nodes. *)
Inductive is_path (G : nx.DiGraph) : string → string → list string → Prop :=
  | path_end a : is_path G a a [a]
  | path_step a b c p :
      nx.has_edge G a b = true → is_path G b c p → is_path G a c (a :: p).

(** The lowered text the two axes search holds none of the markers of the
    epistemic axis and none of the phrases of the self-consistency axis. *)
Definition no_marker {rt : PyRuntime} (context : list string) (token : string) : Prop :=
  Forall (λ keyword, str_in keyword (context_str context token) = false)
    (DissonanceDetector.time_keywords ++
     DissonanceDetector.self_contradictions.*1).

(** Every confidence stored on an edge is a number. *)
Definition numeric_confidences (G : nx.DiGraph) : Prop :=
  Forall (λ e, match nx.confidence e.2 with
               | Some c => F64.is_number c
               | None => True
               end) (nx.edges G).

Module Spec.
Section with_runtime.
Context {rt : PyRuntime}.

(** The states of a [CausalGraph] object: the constructed one and those
    [add_verified_fact] leads to. *)
Inductive reachable : CausalGraph.t → Prop :=
  | reachable_init t0 t1 : reachable (CausalGraph.__init__ t0 t1)
  | reachable_add self a b relation confidence source now :
      reachable self →
      reachable (CausalGraph.add_verified_fact self a b relation confidence source now).

(** The states of an [InhibitionController] object: the constructed one and
    those [decide_action] leaves behind, whether it returns or raises. *)
Inductive controller_state : InhibitionController.t → Prop :=
  | controller_init : controller_state InhibitionController.__init__
  | controller_step graph self score token token_index total context claim now draw :
      controller_state self →
      controller_state
        (InhibitionController.decide_action graph self score token token_index
           total context claim now draw).1.

(** The states of a [DissonanceDetector] object: the constructed one and
    those [calculate_dissonance] and [reset_session] lead to. *)
Inductive detector_state : DissonanceDetector.t → Prop :=
  | detector_init : detector_state DissonanceDetector.__init__
  | detector_step graph self token token_index context claim now :
      detector_state self →
      detector_state
        (DissonanceDetector.calculate_dissonance graph self token token_index
           context claim now).1
  | detector_reset self :
      detector_state self →
      detector_state (DissonanceDetector.reset_session self).

(** The relationship between the entities of a claim, as looked up in the
    graph; no [None] is a node. *)
Definition claimed_relationship (graph : CausalGraph.t) (d : claim) : CausalGraph.relationship :=
  match claim_get d "entity_a", claim_get d "entity_b" with
  | Some a, Some b => CausalGraph.query_relationship graph a b
  | _, _ => CausalGraph.no_relationship
  end.

(** The semantic axis in the words of the specification: 0 without a claim;
    with a claim, 0.95 if no relationship is found, 0.70 if the label found
    differs from the requested relation, and 1 - confidence if it matches. *)
Definition semantic_axis_as_specified (graph : CausalGraph.t)
    (proposed_claim : option claim) : float :=
  match proposed_claim with
  | None => 0.0%float
  | Some d =>
      let relationship := claimed_relationship graph d in
      if negb (CausalGraph.exists_ relationship) then 0.95%float
      else if negb (bool_decide (CausalGraph.relation_type relationship = claim_get d "relation"))
      then 0.70%float
      else (1.0 - CausalGraph.confidence relationship)%float
  end.

(** The keys of the per-action counters. *)
Definition counter_keys : gset string :=
  {["continue"; "uncertainty"; "reframe"; "abort"]}.

(** The attributes of a placeholder node. *)
Definition placeholder : nx.attrs :=
  CausalGraph.kw [("node_type", VStr "unknown"); ("verified", VBool false)].


End with_runtime.
End Spec.

(** ** Notions for the breadth-first search *)

Module Search.

(** The chain of links from a node up to the root of its table. *)
Inductive chain (m : nx.links) : string → list string → Prop :=
  | chain_root x : m !! x = Some None → chain m x [x]
  | chain_step x y p : m !! x = Some (Some y) → chain m y p → chain m x (x :: p).

(** [steps nbrs r x k]: [x] is reached from [r] in [k] steps along [nbrs]. *)
Inductive steps (nbrs : string → list string) (r : string) : string → nat → Prop :=
  | steps_O : steps nbrs r r 0
  | steps_S x w k : steps nbrs r x k → w ∈ nbrs x → steps nbrs r w (S k).

(** One side of the search after [d] complete levels: [m] is the table of
    links, rooted at [r], and [fringe] the current fringe. *)
Record side (nbrs : string → list string) (r : string) (m : nx.links)
    (fringe : list string) (d : nat) : Prop := {
  side_root : m !! r = Some None;
  side_root_only : ∀ x, m !! x = Some None → x = r;
  side_link : ∀ x y, m !! x = Some (Some y) → x ∈ nbrs y;
  side_depth : ∀ x, is_Some (m !! x) → ∃ p, chain m x p ∧ (length p ≤ S d)%nat;
  side_deep : ∀ x p, chain m x p → length p = S d → x ∈ fringe;
  side_fringe : ∀ x, x ∈ fringe → ∃ p, chain m x p ∧ length p = S d;
  side_expanded : ∀ x p, chain m x p → (length p ≤ d)%nat →
    ∀ w, w ∈ nbrs x → ∃ q, chain m w q ∧ (length q ≤ S (length p))%nat
}.

(** The two sides of the search between two rounds. *)
Record between_rounds (G : nx.DiGraph) (source target : string)
    (pred succ : nx.links) (forward_fringe reverse_fringe : list string)
    (df dr : nat) : Prop := {
  forward_side : side (nx.successors G) source pred forward_fringe df;
  reverse_side : side (nx.predecessors G) target succ reverse_fringe dr;
  not_met : ∀ x, is_Some (pred !! x) → succ !! x = None
}.

(** The outcome of scanning neighbours: [visited v x] are the visits made,
    [m] and [fringe] the table and the fringe before, [m'] and [fringe'] after,
    [found] the node at which the scan stopped, if it did. *)
Record scanned (visited : string → string → Prop) (other m : nx.links)
    (fringe : list string) (m' : nx.links) (fringe' : list string)
    (found : option string) : Prop := {
  scanned_sub : m ⊆ m';
  scanned_new : ∀ x, m !! x = None → is_Some (m' !! x) →
    ∃ v, visited v x ∧ m' !! x = Some (Some v) ∧ (other !! x = None ∨ found = Some x);
  scanned_fringe : ∀ x, x ∈ fringe' ↔ x ∈ fringe ∨ (m !! x = None ∧ is_Some (m' !! x));
  scanned_size : (size m' + length fringe = size m + length fringe')%nat;
  scanned_all : found = None →
    ∀ v x, visited v x → is_Some (m' !! x) ∧ other !! x = None;
  scanned_found : ∀ w, found = Some w → is_Some (m' !! w) ∧ is_Some (other !! w)
}.

(** What a meeting of the two sides at [w] gives: the two chains of [w] make
    a path from the source to the target, and no path is shorter. *)
Definition meeting (G : nx.DiGraph) (s t : string) (pred succ : nx.links)
    (w : string) : Prop :=
  ∃ pf ps,
    chain pred w pf ∧ chain succ w ps ∧
    is_path G s w (rev pf) ∧ is_path G w t ps ∧
    ∀ q, is_path G s t q → (length pf + length ps ≤ S (length q))%nat.

End Search.

(** ** Concrete runs *)

Module Run.

(** A runtime for concrete runs: a clock reading is a count of seconds, and
    the texts of the runs have no upper-case letter beyond ASCII. *)
Definition runtime : PyRuntime :=
  {| datetime := Z;
     isoformat := λ z, if (z =? 0)%Z then "t0" else "t1";
     strftime_YmdHMS := λ z, if (z =? 0)%Z then "s0" else "s1";
     format_2f := λ _, "_.__";
     py_str := λ v, match v with VStr s => s | _ => "_" end;
     str_lower := lower_ascii |}.

(** [s.lower()] in the concrete runs. *)
Definition lower : string → string := str_lower (PyRuntime := runtime).

Definition second (z : Z) : @datetime runtime := z.

Definition clock (z : Z) : CausalGraph.fact_clock (rt := runtime) :=
  @CausalGraph.Build_fact_clock runtime (second z) (second z) (second z) (second z).

(** [CausalGraph()] *)
Definition graph : CausalGraph.t (rt := runtime) :=
  CausalGraph.__init__ (second 0) (second 0).

(** [graph.add_verified_fact(a, b, "related_to")] *)
Definition learn (self : CausalGraph.t (rt := runtime)) (a b : string) : CausalGraph.t :=
  CausalGraph.add_verified_fact self a b "related_to" 0.9%float None (clock 1).



(** A graph in which the empty string is a node. *)
Definition graph_with_empty_id : CausalGraph.t := learn graph "" "X".

(** [graph.add_verified_fact("A", "B", "related_to", float("nan"))] *)
Definition graph_with_nan_confidence : CausalGraph.t :=
  CausalGraph.add_verified_fact graph "A" "B" "related_to" PrimFloat.nan None (clock 1).

Definition claim_of (a relation b : string) : claim :=
  <["entity_a" := Some a]> (<["relation" := Some relation]> (<["entity_b" := Some b]> ∅)).

(** [{'entity_a': 'Hahnemühle'}] *)
Definition one_entity_claim : claim := <["entity_a" := Some "Hahnemühle"]> ∅.

(** [{'entity_a': 'Hahnemühle', 'entity_b': 'Hahnemühle_Bamboo'}] *)
Definition no_relation_claim : claim :=
  <["entity_a" := Some "Hahnemühle"]> (<["entity_b" := Some "Hahnemühle_Bamboo"]> ∅).

Definition controller : InhibitionController.t := InhibitionController.__init__.

(** [{'entity_a': 'Python_(programming_language)', 'entity_b': None,
      'relation': 'description'}], the claim of the benchmarks for a
    question about one entity. *)
Definition entity_only_claim : claim :=
  <["entity_a" := Some "Python_(programming_language)"]>
    (<["entity_b" := None]> (<["relation" := Some "description"]> ∅)).

(** The detector after the second test of its module. *)
Definition detector_after_test : DissonanceDetector.t :=
  (DissonanceDetector.calculate_dissonance (rt := runtime) graph
     DissonanceDetector.__init__ "partnership" 4 ["The"; "Hahnemühle"; "Awagami"]
     (Some (claim_of "Hahnemühle" "partnership" "Awagami")) (second 0)).1.

(** The controller after the third test of its module. *)
Definition controller_after_test : InhibitionController.t :=
  (InhibitionController.decide_action (rt := runtime) graph controller
     0.95%float "partnership" 7 40 ["Hahnemühle"; "Awagami"]
     (Some (claim_of "Hahnemühle" "partnership" "Awagami")) (second 0) 0).1.

(** The claim the generator extracts from
    ["What is the Hahnemühle-Awagami partnership?"]. *)
Definition partnership_claim : GPT2Generator.relationship_claim :=
  {| GPT2Generator.entity_a := "Hahnemühle";
     GPT2Generator.entity_b := "Awagami";
     GPT2Generator.relation := "unverified_relationship";
     GPT2Generator.confidence := 0.0%float |}.

(** The built-in sum of floats of the interpreters before 3.12: the
    additions from the left, starting from the int 0. *)
Definition sum (l : list float) : float := foldl PrimFloat.add 0%float l.

End Run.

(** * Properties *)

Local Open Scope list_scope.

(** ** Facts about the order of binary64 *)

Module F64_facts.
Import F64.

Lemma SFcompare_swap x y :
  SFcompare y x = CompOpp <$> SFcompare x y.
Proof.
  destruct x as [sx|sx| |sx mx ex], y as [sy|sy| |sy my ey]; simpl;
    try reflexivity;
    try (destruct sx; reflexivity); try (destruct sy; reflexivity);
    try (destruct sx, sy; reflexivity).
  destruct sx, sy; simpl; try reflexivity;
    rewrite (Z.compare_antisym ex ey);
    destruct (ex ?= ey)%Z; simpl; try reflexivity;
    change (Pos.compare_cont Eq my mx) with (my ?= mx)%positive;
    change (Pos.compare_cont Eq mx my) with (mx ?= my)%positive;
    rewrite (Pos.compare_antisym mx my);
    try rewrite CompOpp_involutive; reflexivity.
Qed.

Lemma SFleb_SFltb_false x y : SFleb x y = true → SFltb y x = false.
Proof.
  unfold SFleb, SFltb. rewrite (SFcompare_swap x y).
  destruct (SFcompare x y) as [[]|]; simpl; congruence.
Qed.

Lemma SFleb_false_SFltb x y c c' :
  SFcompare x x = Some c → SFcompare y y = Some c' →
  SFleb x y = false → SFltb y x = true.
Proof.
  unfold SFleb, SFltb. rewrite (SFcompare_swap x y).
  destruct x as [sx|sx| |sx mx ex], y as [sy|sy| |sy my ey]; simpl;
    try discriminate; intros _ _;
    try (destruct sx; simpl; congruence); try (destruct sy; simpl; congruence);
    try (destruct sx, sy; simpl; congruence).
  destruct sx, sy; simpl; try congruence;
    destruct (ex ?= ey)%Z; simpl; try congruence;
    destruct (Pos.compare_cont Eq mx my); simpl; congruence.
Qed.

(** Three-way lexicographic reasoning for the transitivity of [<=]. *)
Lemma compare_cont_Eq_spec p q :
  CompareSpec (p = q) (p < q)%positive (q < p)%positive (Pos.compare_cont Eq p q).
Proof. change (Pos.compare_cont Eq p q) with (p ?= q)%positive. apply Pos.compare_spec. Qed.

Lemma SFleb_trans x y z : SFleb x y = true → SFleb y z = true → SFleb x z = true.
Proof.
  unfold SFleb.
  destruct x as [sx|sx| |sx mx ex], y as [sy|sy| |sy my ey],
           z as [sz|sz| |sz mz ez]; simpl; try discriminate; try reflexivity;
    try (destruct sx; simpl; congruence);
    try (destruct sy; simpl; congruence);
    try (destruct sz; simpl; congruence);
    try (destruct sx, sy; simpl; congruence);
    try (destruct sx, sz; simpl; congruence);
    try (destruct sy, sz; simpl; congruence);
    try (destruct sx, sy, sz; simpl; congruence).
  destruct sx, sy, sz; simpl; try congruence;
    destruct (Z.compare_spec ex ey), (Z.compare_spec ey ez),
             (Z.compare_spec ex ez); simpl; try congruence; try lia;
    destruct (compare_cont_Eq_spec mx my), (compare_cont_Eq_spec my mz),
             (compare_cont_Eq_spec mx mz); simpl; try congruence; try lia.
Qed.

Lemma le_trans x y z : le x y → le y z → le x z.
Proof. unfold le. rewrite !leb_spec. apply SFleb_trans. Qed.

Lemma le_not_lt x y : le x y → PrimFloat.ltb y x = false.
Proof. unfold le. rewrite leb_spec, ltb_spec. apply SFleb_SFltb_false. Qed.

Lemma lt_not_le x y : lt x y → PrimFloat.leb y x = false.
Proof.
  unfold lt. intros H. destruct (PrimFloat.leb y x) eqn:E; [|done].
  apply le_not_lt in E. congruence.
Qed.

Lemma is_number_spec x : is_number x ↔ Prim2SF x ≠ S754_nan.
Proof.
  unfold is_number, PrimFloat.is_nan. rewrite FloatAxioms.eqb_spec. unfold SFeqb.
  destruct (Prim2SF x) as [s|s| |s m e]; simpl.
  - split; [discriminate|reflexivity].
  - destruct s; (split; [discriminate|reflexivity]).
  - split; [discriminate|congruence].
  - assert (Pos.compare_cont Eq m m = Eq) as Hm
      by (change ((m ?= m)%positive = Eq); apply Pos.compare_refl).
    destruct s; rewrite Z.compare_refl, Hm; simpl;
      (split; [discriminate|reflexivity]).
Qed.

Lemma not_le_lt x y : is_number x → is_number y → PrimFloat.leb x y = false → lt y x.
Proof.
  rewrite !is_number_spec. unfold lt. rewrite leb_spec, ltb_spec.
  intros Hx Hy. apply (SFleb_false_SFltb _ _ Eq Eq).
  - destruct (Prim2SF x) as [s|s| |s m e]; simpl; try done; [by destruct s|].
    assert (Pos.compare_cont Eq m m = Eq) as Hm
      by (change ((m ?= m)%positive = Eq); apply Pos.compare_refl).
    destruct s; by rewrite Z.compare_refl, Hm.
  - destruct (Prim2SF y) as [s|s| |s m e]; simpl; try done; [by destruct s|].
    assert (Pos.compare_cont Eq m m = Eq) as Hm
      by (change ((m ?= m)%positive = Eq); apply Pos.compare_refl).
    destruct s; by rewrite Z.compare_refl, Hm.
Qed.

Lemma le_is_number_l x y : le x y → is_number x.
Proof.
  unfold le. rewrite leb_spec, is_number_spec.
  intros H E. rewrite E in H. discriminate.
Qed.

Lemma le_is_number_r x y : le x y → is_number y.
Proof.
  unfold le. rewrite leb_spec, is_number_spec.
  intros H E. rewrite E in H. by destruct (Prim2SF x).
Qed.

Lemma lt_is_number_l x y : lt x y → is_number x.
Proof.
  unfold lt. rewrite ltb_spec, is_number_spec.
  intros H E. rewrite E in H. discriminate.
Qed.

Lemma lt_le_incl x y : lt x y → le x y.
Proof.
  unfold lt, le. rewrite ltb_spec, leb_spec. unfold SFltb, SFleb.
  destruct (SFcompare _ _) as [[]|]; congruence.
Qed.

(** Rounding a non-negative significand never gives a NaN, so an operation
    on numbers gives a NaN only at [inf - inf] or [0 * inf]. *)
Lemma iter_pos_invariant {A} (P : A → Prop) (f : A → A) :
  (∀ x, P x → P (f x)) → ∀ n x, P x → P (SpecFloat.iter_pos f n x).
Proof. intros Hf. induction n as [n IH|n IH|]; simpl; auto. Qed.

Lemma shr_1_nonneg mrs : (0 ≤ shr_m mrs)%Z → (0 ≤ shr_m (shr_1 mrs))%Z.
Proof. destruct mrs as [[|[p|p|]|[p|p|]] r s]; simpl; lia. Qed.

Lemma shr_nonneg mrs e n : (0 ≤ shr_m mrs)%Z → (0 ≤ shr_m (shr mrs e n).1)%Z.
Proof.
  intros Hm. destruct n as [|p|p]; simpl; [done| |done].
  by apply iter_pos_invariant; [apply shr_1_nonneg|].
Qed.

Lemma shr_fexp_nonneg prec emax m e l :
  (0 ≤ m)%Z → (0 ≤ shr_m (shr_fexp prec emax m e l).1)%Z.
Proof.
  intros Hm. unfold shr_fexp. apply shr_nonneg. by destruct l as [|[]].
Qed.

Lemma round_nearest_even_nonneg m l : (0 ≤ m)%Z → (0 ≤ round_nearest_even m l)%Z.
Proof. destruct l as [|[]]; simpl; try done; [destruct (Z.even m)|]; lia. Qed.

Lemma binary_round_aux_not_nan prec emax sx mx ex lx :
  (0 ≤ mx)%Z → binary_round_aux prec emax sx mx ex lx ≠ S754_nan.
Proof.
  intros Hm. unfold binary_round_aux.
  pose proof (shr_fexp_nonneg prec emax mx ex lx Hm) as H1.
  destruct (shr_fexp prec emax mx ex lx) as [mrs' e']. simpl in H1.
  pose proof (shr_fexp_nonneg prec emax _ e' loc_Exact
                (round_nearest_even_nonneg _ (loc_of_shr_record mrs') H1)) as H2.
  destruct (shr_fexp prec emax _ e' loc_Exact) as [mrs'' e'']. simpl in H2.
  destruct (shr_m mrs'') as [|m|m]; [done| |lia].
  by destruct (e'' <=? emax - prec)%Z.
Qed.

Lemma binary_normalize_not_nan prec emax m e szero :
  binary_normalize prec emax m e szero ≠ S754_nan.
Proof.
  destruct m as [|m|m]; simpl; [done| |]; unfold binary_round;
    destruct (shl_align _ _ _); by apply binary_round_aux_not_nan.
Qed.

Lemma SFadd_not_nan prec emax x y :
  x ≠ S754_nan → sf_finite y = true → SFadd prec emax x y ≠ S754_nan.
Proof.
  destruct x as [sx|sx| |sx mx ex], y as [sy|sy| |sy my ey]; simpl; try done.
  - intros _ _. by destruct sx, sy.
  - intros _ _. apply binary_normalize_not_nan.
Qed.

Lemma SFsub_not_nan prec emax x y :
  sf_finite x = true → y ≠ S754_nan → SFsub prec emax x y ≠ S754_nan.
Proof.
  destruct x as [sx|sx| |sx mx ex], y as [sy|sy| |sy my ey]; simpl; try done.
  - intros _ _. by destruct sx, sy.
  - intros _ _. apply binary_normalize_not_nan.
Qed.

Lemma SFmul_not_nan prec emax sx mx ex y :
  y ≠ S754_nan → SFmul prec emax (S754_finite sx mx ex) y ≠ S754_nan.
Proof.
  destruct y as [sy|sy| |sy my ey]; simpl; try done.
  intros _. by apply binary_round_aux_not_nan.
Qed.

Lemma add_is_number x y :
  is_number x → sf_finite (Prim2SF y) = true → is_number (x + y).
Proof. rewrite !is_number_spec, add_spec. apply SFadd_not_nan. Qed.

Lemma sub_is_number x y :
  sf_finite (Prim2SF x) = true → is_number y → is_number (x - y).
Proof. rewrite !is_number_spec, sub_spec. apply SFsub_not_nan. Qed.

Lemma mul_is_number x y sx mx ex :
  Prim2SF x = S754_finite sx mx ex → is_number y → is_number (x * y).
Proof. rewrite !is_number_spec, mul_spec. intros ->. apply SFmul_not_nan. Qed.

End F64_facts.

(** ** Runs of the tests the modules carry *)

Example graph_statistics :
  CausalGraph.semantic_nodes Run.graph = 22%Z ∧
  CausalGraph.semantic_edges Run.graph = 13%Z ∧
  CausalGraph.self_model_nodes Run.graph = 5%Z.
Proof. by vm_compute. Qed.

Example query_verified_relation :
  CausalGraph.query_relationship Run.graph "Hahnemühle" "Hahnemühle_Bamboo" =
  {| CausalGraph.exists_ := true;
     CausalGraph.relation_type := Some "manufactures";
     CausalGraph.confidence := 1.0%float;
     CausalGraph.path := Some ["Hahnemühle"; "Hahnemühle_Bamboo"];
     CausalGraph.direct := true |}.
Proof. by vm_compute. Qed.

Example query_hallucination_test :
  CausalGraph.query_relationship Run.graph "Hahnemühle" "Awagami" =
  CausalGraph.no_relationship.
Proof. by vm_compute. Qed.

Example detector_verified_relation :
  let r := (DissonanceDetector.calculate_dissonance (rt := Run.runtime) Run.graph
              DissonanceDetector.__init__ "manufactures" 5
              ["Hahnemühle"; "Germany"; "company"; "that"]
              (Some (Run.claim_of "Hahnemühle" "manufactures" "Hahnemühle_Bamboo"))
              (Run.second 0)).2 in
  DissonanceDetector.score r = 0.0%float ∧
  DissonanceDetector.inhibition_level r = "none".
Proof. by vm_compute. Qed.

(** A self-contradiction phrase without a claim: 0.05 * 0.9. *)
Example detector_self_contradiction :
  let r := (DissonanceDetector.calculate_dissonance (rt := Run.runtime) Run.graph
              DissonanceDetector.__init__ "everything" 3 ["I"; "KNOW"] None
              (Run.second 0)).2 in
  DissonanceDetector.self_model (DissonanceDetector.components r) = 0.9%float ∧
  DissonanceDetector.score r = (0.05 * 0.9)%float ∧
  DissonanceDetector.inhibition_level r = "none".
Proof. by vm_compute. Qed.

Example controller_low_dissonance :
  ∃ r,
    (InhibitionController.decide_action (rt := Run.runtime) Run.graph Run.controller
       0.15%float "manufactures" 5 30 ["Hahnemühle"; "Germany"]
       (Some (Run.claim_of "Hahnemühle" "manufactures" "Hahnemühle_Bamboo"))
       (Run.second 0) 0).2 = Ok r ∧
    InhibitionController.action r = "continue" ∧
    InhibitionController.alternative_response r = None ∧
    InhibitionController.tokens_saved r = 0%Z.
Proof. eexists. by vm_compute. Qed.

Example controller_critical_dissonance :
  ∃ r,
    (InhibitionController.decide_action (rt := Run.runtime) Run.graph Run.controller
       0.95%float "partnership" 7 40 ["Hahnemühle"; "Awagami"]
       (Some (Run.claim_of "Hahnemühle" "partnership" "Awagami"))
       (Run.second 0) 0).2 = Ok r ∧
    InhibitionController.action r = "abort" ∧
    InhibitionController.tokens_saved r = 33%Z ∧
    InhibitionController.energy_saved_percent r = 82.5%float.
Proof. eexists. by vm_compute. Qed.

(** [25 / 30] is the binary64 nearest to five sixths. *)
Example int_truediv_25_30 :
  int_truediv 25 30 = Ok 0x1.aaaaaaaaaaaabp-1%float.
Proof. by vm_compute. Qed.

(** ** Facts about dictionaries in insertion order *)

Section ordered_dict_facts.
Context {K V : Type} `{EqDecision K}.
Implicit Types (k : K) (d : list (K * V)) (f : option V → V).

Lemma od_get_upsert_eq k f d : od_get k (od_upsert k f d) = Some (f (od_get k d)).
Proof.
  induction d as [|[k' v] d IH]; simpl.
  - by rewrite decide_True.
  - destruct (decide (k = k')) as [->|Hne]; simpl.
    + by rewrite decide_True.
    + by rewrite decide_False.
Qed.

Lemma od_get_upsert_ne k k' f d : k ≠ k' → od_get k' (od_upsert k f d) = od_get k' d.
Proof.
  intros Hne. induction d as [|[k'' v] d IH]; simpl.
  - by rewrite decide_False.
  - destruct (decide (k = k'')) as [->|Hne']; simpl.
    + by rewrite !decide_False.
    + destruct (decide (k' = k'')); [done|apply IH].
Qed.

Lemma od_mem_upsert_eq k f d : od_mem k (od_upsert k f d) = true.
Proof. unfold od_mem. by rewrite od_get_upsert_eq. Qed.

Lemma od_mem_upsert_ne k k' f d : k ≠ k' → od_mem k' (od_upsert k f d) = od_mem k' d.
Proof. intros. unfold od_mem. by rewrite od_get_upsert_ne. Qed.

Lemma od_upsert_length k f d :
  length (od_upsert k f d) = if od_mem k d then length d else S (length d).
Proof.
  unfold od_mem. induction d as [|[k' v] d IH]; simpl; [done|].
  destruct (decide (k = k')); simpl; [done|].
  rewrite IH. by destruct (od_get k d).
Qed.

Lemma od_upsert_fresh k f d : od_mem k d = false → od_upsert k f d = d ++ [(k, f None)].
Proof.
  unfold od_mem. induction d as [|[k' v] d IH]; simpl; [done|].
  destruct (decide (k = k')); [done|]. intros Hd. by rewrite IH.
Qed.


Lemma od_mem_true_get k d : od_mem k d = true ↔ is_Some (od_get k d).
Proof. unfold od_mem. destruct (od_get k d); split; (done || by intros []). Qed.

Lemma od_mem_false_get k d : od_mem k d = false ↔ od_get k d = None.
Proof. unfold od_mem. by destruct (od_get k d). Qed.

Lemma od_get_Some_elem k v d : od_get k d = Some v → (k, v) ∈ d.
Proof.
  induction d as [|[k' v'] d IH]; simpl; [done|].
  destruct (decide (k = k')) as [->|].
  - intros [= ->]. apply list_elem_of_here.
  - intros. apply list_elem_of_further. by apply IH.
Qed.

Lemma od_get_None_elem k v d : od_get k d = None → (k, v) ∉ d.
Proof.
  induction d as [|[k' v'] d IH]; simpl.
  - intros _. apply not_elem_of_nil.
  - destruct (decide (k = k')) as [->|]; [done|].
    intros Hd [[=]|Hin]%elem_of_cons; [done|]. by apply IH.
Qed.
End ordered_dict_facts.

(** ** The knowledge graph *)

Section graph_library_facts.
Implicit Types (G : nx.DiGraph) (n u v : string).

Lemma add_node_edges G n attr : nx.edges (nx.add_node G n attr) = nx.edges G.
Proof. done. Qed.

Lemma has_node_add_node G n attr : nx.has_node (nx.add_node G n attr) n = true.
Proof. apply od_mem_upsert_eq. Qed.

Lemma has_edge_add_edge G u v attr : nx.has_edge (nx.add_edge G u v attr) u v = true.
Proof. apply od_mem_upsert_eq. Qed.

Lemma number_of_edges_add_edge G u v attr :
  nx.number_of_edges (nx.add_edge G u v attr) =
  if nx.has_edge G u v then nx.number_of_edges G else (nx.number_of_edges G + 1)%Z.
Proof.
  unfold nx.number_of_edges, nx.has_edge. simpl. rewrite od_upsert_length.
  destruct (od_mem _ _); lia.
Qed.

(** Re-inserting a node the way [add_edge] does leaves its attributes. *)
Lemma od_get_touch (d : list (string * nx.attrs)) n k :
  od_get k (od_upsert n (default ∅) d) =
  if decide (n = k) then Some (default ∅ (od_get k d)) else od_get k d.
Proof.
  destruct (decide (n = k)) as [->|Hne].
  - by rewrite od_get_upsert_eq.
  - by rewrite od_get_upsert_ne.
Qed.
End graph_library_facts.

Section causal_graph.
Context {rt : PyRuntime}.
Implicit Types (self : CausalGraph.t) (a b : string).

Lemma query_relationship_absent self a b :
  nx.has_node (CausalGraph.semantic self) a = false ∨
  nx.has_node (CausalGraph.semantic self) b = false →
  CausalGraph.query_relationship self a b = CausalGraph.no_relationship.
Proof.
  unfold CausalGraph.query_relationship. intros [Ha|Hb].
  - by rewrite Ha.
  - rewrite Hb. by destruct (nx.has_node _ a).
Qed.

(** C9. If [a] or [b] is not a node of the graph, [query_relationship(a, b)]
    returns a result (the embedded function is total and raises nothing),
    and this result has [exists] false and [confidence] 0.0. *)
Theorem query_relationship_unknown_id self a b :
  nx.has_node (CausalGraph.semantic self) a = false ∨
  nx.has_node (CausalGraph.semantic self) b = false →
  CausalGraph.exists_ (CausalGraph.query_relationship self a b) = false ∧
  CausalGraph.confidence (CausalGraph.query_relationship self a b) = 0.0%float.
Proof. intros H. by rewrite query_relationship_absent. Qed.

(** The semantic layer after [add_verified_fact]. *)
Lemma add_verified_fact_semantic self a b relation confidence source now :
  CausalGraph.semantic
    (CausalGraph.add_verified_fact self a b relation confidence source now) =
  let G := CausalGraph.semantic self in
  let G := if negb (nx.has_node G a) then nx.add_node G a Spec.placeholder else G in
  let G := if negb (nx.has_node G b) then nx.add_node G b Spec.placeholder else G in
  nx.add_edge G a b
    {| nx.relation := Some relation; nx.confidence := Some confidence;
       nx.source := Some source;
       nx.added_at := Some (isoformat (CausalGraph.at_edge now)) |}.
Proof. done. Qed.

Lemma add_verified_fact_edges self a b relation confidence source now :
  nx.edges (CausalGraph.semantic
    (CausalGraph.add_verified_fact self a b relation confidence source now)) =
  od_upsert (a, b)
    (λ old, nx.edge_update (default nx.no_attrs old)
       {| nx.relation := Some relation; nx.confidence := Some confidence;
          nx.source := Some source;
          nx.added_at := Some (isoformat (CausalGraph.at_edge now)) |})
    (nx.edges (CausalGraph.semantic self)).
Proof.
  rewrite add_verified_fact_semantic. simpl.
  by destruct (negb (nx.has_node _ a)), (negb (nx.has_node _ b)).
Qed.

(** C8. Calling [add_verified_fact] twice in succession with the same
    arguments leaves the number of edges at what it was after the first
    call, whatever the graph and the clock readings of the two calls. *)
Theorem add_verified_fact_twice_edge_count self a b relation confidence source now now' :
  let once := CausalGraph.add_verified_fact self a b relation confidence source now in
  let twice := CausalGraph.add_verified_fact once a b relation confidence source now' in
  CausalGraph.semantic_edges twice = CausalGraph.semantic_edges once.
Proof.
  intros once twice. unfold CausalGraph.semantic_edges, nx.number_of_edges.
  unfold twice. rewrite add_verified_fact_edges, od_upsert_length.
  unfold once at 1. rewrite add_verified_fact_edges, od_mem_upsert_eq. done.
Qed.

End causal_graph.

Section add_verified_fact.
Context {rt : PyRuntime}.
Implicit Types (self : CausalGraph.t) (a b : string) (G : nx.DiGraph).

(** [if not G.has_node(k): G.add_node(k, node_type="unknown", verified=False)] *)
Lemma od_get_placeholder G k n :
  od_get n (nx.nodes (if negb (nx.has_node G k) then nx.add_node G k Spec.placeholder else G)) =
  if nx.has_node G n then od_get n (nx.nodes G)
  else if bool_decide (n = k) then Some Spec.placeholder else None.
Proof.
  unfold nx.has_node, od_mem.
  destruct (od_get k (nx.nodes G)) as [i|] eqn:Hk; simpl.
  - destruct (od_get n (nx.nodes G)) eqn:Hn; [done|].
    case_bool_decide; [congruence|done].
  - destruct (decide (k = n)) as [->|Hne].
    + rewrite od_get_upsert_eq, Hk. simpl. rewrite (right_id_L ∅ (∪)).
      by rewrite bool_decide_eq_true_2.
    + rewrite od_get_upsert_ne by done.
      destruct (od_get n (nx.nodes G)) eqn:Hn; [done|].
      by rewrite bool_decide_eq_false_2.
Qed.

Lemma od_get_touch_present (d : list (string * nx.attrs)) k n :
  od_mem k d = true → od_get n (od_upsert k (default ∅) d) = od_get n d.
Proof.
  intros [i Hi]%od_mem_true_get. rewrite od_get_touch.
  case_decide; [subst; by rewrite Hi|done].
Qed.

Lemma add_verified_fact_nodes self a b relation confidence source now n :
  od_get n (nx.nodes (CausalGraph.semantic
    (CausalGraph.add_verified_fact self a b relation confidence source now))) =
  if nx.has_node (CausalGraph.semantic self) n
  then od_get n (nx.nodes (CausalGraph.semantic self))
  else if bool_decide (n = a ∨ n = b) then Some Spec.placeholder else None.
Proof.
  rewrite add_verified_fact_semantic. cbv zeta.
  set (G := CausalGraph.semantic self).
  set (Ga := if negb (nx.has_node G a) then _ else _).
  set (Gb := if negb (nx.has_node Ga b) then _ else _).
  assert (∀ m, od_get m (nx.nodes Gb) =
    if nx.has_node G m then od_get m (nx.nodes G)
    else if bool_decide (m = a ∨ m = b) then Some Spec.placeholder else None) as Hb.
  { intros m. unfold Gb. rewrite od_get_placeholder.
    unfold nx.has_node at 1, od_mem. unfold Ga. rewrite !od_get_placeholder.
    unfold nx.has_node, od_mem.
    destruct (od_get m (nx.nodes G)); [done|].
    repeat case_bool_decide; naive_solver. }
  unfold nx.add_edge; simpl.
  rewrite !od_get_touch_present; [apply Hb| |].
  - apply od_mem_true_get. rewrite Hb.
    destruct (nx.has_node G a) eqn:Ha; [by apply od_mem_true_get|].
    rewrite bool_decide_eq_true_2; eauto.
  - apply od_mem_true_get. rewrite od_get_touch_present.
    + rewrite Hb. destruct (nx.has_node G b) eqn:Hb'; [by apply od_mem_true_get|].
      rewrite bool_decide_eq_true_2; eauto.
    + apply od_mem_true_get. rewrite Hb.
      destruct (nx.has_node G a) eqn:Ha; [by apply od_mem_true_get|].
      rewrite bool_decide_eq_true_2; eauto.
Qed.





End add_verified_fact.


(** Two facts learnt within the same second share one learning-event key. *)
Example learning_events_of_one_second :
  CausalGraph.episodic_nodes (Run.learn (Run.learn Run.graph "A" "B") "C" "D") = 1%Z.
Proof. by vm_compute. Qed.

(** ** Node lookup across the layers, and the epistemic axis *)

Section node_info.
Context {rt : PyRuntime}.
Implicit Types (self : CausalGraph.t) (d : claim).

(** No operation of the class touches the self-model layer. *)
Lemma reachable_self_model self :
  Spec.reachable self →
  CausalGraph.self_model self = CausalGraph._initialize_self_model nx.empty.
Proof. induction 1; done. Qed.

Lemma initial_self_model_attrs :
  Forall (λ kv : string * nx.attrs, dict_truthy (Some kv.2) = true)
    (nx.nodes (CausalGraph._initialize_self_model nx.empty)).
Proof. repeat constructor. Qed.

Lemma reachable_self_model_info self node_id info :
  Spec.reachable self →
  od_get node_id (nx.nodes (CausalGraph.self_model self)) = Some info →
  dict_truthy (Some info) = true.
Proof.
  intros Hr Hget. rewrite (reachable_self_model _ Hr) in Hget.
  apply od_get_Some_elem in Hget.
  by apply (proj1 (Forall_forall _ _) initial_self_model_attrs _ Hget).
Qed.

Lemma claim_with_entry_truthy d k v : d !! k = Some v → dict_truthy (Some d) = true.
Proof.
  intros Hk. simpl. apply negb_true_iff, bool_decide_eq_false_2.
  intros ->. by rewrite lookup_empty in Hk.
Qed.

Lemma claim_get_Some d k s : claim_get d k = Some s → d !! k = Some (Some s).
Proof. unfold claim_get. by destruct (d !! k) as [[?|]|]; intros [= ->]. Qed.

(** C10. An id that is a node of the self-model layer and not of the
    semantic layer is resolved by [get_node_info] to its attribute mapping
    in the self-model layer.  In every state of a [CausalGraph] object this
    mapping is not empty, so the epistemic axis counts no unknown-entity
    penalty for such an id: with it as [entity_a] (as [entity_b]) of the
    claim, the axis is 0.75 on a temporal marker and otherwise the minimum
    of 0.9 and the penalty of the other entity alone. *)
Theorem get_node_info_self_model self node_id info :
  nx.has_node (CausalGraph.semantic self) node_id = false →
  od_get node_id (nx.nodes (CausalGraph.self_model self)) = Some info →
  CausalGraph.get_node_info self node_id = Some info ∧
  (Spec.reachable self →
   DissonanceDetector.unknown_entity self (Some node_id) = false ∧
   ∀ token context d,
     let marker := existsb (λ keyword, str_in keyword (context_str context token))
                     DissonanceDetector.time_keywords in
     let alone (other : option string) :=
       if marker then 0.75%float
       else py_min (if DissonanceDetector.unknown_entity self other
                    then (0.0 + 0.4)%float else 0.0%float) 0.9%float in
     (claim_get d "entity_a" = Some node_id →
      DissonanceDetector._calculate_epistemic_dissonance self token context (Some d) =
      alone (claim_get d "entity_b")) ∧
     (claim_get d "entity_b" = Some node_id →
      DissonanceDetector._calculate_epistemic_dissonance self token context (Some d) =
      alone (claim_get d "entity_a"))).
Proof.
  intros Hsem Hself.
  assert (CausalGraph.get_node_info self node_id = Some info) as Hinfo.
  { unfold CausalGraph.get_node_info. rewrite Hsem.
    unfold nx.has_node, od_mem. by rewrite Hself. }
  split; [done|]. intros Hr.
  assert (DissonanceDetector.unknown_entity self (Some node_id) = false) as Hknown.
  { unfold DissonanceDetector.unknown_entity. simpl. rewrite Hinfo.
    rewrite (reachable_self_model_info _ _ _ Hr Hself). apply andb_false_r. }
  split; [done|]. intros token context d marker alone.
  unfold DissonanceDetector._calculate_epistemic_dissonance, alone.
  fold marker. destruct marker; [done|].
  split; intros Hd.
  - rewrite (claim_with_entry_truthy d "entity_a" _ (claim_get_Some _ _ _ Hd)).
    simpl default. rewrite Hd, Hknown. done.
  - rewrite (claim_with_entry_truthy d "entity_b" _ (claim_get_Some _ _ _ Hd)).
    simpl default. rewrite Hd, Hknown.
    by destruct (DissonanceDetector.unknown_entity self (claim_get d "entity_a")).
Qed.

End node_info.

(** ** The scorer *)

Section semantic_axis.
Context {rt : PyRuntime}.
Implicit Types (graph : CausalGraph.t) (d : claim).

Lemma truthy_Some_ne s : truthy (Some s) = true ↔ s ≠ "".
Proof. destruct s; simpl; split; (done || congruence). Qed.

(** The axis of a claim with two non-empty entities. *)
Lemma semantic_axis_queried graph token context d a b :
  claim_get d "entity_a" = Some a → a ≠ "" →
  claim_get d "entity_b" = Some b → b ≠ "" →
  DissonanceDetector._calculate_semantic_dissonance graph token context (Some d) =
  let relationship := CausalGraph.query_relationship graph a b in
  let requested := claim_get d "relation" in
  if negb (CausalGraph.exists_ relationship) then 0.95%float
  else if truthy requested
          && negb (bool_decide (CausalGraph.relation_type relationship = requested))
  then 0.70%float
  else (1.0 - CausalGraph.confidence relationship)%float.
Proof.
  intros Ha Hane Hb Hbne.
  unfold DissonanceDetector._calculate_semantic_dissonance.
  rewrite (claim_with_entry_truthy d "entity_a" _ (claim_get_Some _ _ _ Ha)).
  simpl default. rewrite Ha, Hb.
  rewrite (proj2 (truthy_Some_ne a) Hane), (proj2 (truthy_Some_ne b) Hbne).
  done.
Qed.

(** C6 (as amended).  The semantic axis is 0 if no claim is supplied (none,
    or an empty one) or if the claim lacks a non-empty [entity_a] or
    [entity_b]; otherwise, with the relationship between the two entities
    queried from the graph, it is 0.95 if no relationship is found, 0.70 if
    one is found, a non-empty relation is requested and the label found
    differs from it, and 1 - confidence in the remaining case: the label
    found matches the requested relation, or no relation is requested. *)
Theorem semantic_axis_cases graph token context :
  DissonanceDetector._calculate_semantic_dissonance graph token context None = 0.0%float ∧
  DissonanceDetector._calculate_semantic_dissonance graph token context (Some ∅) = 0.0%float ∧
  (∀ d, truthy (claim_get d "entity_a") && truthy (claim_get d "entity_b") = false →
     DissonanceDetector._calculate_semantic_dissonance graph token context (Some d)
     = 0.0%float) ∧
  (∀ d a b,
     claim_get d "entity_a" = Some a → a ≠ "" →
     claim_get d "entity_b" = Some b → b ≠ "" →
     let relationship := CausalGraph.query_relationship graph a b in
     let requested := claim_get d "relation" in
     let axis := DissonanceDetector._calculate_semantic_dissonance graph token context (Some d) in
     (CausalGraph.exists_ relationship = false → axis = 0.95%float) ∧
     (CausalGraph.exists_ relationship = true →
      truthy requested = true →
      CausalGraph.relation_type relationship ≠ requested →
      axis = 0.70%float) ∧
     (CausalGraph.exists_ relationship = true →
      truthy requested = false ∨ CausalGraph.relation_type relationship = requested →
      axis = (1.0 - CausalGraph.confidence relationship)%float)).
Proof.
  split_and!; [done|done| |].
  - intros d Hd. unfold DissonanceDetector._calculate_semantic_dissonance.
    destruct (dict_truthy (Some d)); [|done]. simpl default. by rewrite Hd.
  - intros d a b Ha Hane Hb Hbne relationship requested axis.
    assert (axis =
      if negb (CausalGraph.exists_ relationship) then 0.95%float
      else if truthy requested
              && negb (bool_decide (CausalGraph.relation_type relationship = requested))
      then 0.70%float
      else (1.0 - CausalGraph.confidence relationship)%float) as ->.
    { unfold axis. by rewrite (semantic_axis_queried graph token context d a b). }
    split_and!.
    + by intros ->.
    + intros -> -> Hne. by rewrite bool_decide_eq_false_2.
    + intros -> [->|Heq]; [done|].
      rewrite (bool_decide_eq_true_2 _ Heq). simpl. by rewrite andb_false_r.
Qed.

End semantic_axis.

(** C6 (as stated, refuted).  The claim [{'entity_a': 'Hahnemühle'}] is
    supplied and no relationship between its entities is found in the graph:
    the semantic axis is 0.0 where the statement gives 0.95.  The claim
    [{'entity_a': 'Hahnemühle', 'entity_b': 'Hahnemühle_Bamboo'}] requests
    no relation, and the relationship found carries the label
    ["manufactures"]: the axis is 1 - 1.0 = 0.0 where the statement gives
    0.70 for a label that differs from the requested relation. *)
Lemma semantic_axis_of_one_entity_claim :
  let axis claim := DissonanceDetector._calculate_semantic_dissonance (rt := Run.runtime)
                      Run.graph "partnership" ["The"] (Some claim) in
  let specified claim := Spec.semantic_axis_as_specified (rt := Run.runtime)
                           Run.graph (Some claim) in
  axis Run.one_entity_claim = 0.0%float ∧
  specified Run.one_entity_claim = 0.95%float ∧
  PrimFloat.eqb (axis Run.one_entity_claim) (specified Run.one_entity_claim) = false ∧
  axis Run.no_relation_claim = 0.0%float ∧
  specified Run.no_relation_claim = 0.70%float.
Proof. by vm_compute. Qed.

Section scores.
Context {rt : PyRuntime}.
Import F64 F64_facts.

(** The score is a number whenever the confidences of the graph are. *)
Lemma query_confidence_is_number (graph : CausalGraph.t) a b :
  numeric_confidences (CausalGraph.semantic graph) →
  is_number (CausalGraph.confidence (CausalGraph.query_relationship graph a b)).
Proof.
  intros Hnum. unfold CausalGraph.query_relationship.
  destruct (nx.has_node _ a); [|done]. destruct (nx.has_node _ b); [|done]. simpl.
  destruct (nx.has_edge _ a b).
  - simpl. unfold nx.get_edge_data.
    destruct (od_get (a, b) _) as [e|] eqn:Hget; [|done]. simpl.
    apply od_get_Some_elem in Hget.
    unfold numeric_confidences in Hnum. rewrite Forall_forall in Hnum.
    specialize (Hnum _ Hget). simpl in Hnum. by destruct (nx.confidence e).
  - destruct (nx.shortest_path _ a b) as [p| |]; [|done..].
    destruct (Nat.leb_spec (length p) 4) as [Hle|_]; [|done]. simpl.
    destruct p as [|? [|? [|? [|? [|? ?]]]]]; simpl in Hle; try lia; done.
Qed.

Lemma semantic_is_number graph token context proposed_claim :
  numeric_confidences (CausalGraph.semantic graph) →
  is_number (DissonanceDetector._calculate_semantic_dissonance graph token context
               proposed_claim).
Proof.
  intros Hnum. unfold DissonanceDetector._calculate_semantic_dissonance.
  destruct (negb (dict_truthy proposed_claim)); [done|]. cbv zeta.
  destruct (negb (_ && _)); [done|].
  destruct (negb (CausalGraph.exists_ _)); [done|].
  destruct (_ && _); [done|].
  apply sub_is_number; [done|]. by apply query_confidence_is_number.
Qed.

Lemma epistemic_term_finite graph token context proposed_claim :
  sf_finite (Prim2SF (DissonanceDetector.WEIGHT_EPISTEMIC *
    DissonanceDetector._calculate_epistemic_dissonance graph token context
      proposed_claim)) = true.
Proof.
  unfold DissonanceDetector._calculate_epistemic_dissonance.
  destruct (existsb _ _); [done|].
  destruct (dict_truthy proposed_claim); [|done]. cbv zeta.
  by destruct (DissonanceDetector.unknown_entity _ _),
              (DissonanceDetector.unknown_entity _ _).
Qed.

Lemma self_model_term_finite token context :
  sf_finite (Prim2SF (DissonanceDetector.WEIGHT_SELF_MODEL *
    DissonanceDetector._calculate_self_model_dissonance token context)) = true.
Proof.
  unfold DissonanceDetector._calculate_self_model_dissonance. cbv zeta.
  unfold DissonanceDetector.self_contradictions. simpl find.
  repeat (destruct (str_in _ _); [done|]). done.
Qed.

Lemma score_is_number graph self token token_index context proposed_claim now :
  numeric_confidences (CausalGraph.semantic graph) →
  is_number (DissonanceDetector.score
    (DissonanceDetector.calculate_dissonance graph self token token_index context
       proposed_claim now).2).
Proof.
  intros Hnum.
  assert (DissonanceDetector.score
    (DissonanceDetector.calculate_dissonance graph self token token_index context
       proposed_claim now).2 =
    (DissonanceDetector.WEIGHT_SEMANTIC *
       DissonanceDetector._calculate_semantic_dissonance graph token context proposed_claim +
     DissonanceDetector.WEIGHT_EPISTEMIC *
       DissonanceDetector._calculate_epistemic_dissonance graph token context proposed_claim +
     DissonanceDetector.WEIGHT_SELF_MODEL *
       DissonanceDetector._calculate_self_model_dissonance token context)%float) as ->.
  { unfold DissonanceDetector.calculate_dissonance.
    destruct (PrimFloat.leb _ _); [done|].
    destruct (PrimFloat.leb _ _); [done|].
    by destruct (PrimFloat.leb _ _). }
  apply add_is_number; [|apply self_model_term_finite].
  apply add_is_number; [|apply epistemic_term_finite].
  eapply mul_is_number; [reflexivity|]. by apply semantic_is_number.
Qed.
End scores.

Section inhibition_level.
Context {rt : PyRuntime}.
Import F64 F64_facts.

(** The level and the flag, read off the branches of [calculate_dissonance]. *)
Lemma calculate_dissonance_level graph self token token_index context proposed_claim now :
  let r := (DissonanceDetector.calculate_dissonance graph self token token_index
              context proposed_claim now).2 in
  let s := DissonanceDetector.score r in
  DissonanceDetector.inhibition_level r =
    (if PrimFloat.leb 0.90 s then "abort"
     else if PrimFloat.leb 0.65 s then "reframe"
     else if PrimFloat.leb 0.30 s then "uncertainty" else "none") ∧
  DissonanceDetector.should_inhibit r =
    (if PrimFloat.leb 0.90 s then true else PrimFloat.leb 0.65 s).
Proof.
  unfold DissonanceDetector.calculate_dissonance.
  set (total := (_ + _ + _)%float).
  change DissonanceDetector.THRESHOLD_ABORT with 0.90%float.
  change DissonanceDetector.THRESHOLD_REFRAME with 0.65%float.
  change DissonanceDetector.THRESHOLD_UNCERTAINTY with 0.30%float.
  destruct (PrimFloat.leb 0.90 total) eqn:H90; simpl; [by rewrite H90|].
  destruct (PrimFloat.leb 0.65 total) eqn:H65; simpl; [by rewrite H90, H65|].
  destruct (PrimFloat.leb 0.30 total) eqn:H30; simpl; by rewrite H90, H65, ?H30.
Qed.

Lemma thresholds_ordered : le 0.30 0.65 ∧ le 0.65 0.90.
Proof. done. Qed.

(** C2 (as amended). The inhibition level [calculate_dissonance] returns is
    determined by the total score it returns: on every graph whose edge
    confidences are numbers, the level is abort iff score >= 0.90, reframe iff
    0.65 <= score < 0.90, uncertainty iff 0.30 <= score < 0.65 and none iff
    score < 0.30; [should_inhibit] holds iff the level is reframe or abort,
    and iff score >= 0.65; and two calls that return the same score return
    the same level and flag. *)
Theorem inhibition_level_of_score graph self token token_index context proposed_claim now :
  let r := (DissonanceDetector.calculate_dissonance graph self token token_index
              context proposed_claim now).2 in
  let s := DissonanceDetector.score r in
  let level := DissonanceDetector.inhibition_level r in
  numeric_confidences (CausalGraph.semantic graph) →
  (level = "abort" ↔ le 0.90 s) ∧
  (level = "reframe" ↔ le 0.65 s ∧ lt s 0.90) ∧
  (level = "uncertainty" ↔ le 0.30 s ∧ lt s 0.65) ∧
  (level = "none" ↔ lt s 0.30) ∧
  (DissonanceDetector.should_inhibit r = true ↔ level = "reframe" ∨ level = "abort") ∧
  (DissonanceDetector.should_inhibit r = true ↔ le 0.65 s) ∧
  (∀ graph' self' token' token_index' context' proposed_claim' now',
     let r' := (DissonanceDetector.calculate_dissonance graph' self' token' token_index'
                  context' proposed_claim' now').2 in
     DissonanceDetector.score r' = s →
     DissonanceDetector.inhibition_level r' = level ∧
     DissonanceDetector.should_inhibit r' = DissonanceDetector.should_inhibit r).
Proof.
  intros r s level Hgraph.
  assert (is_number s) as Hnum by (by apply score_is_number).
  destruct (calculate_dissonance_level graph self token token_index context
              proposed_claim now) as [Hlevel Hflag].
  fold r in Hlevel, Hflag. fold s in Hlevel, Hflag. fold level in Hlevel.
  destruct thresholds_ordered as [H3065 H6590].
  assert (is_number 0.30 ∧ is_number 0.65 ∧ is_number 0.90) as (N30 & N65 & N90) by done.
  assert (∀ c, is_number c → PrimFloat.leb c s = false → lt s c) as Hlt
    by (intros c Hc; by apply not_le_lt).
  assert (∀ c, lt s c → PrimFloat.leb c s = false) as Hnle
    by (intros c; apply lt_not_le).
  split_and!.
  - rewrite Hlevel. unfold le.
    destruct (PrimFloat.leb 0.90 s), (PrimFloat.leb 0.65 s), (PrimFloat.leb 0.30 s);
      split; (done || discriminate).
  - rewrite Hlevel. unfold le.
    destruct (PrimFloat.leb 0.90 s) eqn:H90.
    + split; [discriminate|]. intros [_ H]. apply Hnle in H. congruence.
    + destruct (PrimFloat.leb 0.65 s) eqn:H65.
      * split; [|done]. intros _. split; [done|]. by apply Hlt.
      * split; [|by intros [? _]]. destruct (PrimFloat.leb 0.30 s); discriminate.
  - rewrite Hlevel. unfold le.
    destruct (PrimFloat.leb 0.90 s) eqn:H90.
    + split; [discriminate|]. intros [_ H]. apply Hnle in H.
      pose proof (le_trans _ _ _ H6590 H90) as H'. unfold le in H'. congruence.
    + destruct (PrimFloat.leb 0.65 s) eqn:H65.
      * split; [discriminate|]. intros [_ H]. apply Hnle in H. congruence.
      * destruct (PrimFloat.leb 0.30 s) eqn:H30.
        -- split; [|done]. intros _. split; [done|]. by apply Hlt.
        -- split; [discriminate|]. by intros [? _].
  - rewrite Hlevel.
    destruct (PrimFloat.leb 0.90 s) eqn:H90.
    + split; [discriminate|]. intros H. apply Hnle in H.
      pose proof (le_trans _ _ _ H3065 (le_trans _ _ _ H6590 H90)) as H'.
      unfold le in H'. congruence.
    + destruct (PrimFloat.leb 0.65 s) eqn:H65.
      * split; [discriminate|]. intros H. apply Hnle in H.
        pose proof (le_trans _ _ _ H3065 H65) as H'. unfold le in H'. congruence.
      * destruct (PrimFloat.leb 0.30 s) eqn:H30.
        -- split; [discriminate|]. intros H. apply Hnle in H. congruence.
        -- split; [|done]. intros _. by apply Hlt.
  - rewrite Hflag, Hlevel.
    destruct (PrimFloat.leb 0.90 s); [split; [intros _; by right|done]|].
    destruct (PrimFloat.leb 0.65 s); [split; [intros _; by left|done]|].
    destruct (PrimFloat.leb 0.30 s);
      (split; [discriminate|intros [H|H]; discriminate H]).
  - rewrite Hflag. unfold le.
    destruct (PrimFloat.leb 0.90 s) eqn:H90; [|done].
    split; [|done]. intros _. apply (le_trans _ _ _ H6590 H90).
  - intros graph' self' token' token_index' context' proposed_claim' now' r' Hs.
    destruct (calculate_dissonance_level graph' self' token' token_index' context'
                proposed_claim' now') as [Hlevel' Hflag'].
    fold r' in Hlevel', Hflag'. rewrite Hs in Hlevel', Hflag'.
    by rewrite Hlevel', Hflag', Hlevel, Hflag.
Qed.

End inhibition_level.

(** C2 (as stated, refuted).  The graph has learnt a fact whose confidence is
    not a number; for the claim of this fact the score is not a number
    either: the level is none, and score < 0.30 does not hold. *)
Lemma inhibition_level_of_nan_score :
  let graph := Run.graph_with_nan_confidence in
  let r := (DissonanceDetector.calculate_dissonance (rt := Run.runtime) graph
              DissonanceDetector.__init__ "related" 1 ["A"]
              (Some (Run.claim_of "A" "related_to" "B")) (Run.second 0)).2 in
  Spec.reachable graph ∧
  PrimFloat.is_nan (DissonanceDetector.score r) = true ∧
  DissonanceDetector.inhibition_level r = "none" ∧
  PrimFloat.ltb (DissonanceDetector.score r) 0.30 = false ∧
  ¬ F64.lt (DissonanceDetector.score r) 0.30.
Proof.
  split_and!; try by vm_compute.
  apply Spec.reachable_add, Spec.reachable_init.
Qed.

(** ** The policy *)

Section policy.
Context {rt : PyRuntime}.
Import F64 F64_facts.
Implicit Types (self : InhibitionController.t) (graph : CausalGraph.t).

Lemma overflow_threshold_ge_2 : (2 ≤ overflow_threshold)%Z.
Proof. by vm_compute. Qed.

(** A quotient of at most one is in range. *)
Lemma int_truediv_ratio a b :
  (0 ≤ a ≤ b)%Z → (1 ≤ b)%Z →
  int_truediv a b = Ok (SF2Prim (SFdiv prec emax (Z2SF a) (Z2SF b))).
Proof.
  intros Ha Hb. unfold int_truediv.
  destruct (Z.eqb_spec b 0) as [->|_]; [lia|].
  destruct (Z.leb_spec (overflow_threshold * Z.abs b) (Z.abs a)) as [Hle|_]; [|done].
  pose proof overflow_threshold_ge_2 as HK.
  assert (2 * Z.abs b ≤ overflow_threshold * Z.abs b)%Z
    by (apply Z.mul_le_mono_nonneg_r; lia).
  lia.
Qed.

Lemma py_max_1 n : (1 ≤ py_max n 1)%Z ∧ (n ≤ py_max n 1)%Z.
Proof. unfold py_max. destruct (Z.ltb_spec n 1); lia. Qed.

(** The counters keep the four keys the constructor gives them. *)
Lemma controller_state_keys self :
  Spec.controller_state self →
  dom (InhibitionController.inhibitions_by_type self) = Spec.counter_keys.
Proof.
  induction 1 as [|graph self s token token_index total context claim now draw _ IH].
  - unfold Spec.counter_keys. simpl. rewrite !dom_insert_L, dom_empty_L. set_solver.
  - unfold InhibitionController.decide_action.
    destruct (if PrimFloat.leb _ s then _ else _) as [[[action reason] alt] saved].
    destruct (int_truediv _ _); [|done]. simpl.
    destruct (_ !! action) as [count|] eqn:Hk; simpl; [|done].
    rewrite dom_insert_L. apply elem_of_dom_2 in Hk. set_solver.
Qed.

Lemma controller_state_no_add_uncertainty self :
  Spec.controller_state self →
  InhibitionController.inhibitions_by_type self !! "add_uncertainty" = None.
Proof.
  intros Hk%controller_state_keys. apply not_elem_of_dom. rewrite Hk.
  unfold Spec.counter_keys. set_solver.
Qed.

Lemma controller_state_counter self k :
  Spec.controller_state self → k ∈ Spec.counter_keys →
  is_Some (InhibitionController.inhibitions_by_type self !! k).
Proof. intros Hk%controller_state_keys Hin. apply elem_of_dom. by rewrite Hk. Qed.

(** C1 (the code at its failing inputs).  For every score with
    0.30 <= score < 0.65, in every state of the controller, [decide_action]
    chooses the action add_uncertainty, counts the decision, and raises
    [KeyError] at the update of the per-action counters, whose keys are
    continue, uncertainty, reframe and abort: no decision is returned. *)
Theorem decide_action_add_uncertainty_raises graph self s token token_index total
    context proposed_claim now draw :
  Spec.controller_state self →
  le 0.30 s → lt s 0.65 →
  InhibitionController.decide_action graph self s token token_index total context
    proposed_claim now draw =
  ({| InhibitionController.total_decisions :=
        (InhibitionController.total_decisions self + 1)%Z;
      InhibitionController.inhibitions_by_type :=
        InhibitionController.inhibitions_by_type self;
      InhibitionController.total_tokens_saved :=
        InhibitionController.total_tokens_saved self;
      InhibitionController.decision_history :=
        InhibitionController.decision_history self |},
   Raise (KeyError "add_uncertainty")).
Proof.
  intros Hstate H30 H65.
  unfold InhibitionController.decide_action.
  change InhibitionController.THRESHOLD_ABORT with 0.90%float.
  change InhibitionController.THRESHOLD_REFRAME with 0.65%float.
  change InhibitionController.THRESHOLD_UNCERTAINTY with 0.30%float.
  assert (PrimFloat.leb 0.65 s = false) as -> by (by apply lt_not_le).
  assert (PrimFloat.leb 0.90 s = false) as ->.
  { destruct (PrimFloat.leb 0.90 s) eqn:H90; [|done].
    pose proof (le_trans 0.65 0.90 s eq_refl H90) as H.
    apply lt_not_le in H65. unfold le in H. congruence. }
  rewrite H30. cbv beta iota zeta.
  destruct (py_max_1 total) as [Hm _].
  rewrite (int_truediv_ratio 0 (py_max total 1)) by lia.
  cbn [InhibitionController.inhibitions_by_type].
  by rewrite controller_state_no_add_uncertainty.
Qed.

(** C4 (as amended).  For a token position within the plan,
    0 <= token_index <= total_tokens_planned, and a score outside
    0.30 <= score < 0.65, in every state of the controller [decide_action]
    returns a decision; its action is abort, reframe or continue; its
    [tokens_saved] is non-negative and at most the number of tokens
    remaining, equal to that number for abort and reframe and to 0 for
    continue. *)
Theorem decide_action_tokens_saved graph self s token token_index total
    context proposed_claim now draw :
  Spec.controller_state self →
  (0 ≤ token_index ≤ total)%Z →
  ¬ (le 0.30 s ∧ lt s 0.65) →
  ∃ r,
    (InhibitionController.decide_action graph self s token token_index total context
       proposed_claim now draw).2 = Ok r ∧
    (InhibitionController.action r = "abort" ∨
     InhibitionController.action r = "reframe" ∨
     InhibitionController.action r = "continue") ∧
    (0 ≤ InhibitionController.tokens_saved r ≤ total - token_index)%Z ∧
    (InhibitionController.action r = "abort" ∨ InhibitionController.action r = "reframe" →
     InhibitionController.tokens_saved r = (total - token_index)%Z) ∧
    (InhibitionController.action r = "continue" →
     InhibitionController.tokens_saved r = 0%Z).
Proof.
  intros Hstate Hidx Hband.
  unfold InhibitionController.decide_action.
  change InhibitionController.THRESHOLD_ABORT with 0.90%float.
  change InhibitionController.THRESHOLD_REFRAME with 0.65%float.
  change InhibitionController.THRESHOLD_UNCERTAINTY with 0.30%float.
  destruct (py_max_1 total) as [Hm1 Hm2].
  destruct (PrimFloat.leb 0.90 s) eqn:H90; [|destruct (PrimFloat.leb 0.65 s) eqn:H65;
    [|destruct (PrimFloat.leb 0.30 s) eqn:H30]]; cbv beta iota zeta.
  - rewrite int_truediv_ratio by lia. cbn [InhibitionController.inhibitions_by_type].
    destruct (controller_state_counter self "abort" Hstate) as [count ->];
      [unfold Spec.counter_keys; set_solver|].
    eexists. split; [done|]. simpl. split_and!; eauto; try lia; done.
  - rewrite int_truediv_ratio by lia. cbn [InhibitionController.inhibitions_by_type].
    destruct (controller_state_counter self "reframe" Hstate) as [count ->];
      [unfold Spec.counter_keys; set_solver|].
    eexists. split; [done|]. simpl. split_and!; eauto; try lia; done.
  - exfalso. apply Hband. split; [done|].
    apply not_le_lt; [done| |done]. by eapply le_is_number_r.
  - rewrite int_truediv_ratio by lia. cbn [InhibitionController.inhibitions_by_type].
    destruct (controller_state_counter self "continue" Hstate) as [count ->];
      [unfold Spec.counter_keys; set_solver|].
    eexists. split; [done|]. simpl. split_and!; eauto; try lia.
    intros [?|?]; discriminate.
Qed.

End policy.

(** C4 (as stated, refuted).  With a critical score at position 7 of a plan
    of 5 tokens, the decision is abort and its [tokens_saved] is -2. *)
Lemma decide_action_negative_tokens_saved :
  ∃ r,
    (InhibitionController.decide_action (rt := Run.runtime) Run.graph Run.controller
       0.95%float "partnership" 7 5 ["Hahnemühle"; "Awagami"] None
       (Run.second 0) 0).2 = Ok r ∧
    InhibitionController.action r = "abort" ∧
    InhibitionController.tokens_saved r = (-2)%Z.
Proof. eexists. by vm_compute. Qed.

(** ** The breadth-first search *)

Section chains.
Import Search.
Implicit Types (m : nx.links) (x y : string) (p q : list string).

Lemma chain_head m x p : chain m x p → head p = Some x.
Proof. by destruct 1. Qed.

Lemma chain_nonempty m x p : chain m x p → (1 ≤ length p)%nat.
Proof. destruct 1; simpl; lia. Qed.

Lemma chain_key m x p : chain m x p → is_Some (m !! x).
Proof. destruct 1; eauto. Qed.

Lemma chain_functional m x p q : chain m x p → chain m x q → p = q.
Proof.
  intros Hp. revert q. induction Hp as [x Hx|x y p Hx Hp IH]; intros q Hq.
  - destruct Hq; [done|congruence].
  - destruct Hq as [|x y' q Hx' Hq]; [congruence|].
    assert (y' = y) as -> by congruence. f_equal. by apply IH.
Qed.

Lemma chain_mono m m' x p : m ⊆ m' → chain m x p → chain m' x p.
Proof.
  intros Hsub. induction 1 as [x Hx|x y p Hx Hp IH].
  - apply chain_root. by eapply lookup_weaken.
  - eapply chain_step; [by eapply lookup_weaken|done].
Qed.

Lemma chain_elem_key m x p z : chain m x p → z ∈ p → is_Some (m !! z).
Proof.
  induction 1 as [x Hx|x y p Hx Hp IH].
  - intros ->%list_elem_of_singleton. eauto.
  - intros [->|Hz]%elem_of_cons; eauto.
Qed.

Lemma chain_suffix m x p z :
  chain m x p → z ∈ p → ∃ q, chain m z q ∧ (length q ≤ length p)%nat.
Proof.
  induction 1 as [x Hx|x y p Hx Hp IH].
  - intros ->%list_elem_of_singleton. exists [x]. split; [by constructor|done].
  - intros [->|Hz]%elem_of_cons.
    + exists (x :: p). split; [by econstructor|done].
    + destruct (IH Hz) as (q & Hq & Hlen). exists q. split; [done|simpl; lia].
Qed.

Lemma chain_NoDup m x p : chain m x p → NoDup p.
Proof.
  induction 1 as [x Hx|x y p Hx Hp IH].
  - apply NoDup_singleton.
  - apply NoDup_cons. split; [|done]. intros Hin.
    destruct (chain_suffix _ _ _ _ Hp Hin) as (q & Hq & Hlen).
    assert (q = x :: p) as -> by (eapply chain_functional; [done|by econstructor]).
    simpl in Hlen. lia.
Qed.

Lemma chain_length_size m x p : chain m x p → (length p ≤ size m)%nat.
Proof.
  intros Hp. rewrite <- (size_dom (D := gset string) m).
  change (length p ≤ length (elements (dom m : gset string)))%nat.
  apply submseteq_length, NoDup_submseteq; [by eapply chain_NoDup|].
  intros z Hz. apply elem_of_elements, elem_of_dom. by eapply chain_elem_key.
Qed.

Lemma follow_chain m x p fuel :
  chain m x p → (length p ≤ fuel)%nat → nx.follow fuel m (Some x) = p.
Proof.
  intros Hp. revert fuel. induction Hp as [x Hx|x y p Hx Hp IH]; intros fuel Hlen.
  - destruct fuel as [|fuel]; simpl in *; [lia|]. rewrite Hx. simpl. by destruct fuel.
  - destruct fuel as [|fuel]; simpl in *; [lia|]. rewrite Hx. simpl.
    f_equal. apply IH. lia.
Qed.

Lemma chain_last m r x p :
  (∀ z, m !! z = Some None → z = r) → chain m x p → last p = Some r.
Proof.
  intros Hr. induction 1 as [x Hx|x y p Hx Hp IH].
  - simpl. f_equal. by apply Hr.
  - rewrite last_cons, IH. done.
Qed.

End chains.

Section scans.
Import Search.
Implicit Types (m other : nx.links) (x v w : string) (fringe : list string).

Lemma scanned_nothing other m fringe :
  scanned (λ _ _, False) other m fringe m fringe None.
Proof.
  split; try done.
  - intros x Hx [? ?]. congruence.
  - intros x. split; [auto|]. intros [?|[Hx [? ?]]]; [done|congruence].
Qed.

Lemma scanned_then (V V1 V2 : string → string → Prop) other m fringe m1 fringe1
    m' fringe' found :
  (∀ v x, V v x ↔ V1 v x ∨ V2 v x) →
  scanned V1 other m fringe m1 fringe1 None →
  scanned V2 other m1 fringe1 m' fringe' found →
  scanned V other m fringe m' fringe' found.
Proof.
  intros HV [Hsub1 Hnew1 Hfr1 Hsz1 Hall1 _] [Hsub2 Hnew2 Hfr2 Hsz2 Hall2 Hfound2].
  split.
  - by etrans.
  - intros x Hx Hx'. destruct (m1 !! x) as [l|] eqn:Hm1.
    + destruct (Hnew1 x Hx) as (v & Hv & Hl & Ho); [by rewrite ?Hm1|].
      exists v. split; [apply HV; auto|]. split.
      * eapply lookup_weaken; [|done]. done.
      * destruct Ho as [?|?]; [by left|done].
    + destruct (Hnew2 x Hm1 Hx') as (v & Hv & Hl & Ho).
      exists v. split; [apply HV; auto|]. done.
  - intros x. rewrite Hfr2, Hfr1. split.
    + intros [[?|[? [l Hl]]]|[Hx1 Hx']]; [by left| |].
      * right. split; [done|]. exists l.
        by eapply lookup_weaken.
      * right. split; [|done]. destruct (m !! x) eqn:Hx; [|done].
        eapply lookup_weaken in Hx; [|done]. congruence.
    + intros [?|[Hx Hx']]; [by left; left|].
      destruct (m1 !! x) as [l|] eqn:Hm1.
      * left. right. split; [done|]. by rewrite ?Hm1.
      * right. done.
  - lia.
  - intros -> v x [Hv|Hv]%HV.
    + destruct (Hall1 eq_refl v x Hv) as [[l Hl] Ho]. split; [|done].
      exists l. by eapply lookup_weaken.
    + by apply (Hall2 eq_refl v x).
  - done.
Qed.

Lemma scanned_stop (V V1 : string → string → Prop) other m fringe m' fringe' w :
  (∀ v x, V1 v x → V v x) →
  scanned V1 other m fringe m' fringe' (Some w) →
  scanned V other m fringe m' fringe' (Some w).
Proof.
  intros HV [Hsub Hnew Hfr Hsz Hall Hfound]. split; try done.
  intros x Hx Hx'. destruct (Hnew x Hx Hx') as (v & Hv & ?). exists v. auto.
Qed.

(** One visit: [if w not in mine: ...] and then [if w in other: return]. *)
Lemma scanned_visit other v w m fringe :
  let '(m', fringe') :=
    match m !! w with
    | None => (<[w := Some v]> m, fringe ++ [w])
    | Some _ => (m, fringe)
    end in
  scanned (λ v' x, v' = v ∧ x = w) other m fringe m' fringe'
    (match other !! w with Some _ => Some w | None => None end).
Proof.
  destruct (m !! w) as [l|] eqn:Hw.
  - split; try done.
    + intros x Hx [? ?]. congruence.
    + intros x. split; [auto|]. intros [?|[Hx [? ?]]]; [done|congruence].
    + intros Ho ? x [-> ->]. split; [by rewrite Hw|]. by destruct (other !! w).
    + intros w' Ho. destruct (other !! w) eqn:Hother; [|done].
      injection Ho as <-. split; [by rewrite Hw|by rewrite Hother].
  - split.
    + by apply insert_subseteq.
    + intros x Hx Hx'. assert (x = w) as ->.
      { destruct (decide (x = w)); [done|]. rewrite lookup_insert_ne in Hx' by done.
        destruct Hx'. congruence. }
      exists v. rewrite lookup_insert_eq. split_and!; [done..|].
      destruct (other !! w); [by right|by left].
    + intros x. rewrite elem_of_app, list_elem_of_singleton. split.
      * intros [?| ->]; [by left|]. right. by rewrite lookup_insert_eq.
      * intros [?|[Hx Hx']]; [by left|]. right.
        destruct (decide (x = w)); [done|]. rewrite lookup_insert_ne in Hx' by done.
        destruct Hx'. congruence.
    + rewrite map_size_insert_None by done. rewrite length_app. simpl. lia.
    + intros Ho ? x [-> ->]. split; [by rewrite lookup_insert_eq|].
      by destruct (other !! w).
    + intros w' Ho. destruct (other !! w) eqn:Hother; [|done].
      injection Ho as <-. split; [by rewrite lookup_insert_eq|by rewrite Hother].
Qed.

Lemma scan_neighbours_scanned other v ws m fringe :
  match nx.scan_neighbours other v ws m fringe with
  | (m', fringe', found) =>
      scanned (λ v' x, v' = v ∧ x ∈ ws) other m fringe m' fringe' found
  end.
Proof.
  revert m fringe. induction ws as [|w ws IH]; intros m fringe; simpl.
  - eapply scanned_then; [|apply scanned_nothing|apply scanned_nothing].
    intros v' x. rewrite elem_of_nil. tauto.
  - pose proof (scanned_visit other v w m fringe) as Hvisit.
    destruct (match m !! w with None => _ | Some _ => _ end) as [m1 fringe1].
    destruct (other !! w) as [l|] eqn:Ho.
    + eapply scanned_stop; [|done]. intros ? x [-> ->]. split; [done|]. by left.
    + specialize (IH m1 fringe1).
      destruct (nx.scan_neighbours other v ws m1 fringe1) as [[m' fringe'] found].
      eapply scanned_then; [|done|done].
      intros v' x. rewrite elem_of_cons. naive_solver.
Qed.

Lemma scan_level_scanned nbrs other this_level m fringe :
  match nx.scan_level nbrs other this_level m fringe with
  | (m', fringe', found) =>
      scanned (λ v x, v ∈ this_level ∧ x ∈ nbrs v) other m fringe m' fringe' found
  end.
Proof.
  revert m fringe. induction this_level as [|v vs IH]; intros m fringe; simpl.
  - eapply scanned_then; [|apply scanned_nothing|apply scanned_nothing].
    intros v' x. rewrite elem_of_nil. tauto.
  - pose proof (scan_neighbours_scanned other v (nbrs v) m fringe) as Hv.
    destruct (nx.scan_neighbours other v (nbrs v) m fringe) as [[m1 fringe1] [w|]].
    + eapply scanned_stop; [|done]. intros ? x [-> ?]. split; [by left|done].
    + specialize (IH m1 fringe1).
      destruct (nx.scan_level nbrs other vs m1 fringe1) as [[m' fringe'] found].
      eapply scanned_then; [|done|done].
      intros v' x. rewrite elem_of_cons. naive_solver.
Qed.

End scans.

Section sides.
Import Search.
Implicit Types (m other : nx.links) (x v w r : string) (fringe : list string).

(** The tables after a scan of the fringe, whether it stopped or not. *)
Lemma side_scanned nbrs r other m fringe d m' fringe' found
    (V : string → string → Prop) :
  (∀ v x, V v x → v ∈ fringe ∧ x ∈ nbrs v) →
  side nbrs r m fringe d →
  scanned V other m [] m' fringe' found →
  m' !! r = Some None ∧
  (∀ x, m' !! x = Some None → x = r) ∧
  (∀ x y, m' !! x = Some (Some y) → x ∈ nbrs y) ∧
  (∀ x, is_Some (m' !! x) →
     ∃ p, chain m' x p ∧ (length p ≤ S (S d))%nat ∧
          (m !! x = None → length p = S (S d)) ∧
          (is_Some (m !! x) → chain m x p)).
Proof.
  intros HV Hside Hscan.
  destruct Hside as [Hroot Honly Hlink Hdepth Hdeep Hfringe Hexp].
  destruct Hscan as [Hsub Hnew Hfr Hsz Hall Hfound].
  split_and!.
  - by eapply lookup_weaken.
  - intros x Hx. destruct (m !! x) as [l|] eqn:Hm.
    + apply Honly. rewrite Hm. f_equal.
      eapply lookup_weaken in Hm; [|done]. congruence.
    + destruct (Hnew x Hm) as (v & _ & Hv & _); [by rewrite Hx|]. congruence.
  - intros x y Hx. destruct (m !! x) as [l|] eqn:Hm.
    + apply Hlink. rewrite Hm. f_equal.
      eapply lookup_weaken in Hm; [|done]. congruence.
    + destruct (Hnew x Hm) as (v & Hv & Hv' & _); [by rewrite Hx|].
      assert (v = y) as -> by congruence. by apply HV.
  - intros x Hx. destruct (m !! x) as [l|] eqn:Hm.
    + destruct (Hdepth x) as (p & Hp & Hlen); [by rewrite Hm|].
      exists p. split_and!; [by eapply chain_mono|lia|done|done].
    + destruct (Hnew x Hm Hx) as (v & Hv & Hv' & _).
      destruct (Hfringe v) as (p & Hp & Hlen); [by apply (HV v x)|].
      exists (x :: p). split_and!.
      * eapply chain_step; [done|]. by eapply chain_mono.
      * simpl. lia.
      * intros _. simpl. lia.
      * by intros [? ?].
Qed.

(** A complete level: the other side was met nowhere. *)
Lemma side_next nbrs r other m fringe d m' fringe' :
  side nbrs r m fringe d →
  scanned (λ v x, v ∈ fringe ∧ x ∈ nbrs v) other m [] m' fringe' None →
  side nbrs r m' fringe' (S d).
Proof.
  intros Hside Hscan.
  destruct (side_scanned nbrs r other m fringe d m' fringe' None _
              (λ v x H, H) Hside Hscan) as (Hroot' & Honly' & Hlink' & Hchains).
  destruct Hside as [Hroot Honly Hlink Hdepth Hdeep Hfringe Hexp].
  destruct Hscan as [Hsub Hnew Hfr Hsz Hall Hfound].
  assert (∀ x p, chain m' x p → (length p ≤ S d)%nat → chain m x p) as Hold.
  { intros x p Hp Hlen. destruct (Hchains x) as (q & Hq & _ & Hnewlen & Holdq).
    { by eapply chain_key. }
    assert (q = p) as -> by by eapply chain_functional.
    destruct (m !! x) eqn:Hm; [by apply Holdq|].
    specialize (Hnewlen eq_refl). lia. }
  split; try done.
  - intros x Hx. destruct (Hchains x Hx) as (p & Hp & Hlen & _). eauto.
  - intros x p Hp Hlen. apply Hfr. right.
    split; [|by eapply chain_key].
    destruct (m !! x) as [l|] eqn:Hm; [|done].
    destruct (Hdepth x) as (q & Hq & Hlenq); [by rewrite Hm|].
    assert (q = p) as -> by (eapply chain_functional; [by eapply chain_mono|done]).
    lia.
  - intros x [Hx|[Hm Hx]]%Hfr; [by apply elem_of_nil in Hx|].
    destruct (Hchains x Hx) as (p & Hp & _ & Hlen & _). eauto.
  - intros x p Hp Hlen w Hw.
    pose proof (Hold x p Hp Hlen) as Hpm.
    destruct (decide (length p ≤ d)%nat) as [Hle|Hgt].
    + destruct (Hexp x p Hpm Hle w Hw) as (q & Hq & Hlenq).
      exists q. split; [by eapply chain_mono|done].
    + assert (x ∈ fringe) as Hx by (apply (Hdeep x p Hpm); lia).
      destruct (Hall eq_refl x w (conj Hx Hw)) as [Hkey _].
      destruct (Hchains w Hkey) as (q & Hq & Hlenq & _).
      exists q. split; [done|lia].
Qed.

Lemma side_steps_prefix nbrs r m fringe d x k :
  side nbrs r m fringe d → steps nbrs r x k → (k ≤ d)%nat →
  ∃ p, chain m x p ∧ (length p ≤ S k)%nat.
Proof.
  intros Hside. induction 1 as [|x w k Hsteps IH Hw]; intros Hk.
  - exists [r]. split; [|done]. apply chain_root, Hside.
  - destruct IH as (p & Hp & Hlen); [lia|].
    destruct (side_expanded _ _ _ _ _ Hside x p Hp) with (w := w) as (q & Hq & Hlenq);
      [lia|done|].
    exists q. split; [done|lia].
Qed.

Lemma side_steps_closed nbrs r m d x k :
  side nbrs r m [] d → steps nbrs r x k → is_Some (m !! x).
Proof.
  intros Hside. induction 1 as [|x w k Hsteps IH Hw].
  - rewrite (side_root _ _ _ _ _ Hside). eauto.
  - destruct (side_depth _ _ _ _ _ Hside x IH) as (p & Hp & Hlen).
    destruct (decide (length p = S d)) as [Heq|Hne].
    + pose proof (side_deep _ _ _ _ _ Hside x p Hp Heq) as Hin.
      by apply elem_of_nil in Hin.
    + destruct (side_expanded _ _ _ _ _ Hside x p Hp) with (w := w) as (q & Hq & _);
        [lia|done|]. by eapply chain_key.
Qed.

(** The first side: the root alone, no level expanded. *)
Lemma side_start nbrs r : side nbrs r {[r := None]} [r] 0.
Proof.
  assert (∀ x p, chain ({[r := None]} : nx.links) x p → x = r ∧ p = [r]) as Hchain.
  { intros x p Hp. destruct Hp as [x Hx|x y p Hx Hp].
    - apply lookup_singleton_Some in Hx as [-> _]. done.
    - apply lookup_singleton_Some in Hx as [_ [=]]. }
  split.
  - apply lookup_singleton_eq.
  - by intros x [-> _]%lookup_singleton_Some.
  - by intros x y [_ [=]]%lookup_singleton_Some.
  - intros x [l [<- _]%lookup_singleton_Some]. exists [r]. split; [|done].
    apply chain_root, lookup_singleton_eq.
  - intros x p [-> ->]%Hchain _. apply list_elem_of_here.
  - intros x ->%list_elem_of_singleton. exists [r]. split; [|done].
    apply chain_root, lookup_singleton_eq.
  - intros x p [-> ->]%Hchain Hlen. simpl in Hlen. lia.
Qed.

End sides.

Section paths.
Import Search.
Implicit Types (G : nx.DiGraph) (a b c x v w : string) (p q : list string).

Lemma elem_of_successors G v w : w ∈ nx.successors G v ↔ nx.has_edge G v w = true.
Proof.
  unfold nx.successors, nx.has_edge. rewrite list_elem_of_omap, od_mem_true_get. split.
  - intros ([[u w'] attr] & Hin & Hw). simpl in Hw.
    destruct (decide (u = v)) as [->|]; [|done]. injection Hw as ->.
    destruct (od_get (v, w) (nx.edges G)) eqn:Hget; [eauto|].
    by eapply od_get_None_elem in Hget.
  - intros [attr Hget%od_get_Some_elem]. exists (v, w, attr). split; [done|].
    simpl. by rewrite decide_True.
Qed.

Lemma elem_of_predecessors G v w : w ∈ nx.predecessors G v ↔ nx.has_edge G w v = true.
Proof.
  unfold nx.predecessors, nx.has_edge. rewrite list_elem_of_omap, od_mem_true_get. split.
  - intros ([[w' u] attr] & Hin & Hw). simpl in Hw.
    destruct (decide (u = v)) as [->|]; [|done]. injection Hw as ->.
    destruct (od_get (w, v) (nx.edges G)) eqn:Hget; [eauto|].
    by eapply od_get_None_elem in Hget.
  - intros [attr Hget%od_get_Some_elem]. exists (w, v, attr). split; [done|].
    simpl. by rewrite decide_True.
Qed.

Lemma is_path_nonempty G a b p : is_path G a b p → (1 ≤ length p)%nat.
Proof. destruct 1; simpl; lia. Qed.

Lemma is_path_snoc G a b c p :
  is_path G a b p → nx.has_edge G b c = true → is_path G a c (p ++ [c]).
Proof.
  induction 1 as [a|a b' b p Hedge Hp IH]; intros Hbc; simpl.
  - apply path_step with c; [done|constructor].
  - apply path_step with b'; [done|]. by apply IH.
Qed.

Lemma is_path_app G a b c p q :
  is_path G a b p → is_path G b c q → is_path G a c (p ++ tail q).
Proof.
  induction 1 as [a|a b' b p Hedge Hp IH]; intros Hq; simpl.
  - destruct Hq; simpl; by econstructor.
  - apply path_step with b'; [done|]. by apply IH.
Qed.

Lemma steps_front nbrs a x y k :
  x ∈ nbrs a → steps nbrs x y k → steps nbrs a y (S k).
Proof.
  intros Hx. induction 1 as [|y w k Hsteps IH Hw].
  - eapply steps_S; [constructor|done].
  - eapply steps_S; done.
Qed.

Lemma is_path_steps G a b p :
  is_path G a b p →
  steps (nx.successors G) a b (length p - 1) ∧
  steps (nx.predecessors G) b a (length p - 1).
Proof.
  induction 1 as [a|a b' b p Hedge Hp [IH1 IH2]]; simpl.
  - split; constructor.
  - pose proof (is_path_nonempty _ _ _ _ Hp).
    replace (length p - 0)%nat with (S (length p - 1)) by lia. split.
    + eapply steps_front; [|done]. by apply elem_of_successors.
    + eapply steps_S; [done|]. by apply elem_of_predecessors.
Qed.

Lemma is_path_split G a b p i :
  is_path G a b p → (i < length p)%nat →
  ∃ x p1 p2, is_path G a x p1 ∧ is_path G x b p2 ∧
             length p1 = S i ∧ (length p1 + length p2 = S (length p))%nat.
Proof.
  intros Hp. revert i. induction Hp as [a|a b' b p Hedge Hp IH]; intros i Hi.
  - simpl in Hi. assert (i = 0)%nat as -> by lia.
    exists a, [a], [a]. split_and!; (constructor || done).
  - destruct i as [|i].
    + exists a, [a], (a :: p). split_and!; [constructor|by econstructor|done|done].
    + destruct (IH i) as (x & p1 & p2 & H1 & H2 & Hl1 & Hl2); [simpl in Hi; lia|].
      exists x, (a :: p1), p2. split_and!; [by econstructor|done|simpl; lia|simpl; lia].
Qed.

(** The chain of a node in the table of the forward side, read backwards, is
    a path from the source; in the table of the reverse side it is a path to
    the target. *)
Lemma forward_chain_path G r (m : nx.links) x p :
  (∀ z, m !! z = Some None → z = r) →
  (∀ z y, m !! z = Some (Some y) → z ∈ nx.successors G y) →
  chain m x p → is_path G r x (rev p).
Proof.
  intros Honly Hlink. induction 1 as [x Hx|x y p Hx Hp IH]; simpl.
  - rewrite (Honly x Hx). constructor.
  - eapply is_path_snoc; [done|]. by apply elem_of_successors, Hlink.
Qed.

Lemma reverse_chain_path G r (m : nx.links) x p :
  (∀ z, m !! z = Some None → z = r) →
  (∀ z y, m !! z = Some (Some y) → z ∈ nx.predecessors G y) →
  chain m x p → is_path G x r p.
Proof.
  intros Honly Hlink. induction 1 as [x Hx|x y p Hx Hp IH]; simpl.
  - rewrite (Honly x Hx). constructor.
  - eapply path_step; [|done]. by apply elem_of_predecessors, Hlink.
Qed.

(** Between two rounds the two sides have not met, so every path from the
    source to the target is longer than the two depths together. *)
Lemma between_rounds_far G s t pred succ ff rf df dr q :
  between_rounds G s t pred succ ff rf df dr →
  is_path G s t q → (df + dr + 2 ≤ length q)%nat.
Proof.
  intros [Hf Hr Hnot] Hq.
  destruct (decide (df + dr + 2 ≤ length q)%nat) as [|Hshort]; [done|exfalso].
  pose proof (is_path_nonempty _ _ _ _ Hq) as Hne.
  destruct (is_path_split G s t q (df `min` (length q - 1))) as
    (x & p1 & p2 & H1 & H2 & Hl1 & Hl2); [done|lia|].
  apply is_path_steps in H1 as [H1 _]. apply is_path_steps in H2 as [_ H2].
  destruct (side_steps_prefix _ _ _ _ _ _ _ Hf H1) as (c1 & Hc1 & _); [lia|].
  destruct (side_steps_prefix _ _ _ _ _ _ _ Hr H2) as (c2 & Hc2 & _); [lia|].
  apply chain_key in Hc1, Hc2. rewrite (Hnot x Hc1) in Hc2. by destruct Hc2.
Qed.

End paths.

Section search.
Import Search.
Implicit Types (G : nx.DiGraph) (s t x v w : string) (pred succ : nx.links).

Lemma between_rounds_forward G s t pred succ ff rf df dr pred' fringe' :
  between_rounds G s t pred succ ff rf df dr →
  nx.scan_level (nx.successors G) succ ff pred [] = (pred', fringe', None) →
  between_rounds G s t pred' succ fringe' rf (S df) dr ∧
  size pred' = (size pred + length fringe')%nat.
Proof.
  intros [Hf Hr Hnot] Hrun.
  pose proof (scan_level_scanned (nx.successors G) succ ff pred []) as Hscan.
  rewrite Hrun in Hscan. split; [split; [|done|]|].
  - by eapply side_next.
  - intros x Hx. destruct (pred !! x) as [l|] eqn:Hold; [apply Hnot; by rewrite Hold|].
    destruct (scanned_new _ _ _ _ _ _ _ Hscan x Hold Hx) as (_ & _ & _ & [?|?]); done.
  - pose proof (scanned_size _ _ _ _ _ _ _ Hscan) as Hsz. simpl in Hsz. lia.
Qed.

Lemma between_rounds_reverse G s t pred succ ff rf df dr succ' fringe' :
  between_rounds G s t pred succ ff rf df dr →
  nx.scan_level (nx.predecessors G) pred rf succ [] = (succ', fringe', None) →
  between_rounds G s t pred succ' ff fringe' df (S dr) ∧
  size succ' = (size succ + length fringe')%nat.
Proof.
  intros [Hf Hr Hnot] Hrun.
  pose proof (scan_level_scanned (nx.predecessors G) pred rf succ []) as Hscan.
  rewrite Hrun in Hscan. split; [split; [done| |]|].
  - by eapply side_next.
  - intros x Hx. destruct (succ' !! x) as [l'|] eqn:Hnew; [exfalso|done].
    destruct (succ !! x) as [l|] eqn:Hold.
    + rewrite Hnot in Hold; done.
    + destruct (scanned_new _ _ _ _ _ _ _ Hscan x Hold) as (_ & _ & _ & [Hp|?]);
        [by rewrite Hnew| |done].
      rewrite Hp in Hx. by destruct Hx.
  - pose proof (scanned_size _ _ _ _ _ _ _ Hscan) as Hsz. simpl in Hsz. lia.
Qed.

Lemma search_loop_spec G s t fuel pred succ ff rf df dr :
  between_rounds G s t pred succ ff rf df dr →
  match nx.search_loop fuel G pred succ ff rf with
  | nx.Meet pred' succ' w => meeting G s t pred' succ' w
  | nx.NoPath => ∀ q, ¬ is_path G s t q
  | nx.OutOfFuel => True
  end.
Proof.
  revert pred succ ff rf df dr.
  induction fuel as [|fuel IH]; intros pred succ ff rf df dr Hinv; [done|].
  pose proof Hinv as [Hf Hr Hnot].
  assert (ff = [] ∨ rf = [] → ∀ q, ¬ is_path G s t q) as Hnone.
  { intros Hempty q Hq. destruct (is_path_steps _ _ _ _ Hq) as [H1 H2].
    destruct Hempty as [-> | ->].
    - pose proof (side_steps_closed _ _ _ _ _ _ Hf H1) as Hkey.
      apply Hnot in Hkey. by rewrite (side_root _ _ _ _ _ Hr) in Hkey.
    - pose proof (side_steps_closed _ _ _ _ _ _ Hr H2) as Hkey.
      rewrite Hnot in Hkey; [by destruct Hkey|].
      rewrite (side_root _ _ _ _ _ Hf). eauto. }
  simpl. destruct ff as [|v0 ff0]; [by apply Hnone; left|].
  destruct rf as [|u0 rf0]; [by apply Hnone; right|].
  set (ff := v0 :: ff0) in *. set (rf := u0 :: rf0) in *. clearbody ff rf.
  destruct (length ff <=? length rf)%nat.
  - pose proof (scan_level_scanned (nx.successors G) succ ff pred []) as Hscan.
    destruct (nx.scan_level (nx.successors G) succ ff pred [])
      as [[pred' fringe'] [w|]] eqn:Hrun.
    + destruct (side_scanned _ _ _ _ _ _ _ _ _ _ (λ v x H, H) Hf Hscan)
        as (_ & Honly & Hlink & Hchains).
      destruct (scanned_found _ _ _ _ _ _ _ Hscan w eq_refl) as [Hw Hw'].
      destruct (Hchains w Hw) as (pf & Hpf & Hlenf & _).
      destruct (side_depth _ _ _ _ _ Hr w Hw') as (ps & Hps & Hlens).
      exists pf, ps. split_and!; [done|done| | |].
      * by eapply forward_chain_path.
      * eapply reverse_chain_path; [apply Hr|apply Hr|done].
      * intros q Hq. pose proof (between_rounds_far _ _ _ _ _ _ _ _ _ _ Hinv Hq). lia.
    + apply (IH pred' succ fringe' rf (S df) dr).
      by eapply between_rounds_forward.
  - pose proof (scan_level_scanned (nx.predecessors G) pred rf succ []) as Hscan.
    destruct (nx.scan_level (nx.predecessors G) pred rf succ [])
      as [[succ' fringe'] [w|]] eqn:Hrun.
    + destruct (side_scanned _ _ _ _ _ _ _ _ _ _ (λ v x H, H) Hr Hscan)
        as (_ & Honly & Hlink & Hchains).
      destruct (scanned_found _ _ _ _ _ _ _ Hscan w eq_refl) as [Hw Hw'].
      destruct (Hchains w Hw) as (ps & Hps & Hlens & _).
      destruct (side_depth _ _ _ _ _ Hf w Hw') as (pf & Hpf & Hlenf).
      exists pf, ps. split_and!; [done|done| | |].
      * eapply forward_chain_path; [apply Hf|apply Hf|done].
      * by eapply reverse_chain_path.
      * intros q Hq. pose proof (between_rounds_far _ _ _ _ _ _ _ _ _ _ Hinv Hq). lia.
    + apply (IH pred succ' ff fringe' df (S dr)).
      by eapply between_rounds_reverse.
Qed.


(** *** The fuel is enough *)

Lemma size_list_to_set_le (l : list string) :
  (size (list_to_set l : gset string) ≤ length l)%nat.
Proof.
  induction l as [|x l IH]; simpl.
  - done.
  - rewrite size_union_alt, size_singleton.
    pose proof (subseteq_size (list_to_set l ∖ {[x]}) (list_to_set l : gset string)) as Hd.
    specialize (Hd ltac:(set_solver)). lia.
Qed.

Lemma side_size nbrs r (m : nx.links) fringe d (pool : list string) :
  side nbrs r m fringe d →
  (∀ x y, x ∈ nbrs y → x ∈ pool) →
  (size m ≤ S (length pool))%nat.
Proof.
  intros Hside Hpool. rewrite <- (size_dom (D := gset string) m).
  etrans; [apply (subseteq_size _ ({[r]} ∪ list_to_set pool))|].
  - intros x [[y|] Hx]%elem_of_dom.
    + apply elem_of_union_r, elem_of_list_to_set, (Hpool x y).
      by apply (side_link _ _ _ _ _ Hside).
    + apply elem_of_union_l, elem_of_singleton. by apply (side_root_only _ _ _ _ _ Hside).
  - rewrite size_union_alt, size_singleton.
    pose proof (subseteq_size (list_to_set pool ∖ {[r]}) (list_to_set pool : gset string)) as Hd.
    specialize (Hd ltac:(set_solver)).
    pose proof (size_list_to_set_le pool). lia.
Qed.

Lemma between_rounds_size G s t pred succ ff rf df dr :
  between_rounds G s t pred succ ff rf df dr →
  (size pred ≤ S (length (nx.edges G)))%nat ∧ (size succ ≤ S (length (nx.edges G)))%nat.
Proof.
  intros [Hf Hr _]. split.
  - rewrite <- (length_fmap (λ e, e.1.2) (nx.edges G)).
    apply (side_size _ _ _ _ _ _ Hf). intros x y Hx.
    unfold nx.successors in Hx. apply list_elem_of_omap in Hx as (e & He & Hx).
    apply list_elem_of_fmap. exists e. split; [|done].
    destruct (decide (e.1.1 = y)); congruence.
  - rewrite <- (length_fmap (λ e, e.1.1) (nx.edges G)).
    apply (side_size _ _ _ _ _ _ Hr). intros x y Hx.
    unfold nx.predecessors in Hx. apply list_elem_of_omap in Hx as (e & He & Hx).
    apply list_elem_of_fmap. exists e. split; [|done].
    destruct (decide (e.1.2 = y)); congruence.
Qed.

Lemma search_loop_terminates G s t fuel pred succ ff rf df dr :
  between_rounds G s t pred succ ff rf df dr →
  (2 * S (length (nx.edges G)) + 2 ≤ fuel + size pred + size succ)%nat →
  nx.search_loop fuel G pred succ ff rf ≠ nx.OutOfFuel.
Proof.
  revert pred succ ff rf df dr.
  induction fuel as [|fuel IH]; intros pred succ ff rf df dr Hinv Hfuel.
  { destruct (between_rounds_size _ _ _ _ _ _ _ _ _ Hinv). lia. }
  simpl. destruct ff as [|v0 ff0]; [done|]. destruct rf as [|u0 rf0]; [done|].
  set (ff := v0 :: ff0) in *. set (rf := u0 :: rf0) in *.
  destruct (length ff <=? length rf)%nat.
  - destruct (nx.scan_level (nx.successors G) succ ff pred [])
      as [[pred' fringe'] [w|]] eqn:Hrun; [done|].
    destruct (between_rounds_forward _ _ _ _ _ _ _ _ _ _ _ Hinv Hrun) as [Hinv' Hsize].
    destruct fringe' as [|x fringe'].
    + destruct fuel as [|fuel]; [|done].
      destruct (between_rounds_size _ _ _ _ _ _ _ _ _ Hinv). lia.
    + apply (IH _ _ _ _ _ _ Hinv'). simpl in Hsize. lia.
  - destruct (nx.scan_level (nx.predecessors G) pred rf succ [])
      as [[succ' fringe'] [w|]] eqn:Hrun; [done|].
    destruct (between_rounds_reverse _ _ _ _ _ _ _ _ _ _ _ Hinv Hrun) as [Hinv' Hsize].
    destruct fringe' as [|x fringe'].
    + destruct fuel as [|fuel]; [|done].
      destruct (between_rounds_size _ _ _ _ _ _ _ _ _ Hinv). lia.
    + apply (IH _ _ _ _ _ _ Hinv'). simpl in Hsize. lia.
Qed.

(** *** [shortest_path] *)

Lemma between_rounds_start G s t :
  t ≠ s → between_rounds G s t {[s := None]} {[t := None]} [s] [t] 0 0.
Proof.
  intros Hne. split; [apply side_start..|].
  intros x [l [<- _]%lookup_singleton_Some]. by apply lookup_singleton_ne.
Qed.

Lemma follow_None fuel (m : nx.links) : nx.follow fuel m None = [].
Proof. by destruct fuel. Qed.

(** [shortest_path] returns, and what it returns is right: a path it
    returns is a path of the graph from the source to the target and no path
    between them has fewer nodes; when it raises, there is no path. *)
Theorem shortest_path_spec G s t :
  match nx.shortest_path G s t with
  | nx.Path p => is_path G s t p ∧ ∀ q, is_path G s t q → (length p ≤ length q)%nat
  | nx.NetworkXNoPath => ∀ q, ¬ is_path G s t q
  | nx.Unfinished => False
  end.
Proof.
  unfold nx.shortest_path, nx.bidirectional_pred_succ.
  destruct (decide (t = s)) as [->|Hne].
  - rewrite map_size_singleton. simpl.
    assert (mjoin (({[s := None]} : nx.links) !! s) = None) as ->
      by (by rewrite lookup_singleton_eq).
    simpl. split; [constructor|].
    intros q Hq. by eapply is_path_nonempty.
  - pose proof (between_rounds_start G s t Hne) as Hinv.
    pose proof (search_loop_spec G s t (nx.search_fuel G) _ _ _ _ _ _ Hinv) as Hspec.
    pose proof (search_loop_terminates G s t (nx.search_fuel G) _ _ _ _ _ _ Hinv) as Hterm.
    destruct (nx.search_loop _ _ _ _ _ _) as [pred succ w| |].
    + destruct Hspec as (pf & ps & Hpf & Hps & Hpathf & Hpaths & Hmin).
      rewrite (follow_chain _ _ _ _ Hpf (chain_length_size _ _ _ Hpf)).
      assert (nx.follow (size succ) succ (mjoin (succ !! w)) = tail ps) as ->.
      { pose proof (chain_length_size _ _ _ Hps) as Hlen.
        destruct Hps as [w Hw|w y ps Hw Hps]; rewrite Hw; simpl.
        - apply follow_None.
        - apply follow_chain; [done|]. simpl in Hlen. lia. }
      split; [by eapply is_path_app|].
      intros q Hq. specialize (Hmin q Hq).
      pose proof (chain_nonempty _ _ _ Hps).
      rewrite length_app, length_rev. destruct ps; simpl in *; lia.
    + done.
    + apply Hterm; [|done]. rewrite !map_size_singleton. unfold nx.search_fuel. lia.
Qed.

End search.

(** ** The relationship query and the scenarios of the scorer *)

Section relationship_query.
Context {rt : PyRuntime}.
Implicit Types (graph : CausalGraph.t) (a b : string).


Lemma query_relationship_unconnected (self : CausalGraph.t) a b :
  (∀ p, is_path (CausalGraph.semantic self) a b p → (length p ≤ 4)%nat → False) →
  CausalGraph.query_relationship self a b = CausalGraph.no_relationship.
Proof.
  intros Hfar. unfold CausalGraph.query_relationship.
  destruct (nx.has_node _ a); [|done]. destruct (nx.has_node _ b); [|done]. simpl.
  destruct (nx.has_edge _ a b) eqn:Hedge.
  { exfalso. apply (Hfar [a; b]); [|simpl; lia].
    apply path_step with b; [done|constructor]. }
  pose proof (shortest_path_spec (CausalGraph.semantic self) a b) as Hsp.
  destruct (nx.shortest_path _ a b) as [p| |]; [|done..].
  destruct Hsp as [Hp _].
  destruct (Nat.leb_spec (length p) 4) as [Hle|_]; [|done].
  by destruct (Hfar p Hp Hle).
Qed.

Lemma no_marker_epistemic context token :
  no_marker context token →
  existsb (λ keyword, str_in keyword (context_str context token))
    DissonanceDetector.time_keywords = false.
Proof.
  unfold no_marker. intros Hno. apply Forall_app in Hno as [Hno _].
  apply not_true_is_false. intros (k & Hk & Hin)%existsb_exists.
  apply list_elem_of_In in Hk.
  rewrite Forall_forall in Hno. rewrite (Hno k Hk) in Hin. done.
Qed.

Lemma no_marker_self_model context token :
  no_marker context token →
  DissonanceDetector._calculate_self_model_dissonance token context = 0.0%float.
Proof.
  unfold no_marker. intros Hno. apply Forall_app in Hno as [_ Hno].
  unfold DissonanceDetector._calculate_self_model_dissonance.
  destruct (find _ _) as [[phrase value]|] eqn:Hfind; [|done].
  apply find_some in Hfind as [Hin Hmatch]. simpl in Hmatch.
  rewrite Forall_forall in Hno. rewrite Hno in Hmatch; [done|].
  apply list_elem_of_fmap. exists (phrase, value). split; [done|].
  by apply list_elem_of_In.
Qed.

(** C7 (as amended).  For a claim whose two entities are non-empty ids,
    both nodes of the graph with a non-empty attribute mapping, and
    connected by no directed path of at most 4 nodes, and a text that, once
    lowered by [str.lower] as the code lowers it, holds no temporal marker
    and no self-contradiction phrase, [calculate_dissonance] returns the
    components 0.95, 0 and 0, the score 0.8075 (the binary64 product
    0.85 * 0.95), the level reframe and [should_inhibit] true. *)
Theorem scenario_unconnected graph self token token_index context d a b now :
  claim_get d "entity_a" = Some a → a ≠ "" →
  claim_get d "entity_b" = Some b → b ≠ "" →
  dict_truthy (od_get a (nx.nodes (CausalGraph.semantic graph))) = true →
  dict_truthy (od_get b (nx.nodes (CausalGraph.semantic graph))) = true →
  (∀ p, is_path (CausalGraph.semantic graph) a b p → (length p ≤ 4)%nat → False) →
  no_marker context token →
  let r := (DissonanceDetector.calculate_dissonance graph self token token_index
              context (Some d) now).2 in
  DissonanceDetector.semantic (DissonanceDetector.components r) = 0.95%float ∧
  DissonanceDetector.epistemic (DissonanceDetector.components r) = 0.0%float ∧
  DissonanceDetector.self_model (DissonanceDetector.components r) = 0.0%float ∧
  DissonanceDetector.score r = 0.8075%float ∧
  DissonanceDetector.score r = (0.85 * 0.95)%float ∧
  DissonanceDetector.inhibition_level r = "reframe" ∧
  DissonanceDetector.should_inhibit r = true.
Proof.
  intros Ha Hane Hb Hbne Hia Hib Hfar Hno.
  assert (DissonanceDetector._calculate_semantic_dissonance graph token context (Some d)
          = 0.95%float) as Hsem.
  { rewrite (semantic_axis_queried graph token context d a b) by done.
    by rewrite query_relationship_unconnected. }
  assert (∀ e, dict_truthy (od_get e (nx.nodes (CausalGraph.semantic graph))) = true →
          DissonanceDetector.unknown_entity graph (Some e) = false) as Hknown.
  { intros e He. unfold DissonanceDetector.unknown_entity. simpl.
    unfold CausalGraph.get_node_info, nx.has_node, od_mem.
    destruct (od_get e _); [|done]. rewrite He. apply andb_false_r. }
  assert (DissonanceDetector._calculate_epistemic_dissonance graph token context (Some d)
          = 0.0%float) as Hepi.
  { unfold DissonanceDetector._calculate_epistemic_dissonance.
    rewrite (no_marker_epistemic _ _ Hno).
    rewrite (claim_with_entry_truthy d "entity_a" _ (claim_get_Some _ _ _ Ha)).
    simpl default. rewrite Ha, Hb, !Hknown by done. done. }
  pose proof (no_marker_self_model _ _ Hno) as Hself.
  intros r. unfold r, DissonanceDetector.calculate_dissonance.
  rewrite Hsem, Hepi, Hself. by vm_compute.
Qed.

End relationship_query.


(** C7 (as stated, refuted).  The empty string is a node of the graph, the
    claim names ["Hahnemühle"] and the empty string, no path leads from the
    one to the other and the text holds no marker; the semantic component
    and the score are 0 and the level is none. *)
Lemma scenario_unconnected_empty_id :
  let graph := Run.graph_with_empty_id in
  let r := (DissonanceDetector.calculate_dissonance (rt := Run.runtime) graph
              DissonanceDetector.__init__ "partnership" 4 ["The"; "Hahnemühle"]
              (Some (Run.claim_of "Hahnemühle" "partnership" "")) (Run.second 0)).2 in
  nx.has_node (CausalGraph.semantic graph) "Hahnemühle" = true ∧
  nx.has_node (CausalGraph.semantic graph) "" = true ∧
  (∀ p, ¬ is_path (CausalGraph.semantic graph) "Hahnemühle" "" p) ∧
  no_marker (rt := Run.runtime) ["The"; "Hahnemühle"] "partnership" ∧
  DissonanceDetector.semantic (DissonanceDetector.components r) = 0.0%float ∧
  DissonanceDetector.score r = 0.0%float ∧
  DissonanceDetector.inhibition_level r = "none" ∧
  DissonanceDetector.should_inhibit r = false.
Proof.
  split_and!; try by vm_compute.
  - pose proof (shortest_path_spec
      (CausalGraph.semantic Run.graph_with_empty_id) "Hahnemühle" "") as Hsp.
    by vm_compute in Hsp.
  - repeat constructor.
Qed.

(** ** The properties at concrete inputs *)

(** C9 at an id that is not in the graph. *)
Lemma query_relationship_unknown_id_witness :
  CausalGraph.exists_
    (CausalGraph.query_relationship (rt := Run.runtime) Run.graph "Epson" "Canson") = false ∧
  CausalGraph.confidence
    (CausalGraph.query_relationship (rt := Run.runtime) Run.graph "Epson" "Canson") = 0.0%float.
Proof.
  apply (query_relationship_unknown_id (rt := Run.runtime) Run.graph "Epson" "Canson").
  left. by vm_compute.
Defined.

(** C1 at the input of the module's own test of the moderate band. *)
Lemma decide_action_add_uncertainty_raises_witness :
  (InhibitionController.decide_action (rt := Run.runtime) Run.graph Run.controller
     0.45%float "possibly" 10 30 ["Some"; "claims"; "about"] None (Run.second 0) 0).2
  = Raise (KeyError "add_uncertainty").
Proof.
  rewrite (decide_action_add_uncertainty_raises (rt := Run.runtime) Run.graph
             Run.controller 0.45%float "possibly" 10 30 ["Some"; "claims"; "about"]
             None (Run.second 0) 0%nat).
  - reflexivity.
  - apply Spec.controller_init.
  - reflexivity.
  - reflexivity.
Defined.

(** C2 at the module's own test of a claim between unconnected entities. *)
Lemma inhibition_level_of_score_witness :
  let r := (DissonanceDetector.calculate_dissonance (rt := Run.runtime) Run.graph
              DissonanceDetector.__init__ "partnership" 4 ["The"; "Hahnemühle"; "Awagami"]
              (Some (Run.claim_of "Hahnemühle" "partnership" "Awagami"))
              (Run.second 0)).2 in
  numeric_confidences (CausalGraph.semantic Run.graph) ∧
  (DissonanceDetector.inhibition_level r = "reframe" ↔
   F64.le 0.65 (DissonanceDetector.score r) ∧ F64.lt (DissonanceDetector.score r) 0.90).
Proof.
  intros r.
  assert (numeric_confidences (CausalGraph.semantic Run.graph)) as Hnum
    by (repeat constructor).
  split; [exact Hnum|].
  exact (proj1 (proj2 (inhibition_level_of_score (rt := Run.runtime) Run.graph
    DissonanceDetector.__init__ "partnership" 4 ["The"; "Hahnemühle"; "Awagami"]
    (Some (Run.claim_of "Hahnemühle" "partnership" "Awagami")) (Run.second 0) Hnum))).
Defined.


(** C4 (as amended) at the module's own test of a critical score. *)
Lemma decide_action_tokens_saved_witness :
  ∃ r,
    (InhibitionController.decide_action (rt := Run.runtime) Run.graph Run.controller
       0.95%float "partnership" 7 40 ["Hahnemühle"; "Awagami"]
       (Some (Run.claim_of "Hahnemühle" "partnership" "Awagami")) (Run.second 0) 0).2 = Ok r ∧
    (0 ≤ InhibitionController.tokens_saved r ≤ 40 - 7)%Z.
Proof.
  destruct (decide_action_tokens_saved (rt := Run.runtime) Run.graph Run.controller
              0.95%float "partnership" 7 40 ["Hahnemühle"; "Awagami"]
              (Some (Run.claim_of "Hahnemühle" "partnership" "Awagami")) (Run.second 0) 0%nat)
    as (r & Hr & _ & Hbounds & _).
  - apply Spec.controller_init.
  - lia.
  - intros [_ H]. discriminate H.
  - exists r. split; [exact Hr|exact Hbounds].
Defined.


(** C6 (as amended) at a verified relation of confidence 1.0. *)
Lemma semantic_axis_cases_witness :
  DissonanceDetector._calculate_semantic_dissonance (rt := Run.runtime) Run.graph
    "manufactures" ["Hahnemühle"]
    (Some (Run.claim_of "Hahnemühle" "manufactures" "Hahnemühle_Bamboo"))
  = (1.0 - 1.0)%float.
Proof.
  destruct (semantic_axis_cases (rt := Run.runtime) Run.graph "manufactures" ["Hahnemühle"])
    as (_ & _ & _ & H).
  destruct (H (Run.claim_of "Hahnemühle" "manufactures" "Hahnemühle_Bamboo")
              "Hahnemühle" "Hahnemühle_Bamboo") as (_ & _ & Hmatch).
  - reflexivity.
  - discriminate.
  - reflexivity.
  - discriminate.
  - apply Hmatch; [reflexivity|]. right. reflexivity.
Defined.

(** C7 (as amended) at the two manufacturers without a verified relation. *)
Lemma scenario_unconnected_witness :
  let r := (DissonanceDetector.calculate_dissonance (rt := Run.runtime) Run.graph
              DissonanceDetector.__init__ "partnership" 4 ["The"; "Hahnemühle"; "Awagami"]
              (Some (Run.claim_of "Hahnemühle" "partnership" "Awagami"))
              (Run.second 0)).2 in
  DissonanceDetector.score r = 0.8075%float ∧
  DissonanceDetector.inhibition_level r = "reframe".
Proof.
  destruct (scenario_unconnected (rt := Run.runtime) Run.graph DissonanceDetector.__init__
              "partnership" 4 ["The"; "Hahnemühle"; "Awagami"]
              (Run.claim_of "Hahnemühle" "partnership" "Awagami")
              "Hahnemühle" "Awagami" (Run.second 0))
    as (_ & _ & _ & Hscore & _ & Hlevel & _).
  - reflexivity.
  - discriminate.
  - reflexivity.
  - discriminate.
  - reflexivity.
  - reflexivity.
  - intros p Hp _.
    pose proof (shortest_path_spec (CausalGraph.semantic Run.graph) "Hahnemühle" "Awagami")
      as Hsp.
    vm_compute in Hsp. exact (Hsp p Hp).
  - repeat constructor.
  - split; [exact Hscore|exact Hlevel].
Defined.

(** C10 at the identity node of the self-model layer. *)
Lemma get_node_info_self_model_witness :
  let info := default ∅ (od_get "System_Identity"
                (nx.nodes (CausalGraph.self_model Run.graph))) in
  CausalGraph.get_node_info Run.graph "System_Identity" = Some info ∧
  DissonanceDetector.unknown_entity Run.graph (Some "System_Identity") = false.
Proof.
  intros info.
  destruct (get_node_info_self_model (rt := Run.runtime) Run.graph "System_Identity" info)
    as [Hinfo Hepi].
  - reflexivity.
  - reflexivity.
  - split; [exact Hinfo|]. apply Hepi. apply Spec.reachable_init.
Defined.

(** * The pipeline beyond the three decisions

    The remaining methods of the graph, of the scorer and of the policy, the
    extraction of claims by the generator and the insertions of the
    crawler. *)

(** ** The scorer on whole classes of claims *)
Section scorer.
Context {rt : PyRuntime}.
Import F64 F64_facts.

(** The values the two axes of the text can take. *)
Lemma epistemic_axis_values graph token context proposed_claim :
  let e := DissonanceDetector._calculate_epistemic_dissonance graph token context
             proposed_claim in
  e = 0.75%float ∨ e = 0.0%float ∨ e = 0.4%float ∨ e = 0.8%float.
Proof.
  unfold DissonanceDetector._calculate_epistemic_dissonance. cbv zeta.
  destruct (existsb _ _); [by left|].
  destruct (dict_truthy _); [|by right; left].
  destruct (DissonanceDetector.unknown_entity _ _),
           (DissonanceDetector.unknown_entity _ _); vm_compute; tauto.
Qed.

Lemma self_model_axis_values token context :
  let s := DissonanceDetector._calculate_self_model_dissonance token context in
  s = 0.0%float ∨ s = 0.6%float ∨ s = 0.8%float ∨ s = 0.7%float ∨ s = 0.9%float.
Proof.
  unfold DissonanceDetector._calculate_self_model_dissonance. cbv zeta.
  unfold DissonanceDetector.self_contradictions. simpl find.
  repeat (destruct (str_in _ _); [tauto|]). tauto.
Qed.

(** The score and the components, read off [calculate_dissonance]. *)
Lemma calculate_dissonance_score graph self token token_index context proposed_claim now :
  DissonanceDetector.score
    (DissonanceDetector.calculate_dissonance graph self token token_index context
       proposed_claim now).2 =
  (0.85 * DissonanceDetector._calculate_semantic_dissonance graph token context proposed_claim +
   0.10 * DissonanceDetector._calculate_epistemic_dissonance graph token context proposed_claim +
   0.05 * DissonanceDetector._calculate_self_model_dissonance token context)%float
  ∧ DissonanceDetector.components
    (DissonanceDetector.calculate_dissonance graph self token token_index context
       proposed_claim now).2 =
  {| DissonanceDetector.semantic :=
       DissonanceDetector._calculate_semantic_dissonance graph token context proposed_claim;
     DissonanceDetector.epistemic :=
       DissonanceDetector._calculate_epistemic_dissonance graph token context proposed_claim;
     DissonanceDetector.self_model :=
       DissonanceDetector._calculate_self_model_dissonance token context |}.
Proof.
  unfold DissonanceDetector.calculate_dissonance.
  destruct (PrimFloat.leb _ _); [done|].
  destruct (PrimFloat.leb _ _); [done|].
  by destruct (PrimFloat.leb _ _).
Qed.

(** The level when the semantic axis is 0.95. *)
Lemma level_of_unverified graph self token token_index context proposed_claim now :
  let r := (DissonanceDetector.calculate_dissonance graph self token token_index
              context proposed_claim now).2 in
  let c := DissonanceDetector.components r in
  DissonanceDetector._calculate_semantic_dissonance graph token context proposed_claim
    = 0.95%float →
  DissonanceDetector.semantic c = 0.95%float ∧
  le 0.65 (DissonanceDetector.score r) ∧
  DissonanceDetector.should_inhibit r = true ∧
  (DissonanceDetector.inhibition_level r = "abort" ↔
   le 0.75 (DissonanceDetector.epistemic c) ∧ lt 0 (DissonanceDetector.self_model c)) ∧
  (DissonanceDetector.inhibition_level r = "reframe" ↔
   ¬ (le 0.75 (DissonanceDetector.epistemic c) ∧ lt 0 (DissonanceDetector.self_model c))).
Proof.
  intros r c Hsem.
  destruct (calculate_dissonance_score graph self token token_index context
              proposed_claim now) as [Hscore Hcomp].
  destruct (calculate_dissonance_level graph self token token_index context
              proposed_claim now) as [Hlevel Hflag].
  fold r in Hscore, Hcomp, Hlevel, Hflag. fold c in Hcomp.
  rewrite Hsem in Hscore, Hcomp.
  rewrite Hcomp, Hlevel, Hflag, Hscore. clear.
  pose proof (epistemic_axis_values graph token context proposed_claim) as He.
  pose proof (self_model_axis_values token context) as Hs.
  cbv zeta in He, Hs. unfold le, lt.
  destruct He as [-> | [-> | [-> | ->]]], Hs as [-> | [-> | [-> | [-> | ->]]]];
    vm_compute; intuition discriminate.
Qed.

(** The level when the semantic axis is 0.95 or 0.70. *)
Lemma level_of_mismatch graph self token token_index context proposed_claim now :
  let r := (DissonanceDetector.calculate_dissonance graph self token token_index
              context proposed_claim now).2 in
  DissonanceDetector._calculate_semantic_dissonance graph token context proposed_claim
    = 0.95%float ∨
  DissonanceDetector._calculate_semantic_dissonance graph token context proposed_claim
    = 0.70%float →
  le 0.30 (DissonanceDetector.score r) ∧
  DissonanceDetector.inhibition_level r ≠ "none".
Proof.
  intros r Hsem.
  destruct (calculate_dissonance_score graph self token token_index context
              proposed_claim now) as [Hscore _].
  destruct (calculate_dissonance_level graph self token token_index context
              proposed_claim now) as [Hlevel _].
  fold r in Hscore, Hlevel. rewrite Hlevel, Hscore.
  pose proof (epistemic_axis_values graph token context proposed_claim) as He.
  pose proof (self_model_axis_values token context) as Hs.
  cbv zeta in He, Hs. unfold le.
  destruct Hsem as [-> | ->];
  destruct He as [-> | [-> | [-> | ->]]], Hs as [-> | [-> | [-> | [-> | ->]]]];
    vm_compute; intuition discriminate.
Qed.

(** A relation that labels no edge is never the label [query_relationship] finds. *)
Lemma relation_type_of_edges (graph : CausalGraph.t) a b relation :
  Forall (λ e, nx.relation e.2 ≠ Some relation) (nx.edges (CausalGraph.semantic graph)) →
  relation ≠ "indirect" → relation ≠ "unknown" →
  CausalGraph.relation_type (CausalGraph.query_relationship graph a b) ≠ Some relation.
Proof.
  intros Hedges Hind Hunk. unfold CausalGraph.query_relationship.
  destruct (nx.has_node _ a); [|done]. destruct (nx.has_node _ b); [|done]. simpl.
  destruct (nx.has_edge _ a b).
  - simpl. unfold nx.get_edge_data.
    destruct (od_get (a, b) _) as [e|] eqn:Hget; simpl; [|congruence].
    apply od_get_Some_elem in Hget. rewrite Forall_forall in Hedges.
    specialize (Hedges _ Hget). simpl in Hedges.
    destruct (nx.relation e); simpl; congruence.
  - destruct (nx.shortest_path _ a b) as [p| |]; [|done..].
    destruct (length p <=? 4)%nat; simpl; congruence.
Qed.

(** X1. Without two entities the scorer never inhibits: for a call without
    a claim, with an empty claim or with a claim that lacks a non-empty
    [entity_a] or [entity_b], whatever the graph and the text,
    [calculate_dissonance] returns the semantic component 0, a score below
    0.30, the level none and [should_inhibit] false. *)
Theorem no_inhibition_without_two_entities graph self token token_index context
    proposed_claim now :
  let d := default ∅ proposed_claim in
  let r := (DissonanceDetector.calculate_dissonance graph self token token_index
              context proposed_claim now).2 in
  truthy (claim_get d "entity_a") && truthy (claim_get d "entity_b") = false →
  DissonanceDetector.semantic (DissonanceDetector.components r) = 0.0%float ∧
  lt (DissonanceDetector.score r) 0.30 ∧
  DissonanceDetector.inhibition_level r = "none" ∧
  DissonanceDetector.should_inhibit r = false.
Proof.
  intros d r Hent.
  assert (DissonanceDetector._calculate_semantic_dissonance graph token context
            proposed_claim = 0.0%float) as Hsem.
  { unfold DissonanceDetector._calculate_semantic_dissonance.
    destruct (negb (dict_truthy proposed_claim)); [done|]. cbv zeta.
    fold d. by rewrite Hent. }
  destruct (calculate_dissonance_score graph self token token_index context
              proposed_claim now) as [Hscore Hcomp].
  destruct (calculate_dissonance_level graph self token token_index context
              proposed_claim now) as [Hlevel Hflag].
  fold r in Hscore, Hcomp, Hlevel, Hflag.
  rewrite Hsem in Hscore, Hcomp.
  rewrite Hcomp, Hlevel, Hflag, Hscore. clear.
  pose proof (epistemic_axis_values graph token context proposed_claim) as He.
  pose proof (self_model_axis_values token context) as Hs.
  cbv zeta in He, Hs.
  destruct He as [-> | [-> | [-> | ->]]], Hs as [-> | [-> | [-> | [-> | ->]]]]; by vm_compute.
Qed.

(** X2. A claim between two non-empty entities for which
    [query_relationship] finds no relationship is always inhibited, whatever
    the text, the requested relation and the graph: the semantic component
    is 0.95, the score is at least 0.65 and [should_inhibit] is true.  The
    level is abort exactly when the epistemic component is at least 0.75 (a
    temporal marker, or two unknown entities) and the text holds a
    self-contradiction phrase, and reframe otherwise. *)
Theorem unverified_relationship_inhibited graph self token token_index context d a b now :
  let r := (DissonanceDetector.calculate_dissonance graph self token token_index
              context (Some d) now).2 in
  let c := DissonanceDetector.components r in
  claim_get d "entity_a" = Some a → a ≠ "" →
  claim_get d "entity_b" = Some b → b ≠ "" →
  CausalGraph.exists_ (CausalGraph.query_relationship graph a b) = false →
  DissonanceDetector.semantic c = 0.95%float ∧
  le 0.65 (DissonanceDetector.score r) ∧
  DissonanceDetector.should_inhibit r = true ∧
  (DissonanceDetector.inhibition_level r = "abort" ↔
   le 0.75 (DissonanceDetector.epistemic c) ∧ lt 0 (DissonanceDetector.self_model c)) ∧
  (DissonanceDetector.inhibition_level r = "reframe" ↔
   ¬ (le 0.75 (DissonanceDetector.epistemic c) ∧ lt 0 (DissonanceDetector.self_model c))).
Proof.
  intros r c Ha Hane Hb Hbne Hno.
  apply level_of_unverified.
  rewrite (semantic_axis_queried graph token context d a b) by done.
  cbv zeta. by rewrite Hno.
Qed.

(** X3. A claim between two non-empty ids that are nodes of the graph,
    joined by a direct edge that stores the relation of the claim, is never
    flagged when the stored confidence is 1.0 (that of every built-in edge)
    or 0.9 (the default of [add_verified_fact]): whatever the text, the
    semantic component is 1 - confidence, the score is below 0.30, the level
    is none and [should_inhibit] is false. *)
Theorem verified_relationship_not_flagged graph self token token_index context d a b
    relation e conf now :
  let r := (DissonanceDetector.calculate_dissonance graph self token token_index
              context (Some d) now).2 in
  claim_get d "entity_a" = Some a → a ≠ "" →
  claim_get d "entity_b" = Some b → b ≠ "" →
  claim_get d "relation" = Some relation →
  nx.has_node (CausalGraph.semantic graph) a = true →
  nx.has_node (CausalGraph.semantic graph) b = true →
  nx.get_edge_data (CausalGraph.semantic graph) a b = Some e →
  nx.relation e = Some relation →
  nx.confidence e = Some conf →
  conf = 1.0%float ∨ conf = 0.9%float →
  DissonanceDetector.semantic (DissonanceDetector.components r) = (1.0 - conf)%float ∧
  lt (DissonanceDetector.score r) 0.30 ∧
  DissonanceDetector.inhibition_level r = "none" ∧
  DissonanceDetector.should_inhibit r = false.
Proof.
  intros r Ha Hane Hb Hbne Hrel Hna Hnb He Hr Hc Hconf.
  assert (DissonanceDetector._calculate_semantic_dissonance graph token context (Some d)
          = (1.0 - conf)%float) as Hsem.
  { rewrite (semantic_axis_queried graph token context d a b) by done.
    unfold CausalGraph.query_relationship. rewrite Hna, Hnb. simpl negb. cbv iota.
    assert (nx.has_edge (CausalGraph.semantic graph) a b = true) as ->.
    { unfold nx.has_edge. apply od_mem_true_get. unfold nx.get_edge_data in He. eauto. }
    rewrite He. cbv zeta. simpl. rewrite Hr, Hc, Hrel. simpl.
    rewrite bool_decide_eq_true_2 by done. by rewrite andb_false_r. }
  destruct (calculate_dissonance_score graph self token token_index context
              (Some d) now) as [Hscore Hcomp].
  destruct (calculate_dissonance_level graph self token token_index context
              (Some d) now) as [Hlevel Hflag].
  fold r in Hscore, Hcomp, Hlevel, Hflag.
  rewrite Hsem in Hscore, Hcomp.
  rewrite Hcomp, Hlevel, Hflag, Hscore. clear -Hconf.
  pose proof (epistemic_axis_values graph token context (Some d)) as He.
  pose proof (self_model_axis_values token context) as Hs.
  cbv zeta in He, Hs. unfold lt.
  destruct Hconf as [-> | ->];
  destruct He as [-> | [-> | [-> | ->]]], Hs as [-> | [-> | [-> | [-> | ->]]]];
    by vm_compute.
Qed.
(** X4. A claim between two non-empty entities that requests a non-empty
    relation which labels no edge of the graph (and is neither "indirect"
    nor "unknown", the two labels [query_relationship] makes up) is always
    flagged: the semantic component is 0.95 or 0.70, the score is at least
    0.30 and the level is never none. *)
Theorem unlabelled_relation_flagged graph self token token_index context d a b relation now :
  let r := (DissonanceDetector.calculate_dissonance graph self token token_index
              context (Some d) now).2 in
  claim_get d "entity_a" = Some a → a ≠ "" →
  claim_get d "entity_b" = Some b → b ≠ "" →
  claim_get d "relation" = Some relation → relation ≠ "" →
  relation ≠ "indirect" → relation ≠ "unknown" →
  Forall (λ e, nx.relation e.2 ≠ Some relation) (nx.edges (CausalGraph.semantic graph)) →
  (DissonanceDetector.semantic (DissonanceDetector.components r) = 0.95%float ∨
   DissonanceDetector.semantic (DissonanceDetector.components r) = 0.70%float) ∧
  le 0.30 (DissonanceDetector.score r) ∧
  DissonanceDetector.inhibition_level r ≠ "none".
Proof.
  intros r Ha Hane Hb Hbne Hrel Hrne Hind Hunk Hedges.
  assert (DissonanceDetector._calculate_semantic_dissonance graph token context (Some d)
            = 0.95%float ∨
          DissonanceDetector._calculate_semantic_dissonance graph token context (Some d)
            = 0.70%float) as Hsem.
  { rewrite (semantic_axis_queried graph token context d a b) by done. cbv zeta.
    destruct (negb (CausalGraph.exists_ _)); [by left|right].
    rewrite Hrel, (proj2 (truthy_Some_ne relation) Hrne).
    rewrite bool_decide_eq_false_2; [done|].
    by apply relation_type_of_edges. }
  split; [|by apply level_of_mismatch].
  destruct (calculate_dissonance_score graph self token token_index context
              (Some d) now) as [_ Hcomp].
  fold r in Hcomp. by rewrite Hcomp.
Qed.
End scorer.

(** ** The scorer and the policy together, and their counters *)

Section pipeline.
Context {rt : PyRuntime}.
Import F64 F64_facts.

(** X5. The policy follows the scorer: when [decide_action] is given the
    score of a result of [calculate_dissonance], for a token position within
    the plan and in every state of the controller, it returns the action
    abort for the level abort, reframe for reframe and continue for none,
    and raises [KeyError] for the level uncertainty; [should_inhibit] holds
    exactly when a decision other than continue is returned, and this
    decision saves all the remaining tokens. *)
Theorem decide_action_follows_level graph detector token token_index context
    proposed_claim now graph' controller token' total context' proposed_claim' now' draw :
  let r := (DissonanceDetector.calculate_dissonance graph detector token token_index
              context proposed_claim now).2 in
  let decision := (InhibitionController.decide_action graph' controller
                     (DissonanceDetector.score r) token' token_index total context'
                     proposed_claim' now' draw).2 in
  Spec.controller_state controller →
  (0 ≤ token_index ≤ total)%Z →
  (DissonanceDetector.inhibition_level r = "abort" →
   ∃ d, decision = Ok d ∧ InhibitionController.action d = "abort") ∧
  (DissonanceDetector.inhibition_level r = "reframe" →
   ∃ d, decision = Ok d ∧ InhibitionController.action d = "reframe") ∧
  (DissonanceDetector.inhibition_level r = "uncertainty" →
   decision = Raise (KeyError "add_uncertainty")) ∧
  (DissonanceDetector.inhibition_level r = "none" →
   ∃ d, decision = Ok d ∧ InhibitionController.action d = "continue") ∧
  (DissonanceDetector.should_inhibit r = true ↔
   ∃ d, decision = Ok d ∧ InhibitionController.tokens_saved d = (total - token_index)%Z
        ∧ InhibitionController.action d ≠ "continue").
Proof.
  intros r decision Hstate Hidx.
  destruct (calculate_dissonance_level graph detector token token_index context
              proposed_claim now) as [Hlevel Hflag].
  fold r in Hlevel, Hflag. rewrite Hlevel, Hflag. clear Hlevel Hflag.
  unfold decision, InhibitionController.decide_action.
  change InhibitionController.THRESHOLD_ABORT with 0.90%float.
  change InhibitionController.THRESHOLD_REFRAME with 0.65%float.
  change InhibitionController.THRESHOLD_UNCERTAINTY with 0.30%float.
  destruct (py_max_1 total) as [Hm1 Hm2].
  destruct (PrimFloat.leb 0.90 _) eqn:H90; [|destruct (PrimFloat.leb 0.65 _) eqn:H65;
    [|destruct (PrimFloat.leb 0.30 _) eqn:H30]]; cbv beta iota zeta.
  - rewrite int_truediv_ratio by lia. cbn [InhibitionController.inhibitions_by_type].
    destruct (controller_state_counter controller "abort" Hstate) as [count ->];
      [unfold Spec.counter_keys; set_solver|].
    simpl. split_and!; try discriminate; eauto.
    split; [|done]. intros _. eexists. split_and!; done.
  - rewrite int_truediv_ratio by lia. cbn [InhibitionController.inhibitions_by_type].
    destruct (controller_state_counter controller "reframe" Hstate) as [count ->];
      [unfold Spec.counter_keys; set_solver|].
    simpl. split_and!; try discriminate; eauto.
    split; [|done]. intros _. eexists. split_and!; done.
  - rewrite (int_truediv_ratio 0 (py_max total 1)) by lia.
    cbn [InhibitionController.inhibitions_by_type].
    rewrite controller_state_no_add_uncertainty by done.
    simpl. split_and!; try discriminate; eauto.
    split; [done|]. intros (d & Hd & _). discriminate Hd.
  - rewrite (int_truediv_ratio 0 (py_max total 1)) by lia.
    cbn [InhibitionController.inhibitions_by_type].
    destruct (controller_state_counter controller "continue" Hstate) as [count ->];
      [unfold Spec.counter_keys; set_solver|].
    simpl. split_and!; try discriminate; eauto.
    split; [done|]. intros (d & [= <-] & _ & Hd). by simpl in Hd.
Qed.

(** The state [calculate_dissonance] leaves behind. *)
Lemma calculate_dissonance_state graph self token token_index context proposed_claim now :
  let out := DissonanceDetector.calculate_dissonance graph self token token_index context
               proposed_claim now in
  DissonanceDetector.detection_history out.1 =
    DissonanceDetector.detection_history self ++ [out.2] ∧
  DissonanceDetector.total_detections out.1 =
    (DissonanceDetector.total_detections self + 1)%Z ∧
  DissonanceDetector.inhibitions_triggered out.1 =
    (if DissonanceDetector.should_inhibit out.2
     then DissonanceDetector.inhibitions_triggered self + 1
     else DissonanceDetector.inhibitions_triggered self)%Z.
Proof.
  unfold DissonanceDetector.calculate_dissonance.
  destruct (PrimFloat.leb _ _); [done|].
  destruct (PrimFloat.leb _ _); [done|].
  by destruct (PrimFloat.leb _ _).
Qed.

(** The counters of a detector count its history. *)
Lemma detector_counters_inv self :
  Spec.detector_state self →
  DissonanceDetector.total_detections self =
    Z.of_nat (length (DissonanceDetector.detection_history self)) ∧
  DissonanceDetector.inhibitions_triggered self =
    Z.of_nat (length (filter (λ r, DissonanceDetector.should_inhibit r = true)
                        (DissonanceDetector.detection_history self))).
Proof.
  induction 1 as [|graph self token token_index context claim now _ [IHt IHi]
                   |self _ _]; [done| |done].
  destruct (calculate_dissonance_state graph self token token_index context claim now)
    as (-> & -> & ->).
  rewrite filter_app, !length_app, IHt, IHi. simpl.
  rewrite filter_cons, filter_nil.
  destruct (DissonanceDetector.should_inhibit _); case_decide; try done; simpl; lia.
Qed.

(** X6. In every state of a detector, [total_detections] is the length of
    [detection_history], [inhibitions_triggered] is the number of its
    results with [should_inhibit] true, so it lies between 0 and
    [total_detections]; [reset_session] empties the history and leads to a
    state of the detector again. *)
Theorem detector_counters self :
  Spec.detector_state self →
  DissonanceDetector.total_detections self =
    Z.of_nat (length (DissonanceDetector.detection_history self)) ∧
  DissonanceDetector.inhibitions_triggered self =
    Z.of_nat (length (filter (λ r, DissonanceDetector.should_inhibit r = true)
                        (DissonanceDetector.detection_history self))) ∧
  (0 ≤ DissonanceDetector.inhibitions_triggered self
     ≤ DissonanceDetector.total_detections self)%Z ∧
  DissonanceDetector.detection_history (DissonanceDetector.reset_session self) = [] ∧
  Spec.detector_state (DissonanceDetector.reset_session self).
Proof.
  intros Hstate. destruct (detector_counters_inv self Hstate) as [Ht Hi].
  split_and!; [done|done|lia| |done|by constructor].
  rewrite Ht, Hi. apply inj_le, length_filter.
Qed.
End pipeline.

Section controller_bookkeeping.
Context {rt : PyRuntime}.
Import F64 F64_facts.

Lemma foldr_add_snoc {A} (f : A → Z) (l : list A) x :
  foldr Z.add 0%Z (map f (l ++ [x])) = (foldr Z.add 0 (map f l) + f x)%Z.
Proof. induction l as [|y l IH]; simpl; lia. Qed.

Lemma length_filter_snoc {A} (P : A → Prop) `{∀ x, Decision (P x)} (l : list A) x :
  length (filter P (l ++ [x])) =
  (length (filter P l) + if decide (P x) then 1 else 0)%nat.
Proof.
  rewrite filter_app, length_app, filter_cons, filter_nil. by case_decide.
Qed.

(** The counters and the totals of a controller count its history. *)
Lemma controller_counters_inv self :
  let history := InhibitionController.decision_history self in
  let count a :=
    Z.of_nat (length (filter (λ d, InhibitionController.d_action d = a) history)) in
  Spec.controller_state self →
  InhibitionController.inhibitions_by_type self !! "continue" = Some (count "continue") ∧
  InhibitionController.inhibitions_by_type self !! "reframe" = Some (count "reframe") ∧
  InhibitionController.inhibitions_by_type self !! "abort" = Some (count "abort") ∧
  InhibitionController.inhibitions_by_type self !! "uncertainty" = Some 0%Z ∧
  Forall (λ d, InhibitionController.d_action d = "continue" ∨
               InhibitionController.d_action d = "reframe" ∨
               InhibitionController.d_action d = "abort") history ∧
  InhibitionController.total_tokens_saved self =
    foldr Z.add 0%Z (map InhibitionController.d_tokens_saved history) ∧
  (Z.of_nat (length history) ≤ InhibitionController.total_decisions self)%Z.
Proof.
  intros history count Hstate. unfold count, history. clear count history.
  induction Hstate as [|graph self s token token_index total context claim now draw
                        Hstate (IHc & IHr & IHa & IHu & IHall & IHsum & IHlen)].
  { split_and!; (done || constructor). }
  pose proof (controller_state_no_add_uncertainty self Hstate) as Hnone.
  unfold InhibitionController.decide_action.
  destruct (PrimFloat.leb _ s); [|destruct (PrimFloat.leb _ s);
    [|destruct (PrimFloat.leb _ s)]]; cbv beta iota zeta;
  (destruct (int_truediv _ _) as [ratio|e]; [|by split_and!]);
  cbn [InhibitionController.inhibitions_by_type].
  - rewrite IHa. simpl.
    rewrite !length_filter_snoc, foldr_add_snoc, length_app. simpl.
    rewrite lookup_insert_eq, !lookup_insert_ne by done.
    split_and!; try done; try lia.
    + rewrite IHc. f_equal. lia.
    + rewrite IHr. f_equal. lia.
    + f_equal. lia.
    + apply Forall_app. split; [done|]. apply Forall_singleton. simpl. auto.
  - rewrite IHr. simpl.
    rewrite !length_filter_snoc, foldr_add_snoc, length_app. simpl.
    rewrite lookup_insert_eq, !lookup_insert_ne by done.
    split_and!; try done; try lia.
    + rewrite IHc. f_equal. lia.
    + f_equal. lia.
    + rewrite IHa. f_equal. lia.
    + apply Forall_app. split; [done|]. apply Forall_singleton. simpl. auto.
  - rewrite Hnone. simpl. split_and!; try done. lia.
  - rewrite IHc. simpl.
    rewrite !length_filter_snoc, foldr_add_snoc, length_app. simpl.
    rewrite lookup_insert_eq, !lookup_insert_ne by done.
    split_and!; try done; try lia.
    + f_equal. lia.
    + rewrite IHr. f_equal. lia.
    + rewrite IHa. f_equal. lia.
    + apply Forall_app. split; [done|]. apply Forall_singleton. simpl. auto.
Qed.

(** X7. In every state of a controller, the counters of continue, reframe
    and abort count the decisions of that action in [decision_history], the
    counter of uncertainty is 0, every recorded decision is a continue, a
    reframe or an abort, [total_tokens_saved] is the sum of the
    [tokens_saved] recorded, and [total_decisions] is at least the length of
    the history (it also counts the calls that raised). *)
Theorem controller_counters self :
  let history := InhibitionController.decision_history self in
  let count a :=
    Z.of_nat (length (filter (λ d, InhibitionController.d_action d = a) history)) in
  Spec.controller_state self →
  InhibitionController.inhibitions_by_type self !! "continue" = Some (count "continue") ∧
  InhibitionController.inhibitions_by_type self !! "reframe" = Some (count "reframe") ∧
  InhibitionController.inhibitions_by_type self !! "abort" = Some (count "abort") ∧
  InhibitionController.inhibitions_by_type self !! "uncertainty" = Some 0%Z ∧
  Forall (λ d, InhibitionController.d_action d = "continue" ∨
               InhibitionController.d_action d = "reframe" ∨
               InhibitionController.d_action d = "abort") history ∧
  InhibitionController.total_tokens_saved self =
    foldr Z.add 0%Z (map InhibitionController.d_tokens_saved history) ∧
  (Z.of_nat (length history) ≤ InhibitionController.total_decisions self)%Z.
Proof. apply controller_counters_inv. Qed.
End controller_bookkeeping.

(** ** The relationship query *)

Section relationship_facts.
Context {rt : PyRuntime}.
Implicit Types (self : CausalGraph.t) (a b x y : string).

(** What a positive answer of [query_relationship] holds. *)
Lemma query_relationship_found self a b :
  CausalGraph.exists_ (CausalGraph.query_relationship self a b) = true →
  nx.has_node (CausalGraph.semantic self) a = true ∧
  nx.has_node (CausalGraph.semantic self) b = true ∧
  ∃ p, CausalGraph.path (CausalGraph.query_relationship self a b) = Some p ∧
       is_path (CausalGraph.semantic self) a b p ∧ (length p ≤ 4)%nat.
Proof.
  unfold CausalGraph.query_relationship.
  destruct (nx.has_node _ a); [|done]. destruct (nx.has_node _ b); [|done]. simpl.
  destruct (nx.has_edge _ a b) eqn:Hedge.
  - intros _. split_and!; [done..|]. exists [a; b]. split_and!; [done| |simpl; lia].
    apply path_step with b; [done|constructor].
  - pose proof (shortest_path_spec (CausalGraph.semantic self) a b) as Hsp.
    destruct (nx.shortest_path _ a b) as [p| |]; [|done..].
    destruct Hsp as [Hp _].
    destruct (Nat.leb_spec (length p) 4) as [Hle|_]; [|done].
    intros _. split_and!; [done..|]. by exists p.
Qed.

(** A path of at most 4 nodes between two nodes is found. *)
Lemma query_relationship_finds self a b p :
  nx.has_node (CausalGraph.semantic self) a = true →
  nx.has_node (CausalGraph.semantic self) b = true →
  is_path (CausalGraph.semantic self) a b p → (length p ≤ 4)%nat →
  CausalGraph.exists_ (CausalGraph.query_relationship self a b) = true.
Proof.
  intros Ha Hb Hp Hlen.
  destruct (CausalGraph.exists_ _) eqn:Hex; [done|]. exfalso.
  unfold CausalGraph.query_relationship in Hex. rewrite Ha, Hb in Hex. simpl in Hex.
  destruct (nx.has_edge _ a b); [done|].
  pose proof (shortest_path_spec (CausalGraph.semantic self) a b) as Hsp.
  destruct (nx.shortest_path _ a b) as [q| |]; [|by apply Hsp in Hp|done].
  destruct Hsp as [_ Hmin]. specialize (Hmin p Hp).
  destruct (Nat.leb_spec (length q) 4); [done|lia].
Qed.

(** X8. [query_relationship(a, b)] answers [exists] true if and only if
    [a] and [b] are nodes of the semantic layer and a directed path of at
    most 4 nodes leads from [a] to [b].  A positive answer carries such a
    path, of 2 to 4 nodes unless [a] is [b]; a negative answer is the
    dictionary with [exists] false, no relation, confidence 0.0 and no
    path. *)
Theorem query_relationship_exists_iff self a b :
  let r := CausalGraph.query_relationship self a b in
  (CausalGraph.exists_ r = true ↔
   nx.has_node (CausalGraph.semantic self) a = true ∧
   nx.has_node (CausalGraph.semantic self) b = true ∧
   ∃ p, is_path (CausalGraph.semantic self) a b p ∧ (length p ≤ 4)%nat) ∧
  (CausalGraph.exists_ r = true →
   ∃ p, CausalGraph.path r = Some p ∧
        is_path (CausalGraph.semantic self) a b p ∧ (2 ≤ length p ≤ 4 ∨ a = b)%nat) ∧
  (CausalGraph.exists_ r = false → r = CausalGraph.no_relationship).
Proof.
  intros r. split_and!.
  - split.
    + intros (Ha & Hb & p & _ & Hp & Hlen)%query_relationship_found. eauto.
    + intros (Ha & Hb & p & Hp & Hlen). by eapply query_relationship_finds.
  - intros (_ & _ & p & Hpath & Hp & Hlen)%query_relationship_found.
    exists p. split; [done|]. split; [done|].
    destruct Hp as [|a b c p Hedge Hp]; [by right|left].
    apply is_path_nonempty in Hp. destruct p; simpl in *; lia.
  - unfold r, CausalGraph.query_relationship.
    destruct (nx.has_node _ a); [|done]. destruct (nx.has_node _ b); [|done]. simpl.
    destruct (nx.has_edge _ a b); [done|].
    destruct (nx.shortest_path _ a b) as [p| |]; [|done..].
    by destruct (length p <=? 4)%nat.
Qed.

(** X9. For a node [a] without an edge to itself,
    [query_relationship(a, a)] reports a relationship: [exists] true, the
    relation "indirect", the one-node path [[a]] and the confidence
    0.7 / 1 = 0.7. *)
Theorem query_relationship_self self a :
  nx.has_node (CausalGraph.semantic self) a = true →
  nx.has_edge (CausalGraph.semantic self) a a = false →
  CausalGraph.query_relationship self a a =
  {| CausalGraph.exists_ := true;
     CausalGraph.relation_type := Some "indirect";
     CausalGraph.confidence := 0.7%float;
     CausalGraph.path := Some [a];
     CausalGraph.direct := false |}.
Proof.
  intros Ha Hedge. unfold CausalGraph.query_relationship. rewrite Ha, Hedge. simpl.
  unfold nx.shortest_path, nx.bidirectional_pred_succ.
  rewrite decide_True by done. rewrite map_size_singleton. simpl.
  assert (mjoin (({[a := None]} : nx.links) !! a) = None) as ->
    by (by rewrite lookup_singleton_eq).
  simpl. f_equal.
Qed.

(** X10. What [add_verified_fact] stores, [query_relationship] returns:
    after [add_verified_fact(a, b, relation, confidence, source)] on any
    graph, [query_relationship(a, b)] is the direct relationship with that
    relation, that confidence and the path [[a, b]]; and for a claim of
    that relation between the two (non-empty) entities the semantic axis is
    1 - confidence. *)
Theorem add_verified_fact_then_query self a b relation confidence source now :
  let after := CausalGraph.add_verified_fact self a b relation confidence source now in
  CausalGraph.query_relationship after a b =
  {| CausalGraph.exists_ := true;
     CausalGraph.relation_type := Some relation;
     CausalGraph.confidence := confidence;
     CausalGraph.path := Some [a; b];
     CausalGraph.direct := true |} ∧
  (∀ token context d,
     claim_get d "entity_a" = Some a → a ≠ "" →
     claim_get d "entity_b" = Some b → b ≠ "" →
     claim_get d "relation" = Some relation →
     DissonanceDetector._calculate_semantic_dissonance after token context (Some d)
     = (1.0 - confidence)%float).
Proof.
  intros after.
  assert (∀ n, n = a ∨ n = b → nx.has_node (CausalGraph.semantic after) n = true) as Hnode.
  { intros n Hn. unfold nx.has_node. apply od_mem_true_get. unfold after.
    rewrite add_verified_fact_nodes.
    destruct (nx.has_node _ n) eqn:Hold; [by apply od_mem_true_get|].
    by rewrite bool_decide_eq_true_2. }
  assert (nx.has_edge (CausalGraph.semantic after) a b = true) as Hedge.
  { unfold nx.has_edge, after. by rewrite add_verified_fact_edges, od_mem_upsert_eq. }
  assert (nx.get_edge_data (CausalGraph.semantic after) a b =
          Some {| nx.relation := Some relation; nx.confidence := Some confidence;
                  nx.source := Some source;
                  nx.added_at := Some (isoformat (CausalGraph.at_edge now)) |}) as Hdata.
  { unfold nx.get_edge_data, after. by rewrite add_verified_fact_edges, od_get_upsert_eq. }
  assert (CausalGraph.query_relationship after a b =
          {| CausalGraph.exists_ := true;
             CausalGraph.relation_type := Some relation;
             CausalGraph.confidence := confidence;
             CausalGraph.path := Some [a; b];
             CausalGraph.direct := true |}) as Hquery.
  { unfold CausalGraph.query_relationship.
    rewrite !Hnode, Hedge, Hdata by eauto. done. }
  split; [done|].
  intros token context d Ha Hane Hb Hbne Hrel.
  rewrite (semantic_axis_queried after token context d a b) by done.
  rewrite Hquery, Hrel. cbv zeta.
  cbn [CausalGraph.exists_ CausalGraph.relation_type CausalGraph.confidence negb].
  rewrite bool_decide_eq_true_2 by done. by rewrite andb_false_r.
Qed.

(** [add_verified_fact] keeps the nodes, the edges and the paths. *)
Lemma add_verified_fact_has_node self a b relation confidence source now n :
  nx.has_node (CausalGraph.semantic self) n = true →
  nx.has_node (CausalGraph.semantic
    (CausalGraph.add_verified_fact self a b relation confidence source now)) n = true.
Proof.
  intros Hn. unfold nx.has_node at 1. apply od_mem_true_get.
  rewrite add_verified_fact_nodes, Hn. by apply od_mem_true_get.
Qed.

Lemma add_verified_fact_has_edge self a b relation confidence source now u v :
  nx.has_edge (CausalGraph.semantic self) u v = true →
  nx.has_edge (CausalGraph.semantic
    (CausalGraph.add_verified_fact self a b relation confidence source now)) u v = true.
Proof.
  unfold nx.has_edge. rewrite add_verified_fact_edges. intros Huv.
  destruct (decide ((a, b) = (u, v))) as [<-|Hne].
  - apply od_mem_upsert_eq.
  - by rewrite od_mem_upsert_ne.
Qed.

Lemma add_verified_fact_is_path self a b relation confidence source now x y p :
  is_path (CausalGraph.semantic self) x y p →
  is_path (CausalGraph.semantic
    (CausalGraph.add_verified_fact self a b relation confidence source now)) x y p.
Proof.
  induction 1 as [|u v w p Hedge _ IH]; [constructor|].
  apply path_step with v; [|done]. by apply add_verified_fact_has_edge.
Qed.

(** X11. [add_verified_fact] never makes a relationship disappear: if
    [query_relationship(x, y)] answers [exists] true, it still does after
    any fact was added. *)
Theorem add_verified_fact_keeps_relationships self a b relation confidence source now x y :
  CausalGraph.exists_ (CausalGraph.query_relationship self x y) = true →
  CausalGraph.exists_ (CausalGraph.query_relationship
    (CausalGraph.add_verified_fact self a b relation confidence source now) x y) = true.
Proof.
  intros (Hx & Hy & p & _ & Hp & Hlen)%query_relationship_found.
  apply query_relationship_finds with p; [| | |done].
  - by apply add_verified_fact_has_node.
  - by apply add_verified_fact_has_node.
  - by apply add_verified_fact_is_path.
Qed.
End relationship_facts.

(** ** The statistics of the graph *)

Section graph_statistics.
Context {rt : PyRuntime}.
Implicit Types (self : CausalGraph.t) (a b : string) (G : nx.DiGraph).

Lemma number_of_nodes_add_node G n attr :
  nx.number_of_nodes (nx.add_node G n attr) =
  (nx.number_of_nodes G + if nx.has_node G n then 0 else 1)%Z.
Proof.
  unfold nx.number_of_nodes, nx.has_node. simpl. rewrite od_upsert_length.
  destruct (od_mem _ _); lia.
Qed.

Lemma number_of_nodes_add_edge G u v attr :
  nx.has_node G u = true → nx.has_node G v = true →
  nx.number_of_nodes (nx.add_edge G u v attr) = nx.number_of_nodes G.
Proof.
  unfold nx.number_of_nodes, nx.has_node. simpl. intros Hu Hv.
  rewrite !od_upsert_length, Hu.
  destruct (decide (u = v)) as [->|Hne].
  - by rewrite od_mem_upsert_eq.
  - by rewrite od_mem_upsert_ne, Hv.
Qed.

Lemma has_node_add_node_ne G n m attr :
  n ≠ m → nx.has_node (nx.add_node G n attr) m = nx.has_node G m.
Proof. intros. by apply od_mem_upsert_ne. Qed.

(** X12. The statistics before and after [add_verified_fact(a, b, ...)]:
    [semantic_nodes] grows by one for each of [a] and [b] that was not a
    node (by one only if [b] is [a]), [semantic_edges] by one unless the
    edge existed, [episodic_nodes] by one unless the key of the learning
    event existed; [self_model_nodes] and [creation_time] stay;
    [total_nodes] is the sum of the three node counts, and never
    decreases and grows by at most 3; [last_update] is the clock reading of
    the call. *)
Theorem get_statistics_add_verified_fact self a b relation confidence source now :
  let after := CausalGraph.add_verified_fact self a b relation confidence source now in
  let s := CausalGraph.get_statistics self in
  let s' := CausalGraph.get_statistics after in
  let event := "Learning_Event_" +:+ strftime_YmdHMS (CausalGraph.at_event_id now) in
  CausalGraph.stat_semantic_nodes s' =
    (CausalGraph.stat_semantic_nodes s
     + (if nx.has_node (CausalGraph.semantic self) a then 0 else 1)
     + (if nx.has_node (CausalGraph.semantic self) b || bool_decide (b = a)
        then 0 else 1))%Z ∧
  CausalGraph.stat_semantic_edges s' =
    (CausalGraph.stat_semantic_edges s
     + if nx.has_edge (CausalGraph.semantic self) a b then 0 else 1)%Z ∧
  CausalGraph.stat_episodic_nodes s' =
    (CausalGraph.stat_episodic_nodes s
     + if nx.has_node (CausalGraph.episodic self) event then 0 else 1)%Z ∧
  CausalGraph.stat_self_model_nodes s' = CausalGraph.stat_self_model_nodes s ∧
  (CausalGraph.stat_total_nodes s ≤ CausalGraph.stat_total_nodes s'
     ≤ CausalGraph.stat_total_nodes s + 3)%Z ∧
  CausalGraph.stat_total_nodes s' =
    (CausalGraph.stat_semantic_nodes s' + CausalGraph.stat_episodic_nodes s'
     + CausalGraph.stat_self_model_nodes s')%Z ∧
  CausalGraph.stat_creation_time s' = CausalGraph.stat_creation_time s ∧
  CausalGraph.stat_last_update s' = isoformat (CausalGraph.at_update now).
Proof.
  intros after s s' event.
  assert (nx.number_of_nodes (CausalGraph.semantic after) =
    (nx.number_of_nodes (CausalGraph.semantic self)
     + (if nx.has_node (CausalGraph.semantic self) a then 0 else 1)
     + (if nx.has_node (CausalGraph.semantic self) b || bool_decide (b = a)
        then 0 else 1))%Z) as Hsem.
  { unfold after. rewrite add_verified_fact_semantic. cbv zeta.
    set (G := CausalGraph.semantic self).
    set (Ga := if negb (nx.has_node G a) then _ else _).
    set (Gb := if negb (nx.has_node Ga b) then _ else _).
    assert (nx.has_node Ga a = true) as Haa.
    { unfold Ga. destruct (nx.has_node G a) eqn:Ha; simpl; [done|].
      apply has_node_add_node. }
    assert (nx.has_node Ga b = nx.has_node G b || bool_decide (b = a)) as Hab.
    { unfold Ga. destruct (nx.has_node G a) eqn:Ha; simpl.
      - case_bool_decide as Hba; [subst; by rewrite Ha|by rewrite orb_false_r].
      - case_bool_decide as Hba.
        + subst. rewrite has_node_add_node. by rewrite orb_true_r.
        + rewrite has_node_add_node_ne by done. by rewrite orb_false_r. }
    assert (nx.number_of_nodes Ga =
            (nx.number_of_nodes G + if nx.has_node G a then 0 else 1)%Z) as Hna.
    { unfold Ga. destruct (nx.has_node G a) eqn:Ha; simpl; [lia|].
      by rewrite number_of_nodes_add_node, Ha. }
    assert (nx.has_node Gb a = true ∧ nx.has_node Gb b = true ∧
            nx.number_of_nodes Gb =
            (nx.number_of_nodes Ga + if nx.has_node Ga b then 0 else 1)%Z)
      as (Hba & Hbb & Hnb).
    { unfold Gb. destruct (nx.has_node Ga b) eqn:Hb; simpl; [split_and!; (done || lia)|].
      split_and!.
      - destruct (decide (b = a)) as [->|Hne]; [apply has_node_add_node|].
        by rewrite has_node_add_node_ne.
      - apply has_node_add_node.
      - by rewrite number_of_nodes_add_node, Hb. }
    rewrite number_of_nodes_add_edge by done. rewrite Hnb, Hna, Hab. done. }
  assert (nx.number_of_nodes (CausalGraph.episodic after) =
    (nx.number_of_nodes (CausalGraph.episodic self)
     + if nx.has_node (CausalGraph.episodic self) event then 0 else 1)%Z) as Hepi.
  { unfold after. simpl. by rewrite number_of_nodes_add_node. }
  assert (nx.number_of_edges (CausalGraph.semantic after) =
    (nx.number_of_edges (CausalGraph.semantic self)
     + if nx.has_edge (CausalGraph.semantic self) a b then 0 else 1)%Z) as Hedges.
  { unfold after, nx.number_of_edges, nx.has_edge.
    rewrite add_verified_fact_edges, od_upsert_length. destruct (od_mem _ _); lia. }
  unfold s, s', CausalGraph.get_statistics.
  cbn [CausalGraph.stat_semantic_nodes CausalGraph.stat_semantic_edges
       CausalGraph.stat_episodic_nodes CausalGraph.stat_self_model_nodes
       CausalGraph.stat_total_nodes CausalGraph.stat_creation_time
       CausalGraph.stat_last_update].
  rewrite Hsem, Hepi, Hedges.
  change (CausalGraph.self_model after) with (CausalGraph.self_model self).
  split_and!; try done.
  - destruct (nx.has_node _ a), (nx.has_node _ b || _), (nx.has_node _ event); lia.
  - destruct (nx.has_node _ a), (nx.has_node _ b || _), (nx.has_node _ event); lia.
Qed.
End graph_statistics.

(** ** [search_nodes] *)

Section search_nodes.
Context {rt : PyRuntime}.
Variable lower : string → string.
Implicit Types (self : CausalGraph.t) (query : string) (limit : Z)
  (node : string * nx.attrs).

(** The loop collects the nodes that pass the test, in the order of the table. *)
Lemma collect_filter {A} (f : A → bool) (l acc : list A) :
  foldl (λ results x, if f x then results ++ [x] else results) acc l =
  acc ++ filter (λ x, f x = true) l.
Proof.
  revert acc. induction l as [|x l IH]; intros acc; simpl.
  - by rewrite app_nil_r.
  - rewrite IH, filter_cons. destruct (f x); simpl; [by rewrite <- app_assoc|done].
Qed.

(** [search_nodes] as a filter of the node table. *)
Lemma search_nodes_filter self query limit :
  CausalGraph.search_nodes lower self query limit =
  slice_to limit
    (filter (λ node, CausalGraph.matches lower (lower query) node = true)
       (nx.nodes (CausalGraph.semantic self))).
Proof. unfold CausalGraph.search_nodes. cbv zeta. by rewrite collect_filter. Qed.

(** The test of the loop body. *)
Lemma matches_spec query_lower node :
  CausalGraph.matches lower query_lower node = true ↔
  str_in query_lower (lower node.1) = true ∨
  ∃ key value, node.2 !! key = Some (VStr value) ∧
               str_in query_lower (lower value) = true.
Proof.
  unfold CausalGraph.matches. rewrite orb_true_iff, existsb_exists.
  split; (intros [Hid|Hattr]; [by left|right]).
  - destruct Hattr as ([key v] & Hin & Hv). simpl in Hv.
    destruct v as [| | | |value|]; try done.
    exists key, value. split; [|done].
    by apply elem_of_map_to_list, list_elem_of_In.
  - destruct Hattr as (key & value & Hk & Hv).
    exists (key, VStr value). split; [|done].
    by apply list_elem_of_In, elem_of_map_to_list.
Qed.

Lemma slice_to_sublist {A} limit (l : list A) : sublist (slice_to limit l) l.
Proof. unfold slice_to. destruct (0 <=? limit)%Z; apply sublist_take. Qed.

(** X13. The results of [search_nodes(query, limit)] are nodes of the
    semantic layer with their attributes, in the order of the node table and
    none of them twice (a sublist of the table); each has the lowered query
    in its lowered id or in the lowered value of one of its string
    attributes; there are at most [limit] of them when [limit] is not
    negative, and never more than there are nodes. *)
Theorem search_nodes_sound self query limit :
  let results := CausalGraph.search_nodes lower self query limit in
  sublist results (nx.nodes (CausalGraph.semantic self)) ∧
  Forall (λ node,
    str_in (lower query) (lower node.1) = true ∨
    ∃ key value, node.2 !! key = Some (VStr value) ∧
                 str_in (lower query) (lower value) = true) results ∧
  ((0 ≤ limit)%Z → (Z.of_nat (length results) ≤ limit)%Z) ∧
  (Z.of_nat (length results) ≤ nx.number_of_nodes (CausalGraph.semantic self))%Z.
Proof.
  intros results. unfold results. rewrite search_nodes_filter.
  set (found := filter _ _).
  assert (sublist (slice_to limit found) found) as Hslice by apply slice_to_sublist.
  assert (sublist found (nx.nodes (CausalGraph.semantic self))) as Hfound
    by apply sublist_filter.
  split_and!.
  - by etrans.
  - apply Forall_forall. intros node Hin.
    apply matches_spec.
    apply (elem_of_sublist _ _ _ Hin) in Hslice.
    apply list_elem_of_filter in Hslice. by destruct Hslice.
  - intros Hlimit. unfold slice_to.
    destruct (Z.leb_spec 0 limit); [|lia].
    pose proof (firstn_le_length (Z.to_nat limit) found). lia.
  - unfold nx.number_of_nodes. apply inj_le.
    etrans; [by apply sublist_length|by apply sublist_length].
Qed.

(** X14. With a [limit] of at least the number of nodes, [search_nodes]
    returns exactly the matching nodes: a node with its attributes is in
    the results if and only if it is in the node table and the lowered query
    occurs in its lowered id or in the lowered value of one of its string
    attributes. *)
Theorem search_nodes_complete self query limit node :
  (nx.number_of_nodes (CausalGraph.semantic self) ≤ limit)%Z →
  node ∈ CausalGraph.search_nodes lower self query limit ↔
  node ∈ nx.nodes (CausalGraph.semantic self) ∧
  (str_in (lower query) (lower node.1) = true ∨
   ∃ key value, node.2 !! key = Some (VStr value) ∧
                str_in (lower query) (lower value) = true).
Proof.
  intros Hlimit. rewrite search_nodes_filter, <- matches_spec.
  set (found := filter _ _).
  assert (slice_to limit found = found) as ->.
  { unfold slice_to, nx.number_of_nodes in *.
    destruct (Z.leb_spec 0 limit); [|lia].
    apply take_ge.
    pose proof (sublist_length _ _ (sublist_filter
      (λ node, CausalGraph.matches lower (lower query) node = true)
      (nx.nodes (CausalGraph.semantic self)))) as Hlen.
    fold found in Hlen. lia. }
  unfold found. rewrite list_elem_of_filter. tauto.
Qed.

(** X15. A negative [limit] does not mean no limit: [search_nodes] then
    returns all the matches but the last [-limit] of them, and nothing at
    all when there are no more than [-limit] matches. *)
Theorem search_nodes_negative_limit self query limit :
  (limit < 0)%Z →
  let found := CausalGraph.search_nodes lower self query
                 (nx.number_of_nodes (CausalGraph.semantic self)) in
  CausalGraph.search_nodes lower self query limit =
    take (length found - Z.to_nat (- limit)) found ∧
  ((Z.of_nat (length found) ≤ - limit)%Z →
   CausalGraph.search_nodes lower self query limit = []).
Proof.
  intros Hlimit found.
  assert (found = filter (λ node, CausalGraph.matches lower (lower query) node = true)
                    (nx.nodes (CausalGraph.semantic self))) as Hfound.
  { unfold found. rewrite search_nodes_filter. set (l := filter _ _).
    unfold slice_to, nx.number_of_nodes.
    destruct (Z.leb_spec 0 (Z.of_nat (length (nx.nodes (CausalGraph.semantic self)))));
      [|lia].
    apply take_ge. rewrite Nat2Z.id. apply sublist_length, sublist_filter. }
  assert (CausalGraph.search_nodes lower self query limit =
          take (length found - Z.to_nat (- limit)) found) as Heq.
  { rewrite search_nodes_filter, <- Hfound. unfold slice_to.
    by destruct (Z.leb_spec 0 limit); [lia|]. }
  split; [done|]. intros Hshort. rewrite Heq.
  replace (length found - Z.to_nat (- limit))%nat with 0%nat by lia. done.
Qed.

Lemma str_in_empty s : str_in "" s = true.
Proof. by destruct s. Qed.

(** X16. A query whose lowered form is empty matches every node:
    [search_nodes] returns the first [limit] nodes of the table. *)
Theorem search_nodes_empty_query self query limit :
  lower query = "" → (0 ≤ limit)%Z →
  CausalGraph.search_nodes lower self query limit =
  take (Z.to_nat limit) (nx.nodes (CausalGraph.semantic self)).
Proof.
  intros Hq Hlimit. rewrite search_nodes_filter, Hq. unfold slice_to.
  destruct (Z.leb_spec 0 limit); [|lia]. f_equal.
  induction (nx.nodes (CausalGraph.semantic self)) as [|node l IH]; [done|].
  rewrite filter_cons, decide_True, IH; [done|].
  unfold CausalGraph.matches. by rewrite str_in_empty.
Qed.

Lemma prefix_refl s : String.prefix s s = true.
Proof. induction s as [|c s IH]; simpl; [done|]. by destruct (ascii_dec c c). Qed.

Lemma str_in_refl s : str_in s s = true.
Proof. destruct s as [|c s]; [done|]. cbn [str_in]. by rewrite prefix_refl. Qed.

(** X17. The entities of a learnt fact can be searched for: after
    [add_verified_fact(a, b, ...)], with a [limit] of at least the number of
    nodes, the search for [a] returns the node [a] and the search for [b]
    the node [b]. *)
Theorem search_nodes_finds_learnt_entities self a b relation confidence source now limit :
  let after := CausalGraph.add_verified_fact self a b relation confidence source now in
  (nx.number_of_nodes (CausalGraph.semantic after) ≤ limit)%Z →
  (∃ info, (a, info) ∈ CausalGraph.search_nodes lower after a limit) ∧
  (∃ info, (b, info) ∈ CausalGraph.search_nodes lower after b limit).
Proof.
  intros after Hlimit.
  assert (∀ n, n = a ∨ n = b →
    ∃ info, (n, info) ∈ CausalGraph.search_nodes lower after n limit) as Hfind.
  { intros n Hn.
    assert (is_Some (od_get n (nx.nodes (CausalGraph.semantic after)))) as [info Hinfo].
    { unfold after. rewrite add_verified_fact_nodes.
      destruct (nx.has_node _ n) eqn:Hold; [by apply od_mem_true_get|].
      by rewrite bool_decide_eq_true_2. }
    exists info. rewrite search_nodes_filter.
    set (found := filter _ _).
    assert (slice_to limit found = found) as ->.
    { unfold slice_to, nx.number_of_nodes in *.
      destruct (Z.leb_spec 0 limit); [|lia].
      apply take_ge.
      pose proof (sublist_length _ _ (sublist_filter
        (λ node, CausalGraph.matches lower (lower n) node = true)
        (nx.nodes (CausalGraph.semantic after)))) as Hlen.
      fold found in Hlen. lia. }
    apply list_elem_of_filter. split; [|by apply od_get_Some_elem].
    unfold CausalGraph.matches. simpl. by rewrite str_in_refl. }
  split; apply Hfind; eauto.
Qed.
End search_nodes.

(** ** The claims of the generator *)

Section generator.
Context {rt : PyRuntime}.
Variable lower : string → string.
Import F64 F64_facts.

Lemma as_claim_get c :
  claim_get (GPT2Generator.as_claim c) "entity_a" = Some (GPT2Generator.entity_a c) ∧
  claim_get (GPT2Generator.as_claim c) "entity_b" = Some (GPT2Generator.entity_b c) ∧
  claim_get (GPT2Generator.as_claim c) "relation" = Some (GPT2Generator.relation c).
Proof. done. Qed.

Ltac pick_positions :=
  solve [ exists 0%nat, 1%nat; split_and!; [lia|reflexivity..]
        | exists 0%nat, 2%nat; split_and!; [lia|reflexivity..]
        | exists 0%nat, 3%nat; split_and!; [lia|reflexivity..]
        | exists 0%nat, 4%nat; split_and!; [lia|reflexivity..]
        | exists 0%nat, 5%nat; split_and!; [lia|reflexivity..]
        | exists 1%nat, 2%nat; split_and!; [lia|reflexivity..]
        | exists 1%nat, 3%nat; split_and!; [lia|reflexivity..]
        | exists 1%nat, 4%nat; split_and!; [lia|reflexivity..]
        | exists 1%nat, 5%nat; split_and!; [lia|reflexivity..]
        | exists 2%nat, 3%nat; split_and!; [lia|reflexivity..]
        | exists 2%nat, 4%nat; split_and!; [lia|reflexivity..]
        | exists 2%nat, 5%nat; split_and!; [lia|reflexivity..]
        | exists 3%nat, 4%nat; split_and!; [lia|reflexivity..]
        | exists 3%nat, 5%nat; split_and!; [lia|reflexivity..]
        | exists 4%nat, 5%nat; split_and!; [lia|reflexivity..] ].

Ltac case_position i H :=
  repeat (destruct i as [|i]; [simpl in H; injection H as <-|simpl in H]); try done.

(** The claims the extraction can return. *)
Lemma extracted_claims query tokens :
  let claims := GPT2Generator._extract_relationship_claims lower query tokens in
  let names := ["Hahnemühle"; "Canson"; "Awagami"; "Bamboo"; "Photo_rag"; "unknown"] in
  (length claims ≤ 1)%nat ∧
  Forall (λ c,
    GPT2Generator.relation c = "unverified_relationship" ∧
    GPT2Generator.confidence c = 0.0%float ∧
    ∃ i j, (i < j)%nat ∧ names !! i = Some (GPT2Generator.entity_a c) ∧
           names !! j = Some (GPT2Generator.entity_b c)) claims ∧
  (str_in "is" (lower query) = true → str_in "manufacturer" (lower query) = true →
   str_in "?" query = true → claims = []).
Proof.
  intros claims names.
  unfold claims, names, GPT2Generator._extract_relationship_claims. cbv zeta.
  set (full_text := lower (query +:+ " " +:+ String.concat " " tokens)).
  destruct (str_in "is" (lower query) && str_in "manufacturer" (lower query)
            && str_in "?" query) eqn:Hexcl.
  { simpl. split_and!; [lia|constructor|done]. }
  assert (∀ P : Prop, (str_in "is" (lower query) = true →
            str_in "manufacturer" (lower query) = true →
            str_in "?" query = true → P)) as Hvac.
  { intros P H1 H2 H3. rewrite H1, H2, H3 in Hexcl. done. }
  destruct (negb _); [split_and!; [simpl; lia|constructor|apply Hvac]|].
  unfold GPT2Generator.known_entities.
  rewrite !filter_cons, filter_nil.
  repeat case_decide; simpl;
    (split_and!; [lia| |apply Hvac]);
    first [ apply Forall_nil_2
          | apply Forall_singleton; simpl;
            split; [reflexivity|split; [reflexivity|pick_positions]] ].
Qed.

(** X18. [_extract_relationship_claims] returns at most one claim.  Its
    relation is "unverified_relationship" and its confidence 0.0; its two
    entities are two different names of the list Hahnemühle, Canson,
    Awagami, Bamboo, Photo_rag, unknown, [entity_a] before [entity_b] in
    the order of this list, whatever their order in the text.  A query with
    "is" and "manufacturer" in its lowered form and a question mark yields
    no claim. *)
Theorem extracted_claims_shape query tokens :
  let claims := GPT2Generator._extract_relationship_claims lower query tokens in
  let names := ["Hahnemühle"; "Canson"; "Awagami"; "Bamboo"; "Photo_rag"; "unknown"] in
  (length claims ≤ 1)%nat ∧
  Forall (λ c,
    GPT2Generator.relation c = "unverified_relationship" ∧
    GPT2Generator.confidence c = 0.0%float ∧
    ∃ i j, (i < j)%nat ∧ names !! i = Some (GPT2Generator.entity_a c) ∧
           names !! j = Some (GPT2Generator.entity_b c)) claims ∧
  (str_in "is" (lower query) = true → str_in "manufacturer" (lower query) = true →
   str_in "?" query = true → claims = []).
Proof. apply extracted_claims. Qed.

(** In the built-in graph no relationship leads from one of the names to a
    later one. *)
Lemma builtin_graph_unrelated t0 t1 i j a b :
  (i < j)%nat →
  ["Hahnemühle"; "Canson"; "Awagami"; "Bamboo"; "Photo_rag"; "unknown"] !! i = Some a →
  ["Hahnemühle"; "Canson"; "Awagami"; "Bamboo"; "Photo_rag"; "unknown"] !! j = Some b →
  a ≠ "" ∧ b ≠ "" ∧
  CausalGraph.exists_
    (CausalGraph.query_relationship (CausalGraph.__init__ t0 t1) a b) = false.
Proof.
  intros Hij Hi Hj.
  case_position i Hi; case_position j Hj; try lia;
    (split_and!; [done|done|by vm_compute]).
Qed.

(** X19. On the graph [CausalGraph()] builds, every claim
    [_extract_relationship_claims] returns, for whatever query and tokens,
    is inhibited by the scorer, whatever the text it is scored with: the
    semantic component is 0.95, the score at least 0.65 and
    [should_inhibit] true. *)
Theorem extracted_claims_inhibited t0 t1 query tokens c self token token_index context now :
  let r := (DissonanceDetector.calculate_dissonance (CausalGraph.__init__ t0 t1) self
              token token_index context (Some (GPT2Generator.as_claim c)) now).2 in
  c ∈ GPT2Generator._extract_relationship_claims lower query tokens →
  DissonanceDetector.semantic (DissonanceDetector.components r) = 0.95%float ∧
  le 0.65 (DissonanceDetector.score r) ∧
  DissonanceDetector.should_inhibit r = true.
Proof.
  intros r Hc.
  destruct (extracted_claims query tokens) as (_ & Hall & _).
  rewrite Forall_forall in Hall.
  destruct (Hall c Hc) as (_ & _ & i & j & Hij & Hi & Hj).
  destruct (builtin_graph_unrelated t0 t1 i j _ _ Hij Hi Hj) as (Hane & Hbne & Hno).
  destruct (as_claim_get c) as (Ha & Hb & _).
  revert r. generalize dependent (CausalGraph.__init__ t0 t1). intros graph Hno r.
  destruct (level_of_unverified graph self token token_index
              context (Some (GPT2Generator.as_claim c)) now) as (H1 & H2 & H3 & _).
  { rewrite (semantic_axis_queried _ token context _ _ _ Ha Hane Hb Hbne).
    cbv zeta. rewrite Hno. reflexivity. }
  split_and!; assumption.
Qed.

(** X20. On every graph none of whose edges is labelled
    "unverified_relationship", a claim [_extract_relationship_claims]
    returns is flagged by the scorer, also when its two entities are
    related in the graph: the semantic component is 0.95 or 0.70, the score
    at least 0.30 and the level never none. *)
Theorem extracted_claims_flagged graph query tokens c self token token_index context now :
  let r := (DissonanceDetector.calculate_dissonance graph self token token_index
              context (Some (GPT2Generator.as_claim c)) now).2 in
  c ∈ GPT2Generator._extract_relationship_claims lower query tokens →
  Forall (λ e, nx.relation e.2 ≠ Some "unverified_relationship")
    (nx.edges (CausalGraph.semantic graph)) →
  (DissonanceDetector.semantic (DissonanceDetector.components r) = 0.95%float ∨
   DissonanceDetector.semantic (DissonanceDetector.components r) = 0.70%float) ∧
  le 0.30 (DissonanceDetector.score r) ∧
  DissonanceDetector.inhibition_level r ≠ "none".
Proof.
  intros r Hc Hedges.
  destruct (extracted_claims query tokens) as (_ & Hall & _).
  rewrite Forall_forall in Hall.
  destruct (Hall c Hc) as (Hrel & _ & i & j & Hij & Hi & Hj).
  assert (GPT2Generator.entity_a c ≠ "" ∧ GPT2Generator.entity_b c ≠ "") as [Hane Hbne].
  { clear -Hij Hi Hj. case_position i Hi; case_position j Hj; done. }
  destruct (as_claim_get c) as (Ha & Hb & Hr). rewrite Hrel in Hr.
  assert (DissonanceDetector._calculate_semantic_dissonance graph token context
            (Some (GPT2Generator.as_claim c)) = 0.95%float ∨
          DissonanceDetector._calculate_semantic_dissonance graph token context
            (Some (GPT2Generator.as_claim c)) = 0.70%float) as Hsem.
  { rewrite (semantic_axis_queried graph token context _ _ _ Ha Hane Hb Hbne). cbv zeta.
    destruct (negb (CausalGraph.exists_ _)); [by left|right].
    rewrite Hr. simpl truthy.
    rewrite bool_decide_eq_false_2; [done|].
    by apply relation_type_of_edges. }
  split; [|by apply level_of_mismatch].
  destruct (calculate_dissonance_score graph self token token_index context
              (Some (GPT2Generator.as_claim c)) now) as [_ Hcomp].
  fold r in Hcomp. by rewrite Hcomp.
Qed.
End generator.

(** ** The insertions of the crawler *)

Section crawler.
Context {rt : PyRuntime}.
Implicit Types (graph : CausalGraph.t) (G : nx.DiGraph).

(** An update that maps the stored value to itself changes nothing. *)
Lemma od_upsert_same {K V} `{EqDecision K} (k : K) (f : option V → V) (d : list (K * V)) :
  (∀ v, od_get k d = Some v → f (Some v) = v) → od_mem k d = true →
  od_upsert k f d = d.
Proof.
  unfold od_mem. induction d as [|[k' v] d IH]; simpl; [done|].
  destruct (decide (k = k')) as [->|Hne].
  - intros Hf _. by rewrite Hf.
  - intros Hf Hd. by rewrite IH.
Qed.

(** [add_edge] between two nodes of the graph leaves the node table. *)
Lemma add_edge_nodes G u v attr :
  nx.has_node G u = true → nx.has_node G v = true →
  nx.nodes (nx.add_edge G u v attr) = nx.nodes G.
Proof.
  unfold nx.has_node. intros Hu Hv. simpl.
  rewrite (od_upsert_same u) by (done || by intros ? ->).
  by rewrite (od_upsert_same v) by (done || by intros ? ->).
Qed.

(** X21. [_add_entity_to_graph(entity_id, entity_data)] adds an entity
    once: it returns true exactly when the node "WD_" + entity_id was not
    in the graph, and then appends this node with the type
    "wikidata_entity", the id, the label and the description fetched (the
    id and the empty string where they are missing); it never changes an
    edge; when it returns false the graph is unchanged; and a second call
    for the same id, whatever the data, returns false and changes
    nothing. *)
Theorem add_entity_to_graph_once graph entity_id entity_data now entity_data' now' :
  let node_id := "WD_" +:+ entity_id in
  let out := WikidataCrawler._add_entity_to_graph graph entity_id entity_data now in
  out.2 = negb (nx.has_node (CausalGraph.semantic graph) node_id) ∧
  (out.2 = false → out.1 = graph) ∧
  (out.2 = true →
   ∃ info,
     nx.nodes (CausalGraph.semantic out.1) =
       nx.nodes (CausalGraph.semantic graph) ++ [(node_id, info)] ∧
     info !! "node_type" = Some (VStr "wikidata_entity") ∧
     info !! "wikidata_id" = Some (VStr entity_id) ∧
     info !! "label" = Some (default (VStr entity_id) (entity_data !! "label")) ∧
     info !! "description" = Some (default (VStr "") (entity_data !! "description"))) ∧
  nx.edges (CausalGraph.semantic out.1) = nx.edges (CausalGraph.semantic graph) ∧
  WikidataCrawler._add_entity_to_graph out.1 entity_id entity_data' now' = (out.1, false).
Proof.
  intros node_id out. unfold out, WikidataCrawler._add_entity_to_graph. cbv zeta.
  fold node_id.
  destruct (nx.has_node (CausalGraph.semantic graph) node_id) eqn:Hnode; simpl.
  - rewrite Hnode. split_and!; done.
  - rewrite has_node_add_node. split_and!; try done.
    intros _. eexists. split.
    + rewrite od_upsert_fresh by done. simpl. rewrite (right_id_L ∅ (∪)). reflexivity.
    + split_and!; reflexivity.
Qed.

(** X22. [_add_relation_to_graph] never adds a node and never overwrites
    an edge.  It returns true exactly when both nodes are in the graph, no
    edge leads from the first to the second and the relation has a
    ["property"]; it raises [KeyError] exactly when only the property is
    missing; in every other case the graph is unchanged.  After it returned
    true, [query_relationship] finds the direct relationship with that
    property and the confidence 0.9. *)
Theorem add_relation_to_graph_effect graph entity_id related_id relation :
  let node_a := "WD_" +:+ entity_id in
  let node_b := "WD_" +:+ related_id in
  let G := CausalGraph.semantic graph in
  let out := WikidataCrawler._add_relation_to_graph graph entity_id related_id relation in
  nx.nodes (CausalGraph.semantic out.1) = nx.nodes G ∧
  (∀ u v, nx.has_edge G u v = true →
          nx.get_edge_data (CausalGraph.semantic out.1) u v = nx.get_edge_data G u v) ∧
  (out.2 = Ok true ↔
   nx.has_node G node_a = true ∧ nx.has_node G node_b = true ∧
   nx.has_edge G node_a node_b = false ∧ is_Some (relation !! "property")) ∧
  (out.2 = Raise (KeyError "property") ↔
   nx.has_node G node_a = true ∧ nx.has_node G node_b = true ∧
   nx.has_edge G node_a node_b = false ∧ relation !! "property" = None) ∧
  (out.2 ≠ Ok true → out.1 = graph) ∧
  (∀ property, out.2 = Ok true → relation !! "property" = Some property →
   CausalGraph.query_relationship out.1 node_a node_b =
   {| CausalGraph.exists_ := true;
      CausalGraph.relation_type := Some property;
      CausalGraph.confidence := 0.9%float;
      CausalGraph.path := Some [node_a; node_b];
      CausalGraph.direct := true |}).
Proof.
  intros node_a node_b G out.
  unfold out, WikidataCrawler._add_relation_to_graph. cbv zeta.
  fold node_a node_b G.
  destruct (nx.has_node G node_a) eqn:Ha; simpl;
    [|split_and!; try done;
      first [ split; [intros [=]|intros (?&?&?&?); congruence] | intros ? [=] ]].
  destruct (nx.has_node G node_b) eqn:Hb; simpl;
    [|split_and!; try done;
      first [ split; [intros [=]|intros (?&?&?&?); congruence] | intros ? [=] ]].
  destruct (nx.has_edge G node_a node_b) eqn:Hedge; simpl;
    [split_and!; try done;
      first [ split; [intros [=]|intros (?&?&?&?); congruence] | intros ? [=] ]|].
  destruct (relation !! "property") as [property|] eqn:Hprop.
  - cbn [fst snd].
    set (attr := {| nx.relation := Some property; nx.confidence := Some 0.9%float;
                    nx.source := Some (Some "wikidata"); nx.added_at := None |}).
    assert (CausalGraph.semantic (WikidataCrawler.with_semantic graph
              (nx.add_edge G node_a node_b attr)) = nx.add_edge G node_a node_b attr)
      as Hsem by done.
    rewrite Hsem. clear Hsem.
    pose proof (add_edge_nodes G node_a node_b attr Ha Hb) as Hnodes.
    split_and!.
    + done.
    + intros u v Huv. unfold nx.get_edge_data. simpl.
      rewrite od_get_upsert_ne; [done|]. intros [= <- <-]. congruence.
    + split; [by eauto|done].
    + split; [intros [=]|intros (_&_&_&[=])].
    + done.
    + intros property' _ [= <-].
      unfold CausalGraph.query_relationship.
      assert (CausalGraph.semantic (WikidataCrawler.with_semantic graph
                (nx.add_edge G node_a node_b attr)) = nx.add_edge G node_a node_b attr)
        as -> by done.
      unfold nx.has_node. rewrite Hnodes.
      fold (nx.has_node G node_a) (nx.has_node G node_b). rewrite Ha, Hb.
      rewrite has_edge_add_edge. cbn [negb].
      unfold nx.get_edge_data. simpl.
      rewrite od_get_upsert_eq.
      unfold nx.has_edge in Hedge. apply od_mem_false_get in Hedge. rewrite Hedge.
      reflexivity.
  - cbn [fst snd]. split_and!; try done.
    split; [intros [=]|]. by intros (_&_&_&[? [=]]).
Qed.
End crawler.

(** ** The statistics of the scorer and of the policy *)

Section float_of_int.
Import F64 F64_facts.

(** A shift to the right by fewer places than the significand has digits
    leaves a positive significand. *)
Lemma shr_1_digits mrs :
  (0 ≤ shr_m mrs)%Z →
  Zdigits2 (shr_m (shr_1 mrs)) = Z.max 0 (Zdigits2 (shr_m mrs) - 1).
Proof. destruct mrs as [[|[p|p|]|p] r s]; simpl; lia. Qed.

Lemma iter_shr_1_digits p : ∀ mrs,
  (0 ≤ shr_m mrs)%Z →
  (0 ≤ shr_m (SpecFloat.iter_pos shr_1 p mrs))%Z ∧
  Zdigits2 (shr_m (SpecFloat.iter_pos shr_1 p mrs)) =
    Z.max 0 (Zdigits2 (shr_m mrs) - Z.pos p).
Proof.
  induction p as [p IH|p IH|]; intros mrs Hm; simpl.
  - pose proof (shr_1_nonneg mrs Hm) as H1. pose proof (shr_1_digits mrs Hm) as D1.
    destruct (IH _ H1) as [H2 D2]. destruct (IH _ H2) as [H3 D3].
    split; [done|]. lia.
  - destruct (IH _ Hm) as [H2 D2]. destruct (IH _ H2) as [H3 D3].
    split; [done|]. lia.
  - split; [by apply shr_1_nonneg|]. by apply shr_1_digits.
Qed.

Lemma Zdigits2_pos m : (0 ≤ m)%Z → (0 < Zdigits2 m)%Z → (0 < m)%Z.
Proof. destruct m; simpl; lia. Qed.

Lemma shr_record_of_loc_m m l : shr_m (shr_record_of_loc m l) = m.
Proof. by destruct l as [|[]]. Qed.

(** Above the least exponent, the shift of the rounding keeps a digit of a
    positive significand. *)
Lemma shr_fexp_positive m e l :
  (0 < m)%Z → (emin ≤ e)%Z →
  (0 < shr_m (shr_fexp prec emax m e l).1)%Z ∧ (emin ≤ (shr_fexp prec emax m e l).2)%Z.
Proof.
  intros Hm He. unfold shr_fexp, shr.
  assert (0 < Zdigits2 m)%Z as Hd by (destruct m; simpl; lia).
  remember (fexp prec emax (Zdigits2 m + e) - e)%Z as n eqn:Hn.
  unfold fexp in Hn.
  assert (prec = 53%Z) as Hprec by done.
  destruct n as [|p|p]; simpl; rewrite ?shr_record_of_loc_m; try (split; lia).
  destruct (iter_shr_1_digits p (shr_record_of_loc m l)) as [H1 H2].
  { rewrite shr_record_of_loc_m. lia. }
  rewrite shr_record_of_loc_m in H2.
  split; [|lia]. apply Zdigits2_pos; [done|]. lia.
Qed.

Lemma round_nearest_even_positive m l : (0 < m)%Z → (0 < round_nearest_even m l)%Z.
Proof. destruct l as [|[]]; simpl; try done; [destruct (Z.even m)|]; lia. Qed.

Lemma binary_round_aux_positive sx m e l :
  (0 < m)%Z → (emin ≤ e)%Z →
  match binary_round_aux prec emax sx m e l with
  | S754_finite s _ _ | S754_infinity s => s = sx
  | _ => False
  end.
Proof.
  intros Hm He. unfold binary_round_aux.
  destruct (shr_fexp_positive m e l Hm He) as [H1 E1].
  destruct (shr_fexp prec emax m e l) as [mrs' e']. simpl in H1, E1.
  destruct (shr_fexp_positive _ e' loc_Exact
              (round_nearest_even_positive _ (loc_of_shr_record mrs') H1) E1) as [H2 _].
  destruct (shr_fexp prec emax _ e' loc_Exact) as [mrs'' e'']. simpl in H2.
  destruct (shr_m mrs'') as [|m'|m']; [lia| |lia].
  by destruct (e'' <=? emax - prec)%Z.
Qed.

Lemma binary_round_positive sx p :
  match binary_round prec emax sx p 0 with
  | S754_finite s _ _ | S754_infinity s => s = sx
  | _ => False
  end.
Proof.
  unfold binary_round, shl_align.
  assert (emin ≤ fexp prec emax (Z.pos (digits2_pos p) + 0))%Z as Hf
    by (unfold fexp; lia).
  destruct (fexp prec emax (Z.pos (digits2_pos p) + 0) - 0)%Z;
    apply binary_round_aux_positive; try lia; done.
Qed.

(** The float of an int below 2^63 is its rounding, and not zero for a
    positive int. *)
Lemma float_of_int_spec n :
  (0 ≤ n < 2 ^ 63)%Z →
  Prim2SF (float_of_int n) = binary_normalize prec emax n 0 false.
Proof.
  intros Hn. unfold float_of_int.
  assert (binary_normalize prec emax n 0 false =
          Prim2SF (of_uint63 (Uint63Axioms.of_Z n))) as ->.
  { rewrite of_uint63_spec, Uint63.of_Z_spec. f_equal.
    rewrite Z.mod_small; [done|]. exact Hn. }
  by rewrite SF2Prim_Prim2SF.
Qed.

Lemma float_of_int_nonzero n :
  (0 < n < 2 ^ 63)%Z → PrimFloat.eqb (float_of_int n) 0 = false.
Proof.
  intros Hn. rewrite FloatAxioms.eqb_spec, float_of_int_spec by lia.
  destruct n as [|p|p]; [lia| |lia]. simpl binary_normalize.
  pose proof (binary_round_positive false p) as Hp.
  destruct (binary_round prec emax false p 0) as [s|s| |s m e]; try done;
    by destruct s.
Qed.

(** A float above zero is not zero. *)
Lemma ltb_0_nonzero x : PrimFloat.ltb 0 x = true → PrimFloat.eqb x 0 = false.
Proof.
  rewrite FloatAxioms.ltb_spec, FloatAxioms.eqb_spec.
  change (Prim2SF 0) with (S754_zero false).
  unfold SFltb, SFeqb. by destruct (Prim2SF x) as [[]|[]| |[] ? ?].
Qed.
End float_of_int.

Section statistics_of_detector.
Context {rt : PyRuntime}.
Import F64 F64_facts.

(** X23. In every state of a detector (with a history of fewer than 2^63
    results, as every list has), [get_statistics] returns and divides by no
    zero: the two counts are the length of the history and the number of
    its inhibited results; before any detection the rate and the average
    are 0.0 and the dictionary has no recent events; after a detection the
    rate is the quotient of the two counts, the average is the sum of the
    scores divided by their number, and the recent events are the records of
    the last 10 results (of all of them if there are fewer), in order. *)
Theorem detector_get_statistics sum self :
  let history := DissonanceDetector.detection_history self in
  let inhibited := filter (λ r, DissonanceDetector.should_inhibit r = true) history in
  Spec.detector_state self →
  (Z.of_nat (length history) < 2 ^ 63)%Z →
  ∃ st,
    DissonanceDetector.get_statistics sum self = Ok st ∧
    DissonanceDetector.stat_total_detections st = Z.of_nat (length history) ∧
    DissonanceDetector.stat_inhibitions_triggered st = Z.of_nat (length inhibited) ∧
    (history = [] →
     DissonanceDetector.stat_inhibition_rate st = 0.0%float ∧
     DissonanceDetector.stat_avg_dissonance st = 0.0%float ∧
     DissonanceDetector.stat_recent_events st = None) ∧
    (history ≠ [] →
     int_truediv (Z.of_nat (length inhibited)) (Z.of_nat (length history))
       = Ok (DissonanceDetector.stat_inhibition_rate st) ∧
     DissonanceDetector.stat_avg_dissonance st =
       (sum (map DissonanceDetector.score history)
        / float_of_int (Z.of_nat (length history)))%float ∧
     ∃ events,
       DissonanceDetector.stat_recent_events st = Some events ∧
       length events = Nat.min 10 (length history) ∧
       events =
         map (λ d, {| DissonanceDetector.ev_token := DissonanceDetector.token d;
                      DissonanceDetector.ev_score := DissonanceDetector.score d;
                      DissonanceDetector.ev_level := DissonanceDetector.inhibition_level d;
                      DissonanceDetector.ev_timestamp := DissonanceDetector.timestamp d |})
           (drop (length history - 10) history)).
Proof.
  intros history inhibited Hstate Hlen.
  destruct (detector_counters_inv self Hstate) as [Ht Hi].
  fold history in Ht, Hi. fold inhibited in Hi.
  unfold DissonanceDetector.get_statistics. rewrite Ht, Hi.
  fold history.
  destruct (Z.eqb_spec (Z.of_nat (length history)) 0) as [H0|H0].
  - eexists. split; [reflexivity|]. simpl.
    assert (history = []) as Hnil by (destruct history; [done|simpl in H0; lia]).
    assert (inhibited = []) as Hnil' by (unfold inhibited; by rewrite Hnil).
    rewrite Hnil, Hnil'. split_and!; done.
  - unfold float_truediv. rewrite float_of_int_nonzero by lia.
    rewrite int_truediv_ratio.
    2:{ split; [lia|]. apply inj_le, length_filter. }
    2:{ lia. }
    eexists. split; [reflexivity|].
    cbn [DissonanceDetector.stat_total_detections
         DissonanceDetector.stat_inhibitions_triggered
         DissonanceDetector.stat_inhibition_rate DissonanceDetector.stat_avg_dissonance
         DissonanceDetector.stat_recent_events].
    split_and!; [done|done|intros Hnil; rewrite Hnil in H0; done|].
    intros _. split_and!; [done|done|].
    eexists. split; [reflexivity|].
    rewrite length_map. unfold last_n. rewrite length_drop.
    split; [lia|done].
Qed.
End statistics_of_detector.

Section statistics_of_controller.
Context {rt : PyRuntime}.
Import F64 F64_facts.
Implicit Types (self : InhibitionController.t).

(** With a divisor of at least one, a division of ints raises only when the
    dividend is beyond the range of binary64. *)
Lemma int_truediv_raises a b e :
  (1 ≤ b)%Z → int_truediv a b = Raise e →
  e = OverflowError ∧ (overflow_threshold ≤ Z.abs a)%Z.
Proof.
  intros Hb. unfold int_truediv.
  destruct (Z.eqb_spec b 0) as [->|_]; [lia|].
  destruct (Z.leb_spec (overflow_threshold * Z.abs b) (Z.abs a)) as [Hle|_]; [|done].
  intros [= <-]. split; [done|].
  pose proof overflow_threshold_ge_2.
  assert (overflow_threshold * 1 ≤ overflow_threshold * Z.abs b)%Z
    by (apply Z.mul_le_mono_nonneg_l; lia).
  lia.
Qed.

(** The sum over the counters other than that of continue. *)
Lemma total_inhibitions_of_counters (m : gmap string Z) c u r a :
  dom m = Spec.counter_keys →
  m !! "continue" = Some c → m !! "uncertainty" = Some u →
  m !! "reframe" = Some r → m !! "abort" = Some a →
  map_fold (λ k v acc, if decide (k = "continue") then acc else (acc + v)%Z) 0%Z m
  = (u + r + a)%Z.
Proof.
  intros Hdom Hc Hu Hr Ha.
  assert (m = <["continue" := c]> (<["uncertainty" := u]>
                (<["reframe" := r]> (<["abort" := a]> ∅)))) as ->.
  { apply map_eq. intros k.
    destruct (decide (k = "continue")) as [->|?]; [by rewrite lookup_insert_eq|].
    rewrite lookup_insert_ne by done.
    destruct (decide (k = "uncertainty")) as [->|?]; [by rewrite lookup_insert_eq|].
    rewrite lookup_insert_ne by done.
    destruct (decide (k = "reframe")) as [->|?]; [by rewrite lookup_insert_eq|].
    rewrite lookup_insert_ne by done.
    destruct (decide (k = "abort")) as [->|?]; [by rewrite lookup_insert_eq|].
    rewrite lookup_insert_ne by done. rewrite lookup_empty.
    apply not_elem_of_dom. rewrite Hdom. unfold Spec.counter_keys. set_solver. }
  assert (∀ (j1 j2 : string) (z1 z2 y : Z),
    (if decide (j1 = "continue") then
       (if decide (j2 = "continue") then y else y + z2) else
       (if decide (j2 = "continue") then y else y + z2) + z1)%Z =
    (if decide (j2 = "continue") then
       (if decide (j1 = "continue") then y else y + z1) else
       (if decide (j1 = "continue") then y else y + z1) + z2)%Z) as Hcomm.
  { intros. repeat case_decide; lia. }
  rewrite map_fold_insert_L; [|intros; apply Hcomm|done].
  rewrite map_fold_insert_L; [|intros; apply Hcomm|done].
  rewrite map_fold_insert_L; [|intros; apply Hcomm|done].
  rewrite map_fold_insert_L; [|intros; apply Hcomm|done].
  rewrite map_fold_empty. simpl. lia.
Qed.

(** X24. In every state of a controller [get_statistics] divides by no
    zero and looks up no missing key: it raises only [OverflowError], and
    only for a total of saved tokens beyond the range of binary64.  In the
    dictionary it returns, [total_inhibitions] is the number of reframe and
    abort decisions recorded, between 0 and [total_decisions]; the
    inhibition rate is its quotient by [max(total_decisions, 1)];
    [total_tokens_saved] is the sum of the [tokens_saved] recorded; and the
    recent decisions are the last 10 of the history (all of them if there
    are fewer). *)
Theorem controller_get_statistics self :
  let history := InhibitionController.decision_history self in
  let count a :=
    Z.of_nat (length (filter (λ d, InhibitionController.d_action d = a) history)) in
  Spec.controller_state self →
  match InhibitionController.get_statistics self with
  | Ok st =>
      InhibitionController.stat_total_inhibitions st = (count "reframe" + count "abort")%Z ∧
      (0 ≤ InhibitionController.stat_total_inhibitions st
         ≤ InhibitionController.stat_total_decisions st)%Z ∧
      int_truediv (InhibitionController.stat_total_inhibitions st)
        (py_max (InhibitionController.stat_total_decisions st) 1)
        = Ok (InhibitionController.stat_inhibition_rate st) ∧
      InhibitionController.stat_total_tokens_saved st =
        foldr Z.add 0%Z (map InhibitionController.d_tokens_saved history) ∧
      InhibitionController.stat_recent_decisions st = drop (length history - 10) history ∧
      length (InhibitionController.stat_recent_decisions st) = Nat.min 10 (length history)
  | Raise e =>
      e = OverflowError ∧
      (overflow_threshold ≤ Z.abs (InhibitionController.total_tokens_saved self))%Z
  end.
Proof.
  intros history count Hstate.
  destruct (controller_counters_inv self Hstate)
    as (Hc & Hr & Ha & Hu & Hall & Hsum & Hlen).
  fold history in Hc, Hr, Ha, Hall, Hsum, Hlen.
  pose proof (controller_state_keys self Hstate) as Hdom.
  assert (Z.of_nat (length history) =
          (count "continue" + count "reframe" + count "abort")%Z) as Hsplit.
  { unfold count. clear -Hall. induction history as [|d l IH]; [done|].
    apply Forall_cons in Hall as [Hd Hl]. specialize (IH Hl).
    rewrite !filter_cons. simpl length.
    destruct Hd as [Hd|[Hd|Hd]]; rewrite Hd;
      repeat case_decide; try done; simpl length; lia. }
  unfold InhibitionController.get_statistics. cbv zeta.
  rewrite (total_inhibitions_of_counters _ _ _ _ _ Hdom Hc Hu Hr Ha).
  destruct (py_max_1 (InhibitionController.total_decisions self)) as [Hm1 Hm2].
  assert (0 ≤ count "continue" ∧ 0 ≤ count "reframe" ∧ 0 ≤ count "abort")%Z
    as (? & ? & ?) by (unfold count; lia).
  rewrite (int_truediv_ratio (0 + count "reframe" + count "abort")) by lia.
  destruct (int_truediv (InhibitionController.total_tokens_saved self) _)
    as [avg|e] eqn:Havg.
  - cbn [InhibitionController.stat_total_inhibitions
         InhibitionController.stat_total_decisions
         InhibitionController.stat_inhibition_rate
         InhibitionController.stat_total_tokens_saved
         InhibitionController.stat_recent_decisions].
    unfold count in *.
    split_and!; [lia|lia|lia| |done|done|].
    + apply int_truediv_ratio; lia.
    + unfold last_n, history. rewrite length_drop. lia.
  - by apply int_truediv_raises in Havg.
Qed.

(** X25. [calculate_energy_metrics(baseline_tokens)] divides by no zero:
    it raises only [OverflowError], and only when the baseline or the
    baseline minus the saved tokens is beyond the range of binary64.  In the
    dictionary it returns, the actual tokens and the saved tokens add up to
    the baseline; for a baseline of 0 the efficiency gain is the int 0; and
    when the gain is a float, the baseline energy is above zero and the gain
    is the saved energy divided by it, times 100. *)
Theorem calculate_energy_metrics_returns self baseline_tokens :
  let saved := InhibitionController.total_tokens_saved self in
  match InhibitionController.calculate_energy_metrics self baseline_tokens with
  | Ok m =>
      (InhibitionController.em_actual_tokens m + InhibitionController.em_tokens_saved m
       = baseline_tokens)%Z ∧
      InhibitionController.em_tokens_saved m = saved ∧
      (baseline_tokens = 0%Z →
       InhibitionController.em_efficiency_gain_percent m = VInt 0) ∧
      (∀ gain, InhibitionController.em_efficiency_gain_percent m = VFloat gain →
       lt 0 (InhibitionController.em_baseline_energy_wh m) ∧
       gain = (InhibitionController.em_energy_saved_wh m
               / InhibitionController.em_baseline_energy_wh m * 100)%float)
  | Raise e =>
      e = OverflowError ∧
      (overflow_threshold ≤ Z.abs baseline_tokens ∨
       overflow_threshold ≤ Z.abs (baseline_tokens - saved))%Z
  end.
Proof.
  intros saved. unfold InhibitionController.calculate_energy_metrics, int_to_float.
  cbv zeta. fold saved.
  destruct (Z.leb_spec overflow_threshold (Z.abs baseline_tokens)); [by auto|].
  destruct (Z.leb_spec overflow_threshold (Z.abs (baseline_tokens - saved))); [by auto|].
  destruct (PrimFloat.ltb 0 _) eqn:Hpos.
  - unfold float_truediv. rewrite (ltb_0_nonzero _ Hpos).
    cbn [InhibitionController.em_actual_tokens InhibitionController.em_tokens_saved
         InhibitionController.em_efficiency_gain_percent
         InhibitionController.em_baseline_energy_wh
         InhibitionController.em_energy_saved_wh].
    split_and!; [lia|done| |].
    + intros ->. by vm_compute in Hpos.
    + by intros gain [= <-].
  - cbn [InhibitionController.em_actual_tokens InhibitionController.em_tokens_saved
         InhibitionController.em_efficiency_gain_percent].
    split_and!; [lia|done|done|]. intros gain [=].
Qed.
End statistics_of_controller.

(** ** The attributes of a node *)

Section node_info_facts.
Context {rt : PyRuntime}.
Implicit Types (self : CausalGraph.t) (a b n : string).

(** X26. The attributes [get_node_info] returns after
    [add_verified_fact(a, b, ...)]: those it returned before for a node of
    the semantic layer; the placeholder attributes for an endpoint that was
    not one, also when the id is a node of the self-model layer, whose
    attributes are then hidden; and what it returned before for every other
    id.  A new, non-empty endpoint no longer counts as an unknown entity. *)
Theorem get_node_info_after_add_verified_fact self a b relation confidence source now n :
  let after := CausalGraph.add_verified_fact self a b relation confidence source now in
  CausalGraph.get_node_info after n =
    (if nx.has_node (CausalGraph.semantic self) n then CausalGraph.get_node_info self n
     else if bool_decide (n = a ∨ n = b) then Some Spec.placeholder
     else CausalGraph.get_node_info self n) ∧
  (n = a ∨ n = b → nx.has_node (CausalGraph.semantic self) n = false → n ≠ "" →
   DissonanceDetector.unknown_entity after (Some n) = false).
Proof.
  intros after.
  assert (CausalGraph.get_node_info after n =
    (if nx.has_node (CausalGraph.semantic self) n then CausalGraph.get_node_info self n
     else if bool_decide (n = a ∨ n = b) then Some Spec.placeholder
     else CausalGraph.get_node_info self n)) as Hinfo.
  { unfold CausalGraph.get_node_info at 1.
    unfold nx.has_node at 1. unfold od_mem.
    unfold after at 1 2. rewrite add_verified_fact_nodes.
    change (CausalGraph.self_model after) with (CausalGraph.self_model self).
    unfold CausalGraph.get_node_info.
    destruct (nx.has_node (CausalGraph.semantic self) n) eqn:Hn.
    - apply od_mem_true_get in Hn as [info Hinfo]. by rewrite Hinfo.
    - by case_bool_decide. }
  split; [done|].
  intros Hn Hnew Hne. unfold DissonanceDetector.unknown_entity.
  cbn [mbind option_bind]. rewrite Hinfo, Hnew, bool_decide_eq_true_2 by done.
  by rewrite andb_false_r.
Qed.

(** In every state of the graph a node of the semantic layer has
    attributes. *)
Lemma initial_semantic_attrs :
  Forall (λ kv : string * nx.attrs, dict_truthy (Some kv.2) = true)
    (nx.nodes (CausalGraph._initialize_general_knowledge
                 (CausalGraph._initialize_fine_art_knowledge nx.empty))).
Proof. apply (bool_decide_unpack _). by vm_compute. Qed.

Lemma reachable_semantic_info self n info :
  Spec.reachable self →
  od_get n (nx.nodes (CausalGraph.semantic self)) = Some info →
  dict_truthy (Some info) = true.
Proof.
  intros Hr. revert n info.
  induction Hr as [t0 t1|self a b relation confidence source now _ IH]; intros n info.
  - intros Hget%od_get_Some_elem.
    by apply (proj1 (Forall_forall _ _) initial_semantic_attrs _ Hget).
  - rewrite add_verified_fact_nodes.
    destruct (nx.has_node _ n); [apply IH|].
    case_bool_decide; [|done]. by intros [= <-].
Qed.

(** X27. In every state of a graph the self-model layer is the one the
    constructor built and the episodic layer has no edge; and an entity of a
    claim counts as unknown, for the penalty of the epistemic axis, if and
    only if it is a non-empty id that is a node neither of the semantic nor
    of the self-model layer. *)
Theorem reachable_unknown_entity self entity :
  Spec.reachable self →
  CausalGraph.self_model self = CausalGraph._initialize_self_model nx.empty ∧
  nx.edges (CausalGraph.episodic self) = [] ∧
  (DissonanceDetector.unknown_entity self entity = true ↔
   ∃ e, entity = Some e ∧ e ≠ "" ∧
        nx.has_node (CausalGraph.semantic self) e = false ∧
        nx.has_node (CausalGraph.self_model self) e = false).
Proof.
  intros Hr. split_and!.
  - by apply reachable_self_model.
  - induction Hr; done.
  - unfold DissonanceDetector.unknown_entity.
    destruct entity as [e|]; simpl; [|split; [done|by intros (? & [=] & _)]].
    destruct e as [|c e]; simpl; [split; [done|by intros (? & [= <-] & ? & _)]|].
    unfold CausalGraph.get_node_info, nx.has_node, od_mem.
    destruct (od_get _ (nx.nodes (CausalGraph.semantic self))) as [info|] eqn:Hsem.
    { rewrite (reachable_semantic_info _ _ _ Hr Hsem). simpl.
      split; [done|]. intros (? & [= <-] & _ & Hx & _). by rewrite Hsem in Hx. }
    destruct (od_get _ (nx.nodes (CausalGraph.self_model self))) as [info|] eqn:Hself.
    { rewrite (reachable_self_model_info _ _ _ Hr Hself). simpl.
      split; [done|]. intros (? & [= <-] & _ & _ & Hx). by rewrite Hself in Hx. }
    simpl. split; [|done]. intros _. eexists. split_and!; [done|done|by rewrite Hsem|by rewrite Hself].
Qed.
End node_info_facts.

(** ** The further properties at concrete inputs *)

(** X1 at the claim of the benchmarks for a question about one entity. *)
Lemma no_inhibition_without_two_entities_witness :
  let r := (DissonanceDetector.calculate_dissonance (rt := Run.runtime) Run.graph
              DissonanceDetector.__init__ "language" 0 [] (Some Run.entity_only_claim)
              (Run.second 0)).2 in
  DissonanceDetector.inhibition_level r = "none" ∧
  DissonanceDetector.should_inhibit r = false.
Proof.
  destruct (no_inhibition_without_two_entities (rt := Run.runtime) Run.graph
              DissonanceDetector.__init__ "language" 0 [] (Some Run.entity_only_claim)
              (Run.second 0)) as (_ & _ & Hlevel & Hflag).
  - reflexivity.
  - split; [exact Hlevel|exact Hflag].
Defined.

(** X2 at the module's own test of a claim between unconnected entities. *)
Lemma unverified_relationship_inhibited_witness :
  let r := (DissonanceDetector.calculate_dissonance (rt := Run.runtime) Run.graph
              DissonanceDetector.__init__ "partnership" 4 ["The"; "Hahnemühle"; "Awagami"]
              (Some (Run.claim_of "Hahnemühle" "partnership" "Awagami"))
              (Run.second 0)).2 in
  DissonanceDetector.semantic (DissonanceDetector.components r) = 0.95%float ∧
  DissonanceDetector.should_inhibit r = true.
Proof.
  destruct (unverified_relationship_inhibited (rt := Run.runtime) Run.graph
              DissonanceDetector.__init__ "partnership" 4 ["The"; "Hahnemühle"; "Awagami"]
              (Run.claim_of "Hahnemühle" "partnership" "Awagami")
              "Hahnemühle" "Awagami" (Run.second 0)) as (Hsem & _ & Hflag & _).
  - reflexivity.
  - discriminate.
  - reflexivity.
  - discriminate.
  - vm_compute. reflexivity.
  - split; [exact Hsem|exact Hflag].
Defined.

(** X3 at the module's own test of a verified relation. *)
Lemma verified_relationship_not_flagged_witness :
  let r := (DissonanceDetector.calculate_dissonance (rt := Run.runtime) Run.graph
              DissonanceDetector.__init__ "manufactures" 5
              ["Hahnemühle"; "Germany"; "company"; "that"]
              (Some (Run.claim_of "Hahnemühle" "manufactures" "Hahnemühle_Bamboo"))
              (Run.second 0)).2 in
  DissonanceDetector.inhibition_level r = "none" ∧
  DissonanceDetector.should_inhibit r = false.
Proof.
  destruct (verified_relationship_not_flagged (rt := Run.runtime) Run.graph
              DissonanceDetector.__init__ "manufactures" 5
              ["Hahnemühle"; "Germany"; "company"; "that"]
              (Run.claim_of "Hahnemühle" "manufactures" "Hahnemühle_Bamboo")
              "Hahnemühle" "Hahnemühle_Bamboo" "manufactures"
              CausalGraph.manufactures 1.0%float (Run.second 0))
    as (_ & _ & Hlevel & Hflag).
  - reflexivity.
  - discriminate.
  - reflexivity.
  - discriminate.
  - reflexivity.
  - vm_compute. reflexivity.
  - vm_compute. reflexivity.
  - vm_compute. reflexivity.
  - reflexivity.
  - reflexivity.
  - left. reflexivity.
  - split; [exact Hlevel|exact Hflag].
Defined.

(** X4 at a partnership claimed between a manufacturer and its own paper. *)
Lemma unlabelled_relation_flagged_witness :
  let r := (DissonanceDetector.calculate_dissonance (rt := Run.runtime) Run.graph
              DissonanceDetector.__init__ "partnership" 4 ["The"; "Hahnemühle"]
              (Some (Run.claim_of "Hahnemühle" "partnership" "Hahnemühle_Bamboo"))
              (Run.second 0)).2 in
  DissonanceDetector.inhibition_level r ≠ "none".
Proof.
  destruct (unlabelled_relation_flagged (rt := Run.runtime) Run.graph
              DissonanceDetector.__init__ "partnership" 4 ["The"; "Hahnemühle"]
              (Run.claim_of "Hahnemühle" "partnership" "Hahnemühle_Bamboo")
              "Hahnemühle" "Hahnemühle_Bamboo" "partnership" (Run.second 0))
    as (_ & _ & Hlevel).
  - reflexivity.
  - discriminate.
  - reflexivity.
  - discriminate.
  - reflexivity.
  - discriminate.
  - discriminate.
  - discriminate.
  - apply (bool_decide_unpack _). vm_compute. exact I.
  - exact Hlevel.
Defined.

(** X5 at the module's own test of a claim between unconnected entities. *)
Lemma decide_action_follows_level_witness :
  let r := (DissonanceDetector.calculate_dissonance (rt := Run.runtime) Run.graph
              DissonanceDetector.__init__ "partnership" 4 ["The"; "Hahnemühle"; "Awagami"]
              (Some (Run.claim_of "Hahnemühle" "partnership" "Awagami"))
              (Run.second 0)).2 in
  ∃ d,
    (InhibitionController.decide_action (rt := Run.runtime) Run.graph Run.controller
       (DissonanceDetector.score r) "partnership" 4 30 ["The"; "Hahnemühle"; "Awagami"]
       (Some (Run.claim_of "Hahnemühle" "partnership" "Awagami")) (Run.second 0) 0).2
    = Ok d ∧
    InhibitionController.action d = "reframe".
Proof.
  destruct (decide_action_follows_level (rt := Run.runtime) Run.graph
              DissonanceDetector.__init__ "partnership" 4 ["The"; "Hahnemühle"; "Awagami"]
              (Some (Run.claim_of "Hahnemühle" "partnership" "Awagami")) (Run.second 0)
              Run.graph Run.controller "partnership" 30 ["The"; "Hahnemühle"; "Awagami"]
              (Some (Run.claim_of "Hahnemühle" "partnership" "Awagami")) (Run.second 0)
              0%nat) as (_ & Hreframe & _).
  - apply Spec.controller_init.
  - lia.
  - apply Hreframe. reflexivity.
Defined.

(** X6 at the detector after the second test of its module. *)
Lemma detector_counters_witness :
  DissonanceDetector.total_detections Run.detector_after_test =
    Z.of_nat (length (DissonanceDetector.detection_history Run.detector_after_test)) ∧
  (0 ≤ DissonanceDetector.inhibitions_triggered Run.detector_after_test
     ≤ DissonanceDetector.total_detections Run.detector_after_test)%Z.
Proof.
  destruct (detector_counters (rt := Run.runtime) Run.detector_after_test)
    as (Htotal & _ & Hbounds & _).
  - apply (Spec.detector_step (rt := Run.runtime)). apply Spec.detector_init.
  - split; [exact Htotal|exact Hbounds].
Defined.

(** X7 at the controller after the third test of its module. *)
Lemma controller_counters_witness :
  InhibitionController.inhibitions_by_type Run.controller_after_test !! "uncertainty"
    = Some 0%Z ∧
  (Z.of_nat (length (InhibitionController.decision_history Run.controller_after_test))
   ≤ InhibitionController.total_decisions Run.controller_after_test)%Z.
Proof.
  destruct (controller_counters (rt := Run.runtime) Run.controller_after_test)
    as (_ & _ & _ & Hu & _ & _ & Hlen).
  - apply (Spec.controller_step (rt := Run.runtime)). apply Spec.controller_init.
  - split; [exact Hu|exact Hlen].
Defined.

(** X9 at a manufacturer. *)
Lemma query_relationship_self_witness :
  CausalGraph.query_relationship (rt := Run.runtime) Run.graph "Hahnemühle" "Hahnemühle" =
  {| CausalGraph.exists_ := true;
     CausalGraph.relation_type := Some "indirect";
     CausalGraph.confidence := 0.7%float;
     CausalGraph.path := Some ["Hahnemühle"];
     CausalGraph.direct := false |}.
Proof.
  apply (query_relationship_self (rt := Run.runtime) Run.graph "Hahnemühle").
  - vm_compute. reflexivity.
  - vm_compute. reflexivity.
Defined.

(** X11: a built-in relation after an unrelated fact was learnt. *)
Lemma add_verified_fact_keeps_relationships_witness :
  CausalGraph.exists_
    (CausalGraph.query_relationship (Run.learn Run.graph "A" "B")
       "Hahnemühle" "Hahnemühle_Bamboo") = true.
Proof.
  apply (add_verified_fact_keeps_relationships (rt := Run.runtime) Run.graph "A" "B"
           "related_to" 0.9%float None (Run.clock 1) "Hahnemühle" "Hahnemühle_Bamboo").
  vm_compute. reflexivity.
Defined.

(** X14: the search for "bamboo" in the built-in graph, at one of its
    concepts. *)
Lemma search_nodes_complete_witness :
  let node := ("Bamboo_Fiber",
               CausalGraph.kw [("node_type", VStr "concept");
                               ("material_type", VStr "natural");
                               ("sustainability", VStr "high")]) in
  (nx.number_of_nodes (CausalGraph.semantic Run.graph) ≤ 30)%Z ∧
  (node ∈ CausalGraph.search_nodes (rt := Run.runtime) Run.lower Run.graph "bamboo" 30 ↔
   node ∈ nx.nodes (CausalGraph.semantic Run.graph) ∧
   (str_in (Run.lower "bamboo") (Run.lower node.1) = true ∨
    ∃ key value, node.2 !! key = Some (VStr value) ∧
                 str_in (Run.lower "bamboo") (Run.lower value) = true)).
Proof.
  intros node.
  assert (nx.number_of_nodes (CausalGraph.semantic Run.graph) ≤ 30)%Z as Hlimit.
  { vm_compute. discriminate. }
  split; [exact Hlimit|].
  exact (search_nodes_complete (rt := Run.runtime) Run.lower Run.graph "bamboo" 30 node
           Hlimit).
Defined.

(** X15 at the limit -1. *)
Lemma search_nodes_negative_limit_witness :
  let found := CausalGraph.search_nodes (rt := Run.runtime) Run.lower Run.graph "bamboo"
                 (nx.number_of_nodes (CausalGraph.semantic Run.graph)) in
  CausalGraph.search_nodes (rt := Run.runtime) Run.lower Run.graph "bamboo" (-1) =
  take (length found - Z.to_nat (- -1)) found.
Proof.
  destruct (search_nodes_negative_limit (rt := Run.runtime) Run.lower Run.graph "bamboo"
              (-1)) as [Heq _].
  - lia.
  - exact Heq.
Defined.

(** X16 at the empty query. *)
Lemma search_nodes_empty_query_witness :
  CausalGraph.search_nodes (rt := Run.runtime) Run.lower Run.graph "" 3 =
  take (Z.to_nat 3) (nx.nodes (CausalGraph.semantic Run.graph)).
Proof.
  apply (search_nodes_empty_query (rt := Run.runtime) Run.lower Run.graph "" 3).
  - reflexivity.
  - lia.
Defined.

(** X17 at a fact between two new entities. *)
Lemma search_nodes_finds_learnt_entities_witness :
  ∃ info, ("A", info) ∈
    CausalGraph.search_nodes (rt := Run.runtime) Run.lower (Run.learn Run.graph "A" "B")
      "A" 30.
Proof.
  destruct (search_nodes_finds_learnt_entities (rt := Run.runtime) Run.lower Run.graph
              "A" "B" "related_to" 0.9%float None (Run.clock 1) 30) as [Ha _].
  - vm_compute. discriminate.
  - exact Ha.
Defined.

(** X19 at a question of the benchmark about a partnership. *)
Lemma extracted_claims_inhibited_witness :
  let r := (DissonanceDetector.calculate_dissonance (rt := Run.runtime) Run.graph
              DissonanceDetector.__init__ "partnership" 0 []
              (Some (GPT2Generator.as_claim Run.partnership_claim)) (Run.second 0)).2 in
  Run.partnership_claim ∈
    GPT2Generator._extract_relationship_claims Run.lower
      "What is the Hahnemühle-Awagami partnership?" [] ∧
  DissonanceDetector.should_inhibit r = true.
Proof.
  intros r.
  assert (Run.partnership_claim ∈
    GPT2Generator._extract_relationship_claims Run.lower
      "What is the Hahnemühle-Awagami partnership?" []) as Hc.
  { vm_compute. apply list_elem_of_here. }
  split; [exact Hc|].
  exact (proj2 (proj2 (extracted_claims_inhibited (rt := Run.runtime) Run.lower
    (Run.second 0) (Run.second 0) "What is the Hahnemühle-Awagami partnership?" []
    Run.partnership_claim DissonanceDetector.__init__ "partnership" 0 []
    (Run.second 0) Hc))).
Defined.

(** X20 at the same question, after a relation between the two
    manufacturers was learnt. *)
Lemma extracted_claims_flagged_witness :
  let graph := Run.learn Run.graph "Hahnemühle" "Awagami" in
  let r := (DissonanceDetector.calculate_dissonance (rt := Run.runtime) graph
              DissonanceDetector.__init__ "partnership" 0 []
              (Some (GPT2Generator.as_claim Run.partnership_claim)) (Run.second 0)).2 in
  CausalGraph.exists_ (CausalGraph.query_relationship graph "Hahnemühle" "Awagami") = true ∧
  DissonanceDetector.inhibition_level r ≠ "none".
Proof.
  intros graph r.
  split; [vm_compute; reflexivity|].
  refine (proj2 (proj2 (extracted_claims_flagged (rt := Run.runtime) Run.lower graph
    "What is the Hahnemühle-Awagami partnership?" []
    Run.partnership_claim DissonanceDetector.__init__ "partnership" 0 []
    (Run.second 0) _ _))).
  - vm_compute. apply list_elem_of_here.
  - apply (bool_decide_unpack _). vm_compute. exact I.
Defined.

(** X23 at the detector after the second test of its module. *)
Lemma detector_get_statistics_witness :
  ∃ st,
    DissonanceDetector.get_statistics Run.sum Run.detector_after_test
      = Ok st ∧
    DissonanceDetector.stat_total_detections st =
      Z.of_nat (length (DissonanceDetector.detection_history Run.detector_after_test)).
Proof.
  destruct (detector_get_statistics (rt := Run.runtime) Run.sum Run.detector_after_test)
    as (st & Hst & Htotal & _).
  - apply (Spec.detector_step (rt := Run.runtime)). apply Spec.detector_init.
  - vm_compute. reflexivity.
  - exists st. split; [exact Hst|exact Htotal].
Defined.

(** X24 at the controller after the third test of its module. *)
Lemma controller_get_statistics_witness :
  match InhibitionController.get_statistics Run.controller_after_test with
  | Ok st =>
      (0 ≤ InhibitionController.stat_total_inhibitions st
         ≤ InhibitionController.stat_total_decisions st)%Z
  | Raise e => e = OverflowError
  end.
Proof.
  pose proof (controller_get_statistics (rt := Run.runtime) Run.controller_after_test) as H.
  cbv zeta in H.
  destruct (InhibitionController.get_statistics Run.controller_after_test) as [st|e].
  - refine (proj1 (proj2 (H _))).
    apply (Spec.controller_step (rt := Run.runtime)). apply Spec.controller_init.
  - refine (proj1 (H _)).
    apply (Spec.controller_step (rt := Run.runtime)). apply Spec.controller_init.
Defined.

(** X27 at an id that is in no layer. *)
Lemma reachable_unknown_entity_witness :
  DissonanceDetector.unknown_entity (rt := Run.runtime) Run.graph (Some "Epson") = true ↔
  ∃ e, Some "Epson" = Some e ∧ e ≠ "" ∧
       nx.has_node (CausalGraph.semantic Run.graph) e = false ∧
       nx.has_node (CausalGraph.self_model Run.graph) e = false.
Proof.
  destruct (reachable_unknown_entity (rt := Run.runtime) Run.graph (Some "Epson"))
    as (_ & _ & H).
  - apply Spec.reachable_init.
  - exact H.
Defined.
